(** * PureCheck: the label-analysis pipeline, the upload and chat handlers

    A shallow embedding of [src/helper.py] and [app.py].

    Python values are the values [json.loads] produces (None, bool, int,
    float, str, list, dict); a float is an IEEE binary64 number (Rocq's
    primitive [float]); a str is the sequence of its characters, a Rocq
    [string] holding the code points up to U+00FF; a dict is an association
    list in insertion order, as Python keeps it.  Exceptions are values of
    the error monad [result]; the calls to the hosted models, the lines
    printed, the session slot and the log of calls live in the state monad
    [M]. *)

From Stdlib Require Import ZArith String Ascii List Bool Lia Floats.
From Stdlib Require Import DecimalString.
Import ListNotations.
Set Warnings "-register-all".
Open Scope string_scope.
Open Scope Z_scope.

(** ** Python [str] methods used by the program *)

Module PyStr.

(** The double quote and the line feed, as one-character strings. *)
Definition dq : string := String (ascii_of_nat 34) EmptyString.
Definition nl : string := String (ascii_of_nat 10) EmptyString.

(** [q s] is [s] between double quotes. *)
Definition q (s : string) : string := dq ++ s ++ dq.

(** [str.lower] on one character (A-Z, and the capital letters of Latin-1). *)
Definition lower_ascii (c : ascii) : ascii :=
  let n := nat_of_ascii c in
  if ((65 <=? n) && (n <=? 90))%nat then ascii_of_nat (n + 32)
  else if ((192 <=? n) && (n <=? 222) && negb (n =? 215))%nat
       then ascii_of_nat (n + 32)
       else c.

Fixpoint lower (s : string) : string :=
  match s with
  | EmptyString => EmptyString
  | String c r => String (lower_ascii c) (lower r)
  end.

(** [str.isspace] on one character. *)
Definition isspace (c : ascii) : bool :=
  let n := nat_of_ascii c in
  (((9 <=? n) && (n <=? 13)) || ((28 <=? n) && (n <=? 32))
   || (n =? 133) || (n =? 160))%nat.

Fixpoint lstrip (s : string) : string :=
  match s with
  | EmptyString => EmptyString
  | String c r => if isspace c then lstrip r else s
  end.

Fixpoint rstrip (s : string) : string :=
  match s with
  | EmptyString => EmptyString
  | String c r =>
      match rstrip r with
      | EmptyString => if isspace c then EmptyString else String c EmptyString
      | r' => String c r'
      end
  end.

(** [s.strip()] *)
Definition strip (s : string) : string := rstrip (lstrip s).

(** [s.startswith(p)] *)
Fixpoint starts_with (p s : string) : bool :=
  match p with
  | EmptyString => true
  | String a p' =>
      match s with
      | String b s' => Ascii.eqb a b && starts_with p' s'
      | EmptyString => false
      end
  end.

(** Offset of the first occurrence of [sub] in [s]. *)
Fixpoint index_of (sub s : string) : option nat :=
  if starts_with sub s then Some 0%nat
  else match s with
       | EmptyString => None
       | String _ r => option_map S (index_of sub r)
       end.

(** [sub in s] *)
Definition contains (sub s : string) : bool :=
  match index_of sub s with Some _ => true | None => false end.

Fixpoint drop (n : nat) (s : string) : string :=
  match n, s with
  | O, _ => s
  | S _, EmptyString => EmptyString
  | S n', String _ r => drop n' r
  end.

Fixpoint take (n : nat) (s : string) : string :=
  match n, s with
  | O, _ => EmptyString
  | S _, EmptyString => EmptyString
  | S n', String c r => String c (take n' r)
  end.

(** [s.find(sub, start)] for [0 <= start]: the offset in [s], or -1. *)
Definition find (sub s : string) (start : Z) : Z :=
  if Z.of_nat (String.length s) <? start then -1
  else match index_of sub (drop (Z.to_nat start) s) with
       | Some i => start + Z.of_nat i
       | None => -1
       end.

(** [s[a:b]]: a negative bound counts from the end, both are clamped. *)
Definition slice (s : string) (a b : Z) : string :=
  let len := Z.of_nat (String.length s) in
  let norm i := if i <? 0 then Z.max 0 (i + len) else Z.min i len in
  let a' := norm a in
  let b' := norm b in
  if b' <=? a' then EmptyString
  else take (Z.to_nat (b' - a')) (drop (Z.to_nat a') s).

(** The split of [s] at its last [sep]: what is before, what is after. *)
Fixpoint rsplit_last (sep : ascii) (s : string) : option (string * string) :=
  match s with
  | EmptyString => None
  | String c r =>
      match rsplit_last sep r with
      | Some (a, b) => Some (String c a, b)
      | None => if Ascii.eqb c sep then Some (EmptyString, r) else None
      end
  end.

(** [s.rsplit(sep, 1)] for a one-character [sep]. *)
Definition rsplit1 (sep : ascii) (s : string) : list string :=
  match rsplit_last sep s with
  | Some (a, b) => [a; b]
  | None => [s]
  end.

(** [sep.join(parts)] *)
Fixpoint join (sep : string) (parts : list string) : string :=
  match parts with
  | [] => EmptyString
  | [p] => p
  | p :: rest => p ++ sep ++ join sep rest
  end.

(** The characters of [s], each as a string: iterating over a str. *)
Fixpoint chars (s : string) : list string :=
  match s with
  | EmptyString => []
  | String c r => String c EmptyString :: chars r
  end.

Fixpoint first_index (c : ascii) (s : string) : option nat :=
  match s with
  | EmptyString => None
  | String d r => if Ascii.eqb d c then Some 0%nat
                  else option_map S (first_index c r)
  end.

Fixpoint last_index (c : ascii) (s : string) : option nat :=
  match s with
  | EmptyString => None
  | String d r =>
      match last_index c r with
      | Some i => Some (S i)
      | None => if Ascii.eqb d c then Some 0%nat else None
      end
  end.

End PyStr.

(** ** Python values, exceptions and the two monads *)

(** The values [json.loads] produces.  A dict keeps its keys in insertion
    order, which [str.join] over a dict and [str()] of a dict show. *)
Inductive pyval : Type :=
| VNone
| VBool (b : bool)
| VInt (z : Z)
| VFloat (f : float)
| VStr (s : string)
| VList (l : list pyval)
| VDict (d : list (string * pyval)).

Definition dict : Type := list (string * pyval).

(** The exception classes the program meets.  [JSONDecodeError] and
    [UnicodeEncodeError] are subclasses of [ValueError]; [OtherError]
    stands for the classes of the client libraries (network,
    authentication, file system), all of them subclasses of [Exception]. *)
Inductive exn_class : Type :=
| ValueError
| JSONDecodeError
| UnicodeEncodeError
| TypeError
| KeyError
| IndexError
| AttributeError
| OverflowError
| ZeroDivisionError
| OtherError (name : string).

(** An exception: its class and [str(e)]. *)
Record exn : Type := Exn { exn_cls : exn_class; exn_str : string }.

Inductive result (A : Type) : Type :=
| Ok (a : A)
| Raise (e : exn).
Arguments Ok {A} a.
Arguments Raise {A} e.

Definition rbind {A B} (r : result A) (k : A -> result B) : result B :=
  match r with
  | Ok a => k a
  | Raise e => Raise e
  end.

Notation "'let?' x ':=' r 'in' k" := (rbind r (fun x => k))
  (at level 10, x name, r at level 100, k at level 200).

(** [except (ValueError, TypeError)] *)
Definition is_value_or_type_error (e : exn) : bool :=
  match exn_cls e with
  | ValueError | JSONDecodeError | UnicodeEncodeError | TypeError => true
  | _ => false
  end.

(** [except json.JSONDecodeError] *)
Definition is_json_decode_error (e : exn) : bool :=
  match exn_cls e with
  | JSONDecodeError => true
  | _ => false
  end.

(** [try: r  except <classes>: h] on a computation without effects. *)
Definition rcatch {A} (r : result A) (handles : exn -> bool)
  (h : exn -> result A) : result A :=
  match r with
  | Ok a => Ok a
  | Raise e => if handles e then h e else Raise e
  end.

(** *** dict and the operators the program applies to values *)

Fixpoint dict_get (k : string) (d : dict) : option pyval :=
  match d with
  | [] => None
  | (k', v) :: r => if String.eqb k k' then Some v else dict_get k r
  end.

(** [d[k] = v]: a present key keeps its place, a new key goes last. *)
Fixpoint dict_set (k : string) (v : pyval) (d : dict) : dict :=
  match d with
  | [] => [(k, v)]
  | (k', v') :: r =>
      if String.eqb k k' then (k', v) :: r else (k', v') :: dict_set k v r
  end.

(** [d.pop(k, None)], the value dropped. *)
Fixpoint dict_remove (k : string) (d : dict) : dict :=
  match d with
  | [] => []
  | (k', v') :: r =>
      if String.eqb k k' then r else (k', v') :: dict_remove k r
  end.

(** The name of a value's type, as error messages print it. *)
Definition type_name (v : pyval) : string :=
  match v with
  | VNone => "NoneType"
  | VBool _ => "bool"
  | VInt _ => "int"
  | VFloat _ => "float"
  | VStr _ => "str"
  | VList _ => "list"
  | VDict _ => "dict"
  end.

(** [repr] of a str that holds no quote, backslash or control character. *)
Definition key_repr (k : string) : string := "'" ++ k ++ "'".

(** [v.get(k, default)]: only a dict has the method. *)
Definition py_get (v : pyval) (k : string) (default : pyval) : result pyval :=
  match v with
  | VDict d => Ok (match dict_get k d with Some x => x | None => default end)
  | _ => Raise (Exn AttributeError
                  ("'" ++ type_name v ++ "' object has no attribute 'get'"))
  end.

(** [v[k]] for a str key [k]. *)
Definition py_getitem (v : pyval) (k : string) : result pyval :=
  match v with
  | VDict d =>
      match dict_get k d with
      | Some x => Ok x
      | None => Raise (Exn KeyError (key_repr k))
      end
  | VList _ =>
      Raise (Exn TypeError "list indices must be integers or slices, not str")
  | VStr _ => Raise (Exn TypeError "string indices must be integers, not 'str'")
  | _ => Raise (Exn TypeError
                  ("'" ++ type_name v ++ "' object is not subscriptable"))
  end.

(** [bool(v)] *)
Definition truthy (v : pyval) : bool :=
  match v with
  | VNone => false
  | VBool b => b
  | VInt z => negb (z =? 0)
  | VFloat f => negb (PrimFloat.eqb f 0%float)
  | VStr s => negb (String.eqb s EmptyString)
  | VList l => match l with [] => false | _ => true end
  | VDict d => match d with [] => false | _ => true end
  end.

(** [v == s] for a str literal [s] *)
Definition eq_str (v : pyval) (s : string) : bool :=
  match v with
  | VStr t => String.eqb t s
  | _ => false
  end.

(** [float(z)] for an int: rounded to nearest, ties to even; an int beyond
    the range of binary64 raises. *)
Definition float_of_int (z : Z) : result float :=
  match binary_normalize prec emax z 0 false with
  | S754_infinity _ =>
      Raise (Exn OverflowError "int too large to convert to float")
  | sf => Ok (SF2Prim sf)
  end.

Definition float_of_bool (b : bool) : float :=
  if b then 1%float else 0%float.

(** [f / v] for a float [f]. *)
Definition float_truediv (f : float) (v : pyval) : result float :=
  let? g := match v with
            | VFloat g => Ok g
            | VInt z => float_of_int z
            | VBool b => Ok (float_of_bool b)
            | _ => Raise (Exn TypeError
                            ("unsupported operand type(s) for /: 'float' and '"
                             ++ type_name v ++ "'"))
            end in
  if PrimFloat.eqb g 0%float
  then Raise (Exn ZeroDivisionError "float division by zero")
  else Ok (PrimFloat.div f g).

(** [f * 100] *)
Definition float_times_100 (f : float) : float := PrimFloat.mul f 100%float.

(** [l[i]] on a list *)
Definition list_getitem {A} (l : list A) (i : nat) : result A :=
  match nth_error l i with
  | Some x => Ok x
  | None => Raise (Exn IndexError "list index out of range")
  end.

(** [sep.join(v)]: [v] is iterated; every item must be a str. *)
Fixpoint all_strs (l : list pyval) : option (list string) :=
  match l with
  | [] => Some []
  | VStr s :: r => option_map (cons s) (all_strs r)
  | _ :: _ => None
  end.

(** The first item that is no str, with its position. *)
Fixpoint first_non_str (i : nat) (l : list pyval) : option (nat * pyval) :=
  match l with
  | [] => None
  | VStr _ :: r => first_non_str (S i) r
  | v :: _ => Some (i, v)
  end.

Definition nat_str (n : nat) : string :=
  NilEmpty.string_of_uint (Nat.to_uint n).

Definition py_join (sep : string) (v : pyval) : result string :=
  match v with
  | VList l =>
      match all_strs l with
      | Some parts => Ok (PyStr.join sep parts)
      | None =>
          match first_non_str 0 l with
          | Some (i, x) =>
              Raise (Exn TypeError
                       ("sequence item " ++ nat_str i
                        ++ ": expected str instance, " ++ type_name x
                        ++ " found"))
          | None => Raise (Exn TypeError "sequence item: expected str instance")
          end
      end
  | VStr s => Ok (PyStr.join sep (PyStr.chars s))
  | VDict d => Ok (PyStr.join sep (map fst d))
  | _ => Raise (Exn TypeError "can only join an iterable")
  end.

(** *** The world: the log of calls and the Flask session *)

(** A printed line may hold characters beyond U+00FF (the marks of
    [analyze_food_product]): it is the list of its code points. *)
Definition text : Type := list Z.

Definition code_points (s : string) : text :=
  map (fun c => Z.of_nat (nat_of_ascii c)) (list_ascii_of_string s).

(** What a run does that a test would count or stub.  [VisionCall] marks
    that the extraction has entered lines 83-124, where it builds the
    client, reads the image and sends the request to gpt-4o: it is logged
    whether or not the request goes out.  [Print] marks a call of [print],
    whether or not the line can be written. *)
Inductive event : Type :=
| SaveFile (path : string)           (* file.save(filepath) *)
| VisionCall (image_path : pyval)    (* lines 83-124 of the extraction *)
| Normalize (nutrition : pyval)      (* calculate_nutrient_analysis entered *)
| InrScore (product_data : pyval)    (* calculate_inr_score entered *)
| RatingCall (prompt : string)       (* the o3-mini request *)
| Retrieve (query : pyval)           (* the retriever of rag_chain *)
| AnswerCall (query : pyval)         (* the answer generation of rag_chain *)
| ChatCall (prompt : string)         (* chatModel.invoke(prompt) *)
| Print (line : text).               (* print(line) *)

Record world : Type := World { trace : list event; session : dict }.

Definition M (A : Type) : Type := world -> result A * world.

Definition ret {A} (a : A) : M A := fun w => (Ok a, w).

Definition bind {A B} (c : M A) (k : A -> M B) : M B :=
  fun w => match c w with
           | (Ok a, w') => k a w'
           | (Raise e, w') => (Raise e, w')
           end.

Notation "x <- c ;; k" := (bind c (fun x => k))
  (at level 200, c at level 100, k at level 200, right associativity).
Notation "c ;;; k" := (bind c (fun _ => k))
  (at level 200, k at level 200, right associativity).

(** A computation without effects, run inside [M]. *)
Definition lift {A} (r : result A) : M A := fun w => (r, w).

(** [try: c  except Exception as e: h e]: what [c] did before it raised
    stays done. *)
Definition try_except {A} (c : M A) (h : exn -> M A) : M A :=
  fun w => match c w with
           | (Ok a, w') => (Ok a, w')
           | (Raise e, w') => h e w'
           end.

Definition log (ev : event) : M unit :=
  fun w => (Ok tt, World (trace w ++ [ev]) (session w)).

(** Flask keeps the session in a signed cookie.  At the end of a request
    the session is written as JSON with the keys of every dict sorted
    ([sort_keys] of the application's JSON provider); the next request
    reads the cookie back.  [insert_key] and [cookie_value] are that round
    trip on a stored value: every dict comes back with its keys in the
    order of [sorted]; None, bool, int, float, str and the order of a list
    come back as they were. *)
Fixpoint insert_key (k : string) (v : pyval) (d : dict) : dict :=
  match d with
  | [] => [(k, v)]
  | (k', v') :: rest =>
      if String.leb k k' then (k, v) :: d
      else (k', v') :: insert_key k v rest
  end.

Fixpoint cookie_value (v : pyval) : pyval :=
  match v with
  | VList l => VList (map cookie_value l)
  | VDict d =>
      VDict ((fix entries (d : list (string * pyval)) : dict :=
                match d with
                | [] => []
                | (k, x) :: rest => insert_key k (cookie_value x) (entries rest)
                end) d)
  | _ => v
  end.

(** The entries of a dict after the round trip. *)
Definition cookie_entries (d : dict) : dict :=
  fold_right (fun kx acc => insert_key (fst kx) (cookie_value (snd kx)) acc)
    [] d.

(** [session.get(k)], in a request that follows the one that stored the
    value. *)
Definition session_get (k : string) : M pyval :=
  fun w => (Ok (match dict_get k (session w) with
                | Some v => cookie_value v
                | None => VNone
                end), w).

(** [session[k] = v] *)
Definition session_set (k : string) (v : pyval) : M unit :=
  fun w => (Ok tt, World (trace w) (dict_set k v (session w))).

(** [session.pop(k, None)] *)
Definition session_pop (k : string) : M unit :=
  fun w => (Ok tt, World (trace w) (dict_remove k (session w))).

(** The world after more events. *)
Definition logged (w : world) (evs : list event) : world :=
  World (trace w ++ evs) (session w).

(** How often an event of a kind is in a log. *)
Definition count_events (p : event -> bool) (t : list event) : nat :=
  List.length (filter p t).

Definition is_vision_call (ev : event) : bool :=
  match ev with VisionCall _ => true | _ => false end.
Definition is_normalize (ev : event) : bool :=
  match ev with Normalize _ => true | _ => false end.
Definition is_inr_score (ev : event) : bool :=
  match ev with InrScore _ => true | _ => false end.
Definition is_rating_call (ev : event) : bool :=
  match ev with RatingCall _ => true | _ => false end.
Definition is_retrieve (ev : event) : bool :=
  match ev with Retrieve _ => true | _ => false end.
Definition is_chat_call (ev : event) : bool :=
  match ev with ChatCall _ => true | _ => false end.

(** ** helper.py *)

Section Program.

(** Python's built-ins and the hosted services, which the repository calls
    and does not define.  [float_of_str s] is [float(s)] on a str, [None]
    where it raises ValueError; [json_loads] is [json.loads]; [py_str] is
    [str(v)], as an f-string renders a value; [format_1f] renders a float
    with the format [.1f].  A service maps its request to the text of the
    reply, or to the exception the client library raises; [vision_call]
    is lines 83-124 of the extraction for the key and the endpoint of the
    run: building the client, opening and encoding the image (where a path
    that [open] does not take, or a file that cannot be read, raises) and
    the request.  [stdout_write]
    is what writing a line to standard output does: nothing to report, or
    the exception of the stream (UnicodeEncodeError for a character the
    encoding of the stream does not have). *)
Variable float_of_str : string -> option float.
Variable json_loads : string -> result pyval.
Variable py_str : pyval -> string.
Variable format_1f : float -> string.
Variable getenv_api_key : option string.
Variable vision_call : pyval -> result string.
Variable rating_call : string -> result string.
Variable chat_call : string -> result string.
Variable retriever : pyval -> result (list string).
Variable answer_call : list string -> pyval -> result string.
Variable secure_filename : string -> string.
Variable save_file : string -> result unit.
Variable stdout_write : text -> result unit.

(** [print(line)] *)
Definition print (line : text) : M unit :=
  log (Print line) ;;;
  lift (stdout_write line).

Definition print_str (line : string) : M unit := print (code_points line).

(** [float(v)] *)
Definition py_float (v : pyval) : result float :=
  match v with
  | VFloat f => Ok f
  | VInt z => float_of_int z
  | VBool b => Ok (float_of_bool b)
  | VStr s =>
      match float_of_str s with
      | Some f => Ok f
      | None => Raise (Exn ValueError
                         ("could not convert string to float: " ++ key_repr s))
      end
  | _ => Raise (Exn TypeError
                  ("float() argument must be a string or a real number, not '"
                   ++ type_name v ++ "'"))
  end.

(** [format(v, '.1f')] *)
Definition py_format_1f (v : pyval) : result string :=
  match v with
  | VFloat f => Ok (format_1f f)
  | VInt z => let? f := float_of_int z in Ok (format_1f f)
  | VBool b => Ok (format_1f (float_of_bool b))
  | VStr _ =>
      Raise (Exn ValueError "Unknown format code 'f' for object of type 'str'")
  | _ => Raise (Exn TypeError
                  ("unsupported format string passed to " ++ type_name v
                   ++ ".__format__"))
  end.

Definition is_none (v : pyval) : bool :=
  match v with VNone => true | _ => false end.

(** *** allowed_file *)

(** [x in allowed_extensions] on a set of str *)
Definition set_mem (x : string) (s : list string) : bool :=
  existsb (String.eqb x) s.

Definition allowed_file (filename : string) (allowed_extensions : list string)
  : result bool :=
  if PyStr.contains "." filename then
    let? ext := list_getitem (PyStr.rsplit1 "."%char filename) 1 in
    Ok (set_mem (PyStr.lower ext) allowed_extensions)
  else Ok false.

(** *** calculate_nutrient_analysis *)

Definition nutrients : list string :=
  ["energy_kcal"; "sugars_g"; "saturated_fat_g"; "sodium_mg"; "protein_g"].

(** The value of a mandatory nutrient after the coercion of lines 356-364:
    the int 0 of the fallbacks, or a float. *)
Inductive coerced : Type :=
| CZero
| CFloat (f : float).

Definition coerced_val (c : coerced) : pyval :=
  match c with
  | CZero => VInt 0
  | CFloat f => VFloat f
  end.

Definition coerce_value (value : pyval) : result coerced :=
  if eq_str value "Not Available" || is_none value || eq_str value "N/A"
  then Ok CZero
  else rcatch (let? f := py_float value in Ok (CFloat f))
              is_value_or_type_error
              (fun _ => Ok CZero).

(** [(value / baseline * 100) if value and baseline else 0] *)
Definition percent_of_inr (value : coerced) (baseline : pyval) : result pyval :=
  match value with
  | CZero => Ok (VInt 0)
  | CFloat f =>
      if truthy (VFloat f) && truthy baseline
      then let? d := float_truediv f baseline in
           Ok (VFloat (float_times_100 d))
      else Ok (VInt 0)
  end.

(** The body of the loop over the mandatory nutrients. *)
Definition nutrient_entry (product_nutrition : pyval)
  (fssai_inr_baseline : dict) (nutrient : string) : result pyval :=
  let? value := py_get product_nutrition nutrient (VInt 0) in
  let? value := coerce_value value in
  let baseline_key := nutrient in
  let baseline := match dict_get baseline_key fssai_inr_baseline with
                  | Some b => b
                  | None => VInt 1
                  end in
  let? percent := percent_of_inr value baseline in
  Ok (VDict [("per_100g", coerced_val value);
             ("inr_baseline", baseline);
             ("percent_of_inr", percent)]).

Fixpoint for_nutrients (product_nutrition : pyval) (fssai_inr_baseline : dict)
  (todo : list string) (analysis : dict) : result dict :=
  match todo with
  | [] => Ok analysis
  | nutrient :: rest =>
      let? entry := nutrient_entry product_nutrition fssai_inr_baseline
                      nutrient in
      for_nutrients product_nutrition fssai_inr_baseline rest
        (dict_set nutrient entry analysis)
  end.

(** The dict literal of lines 384-388, inside the [try]. *)
Definition fiber_entry (fiber : pyval) (fssai_inr_baseline : dict)
  : result pyval :=
  let? f := py_float fiber in
  let? b := py_getitem (VDict fssai_inr_baseline) "fiber_g" in
  let? b' := py_getitem (VDict fssai_inr_baseline) "fiber_g" in
  let? d := float_truediv f b' in
  Ok (VDict [("per_100g", VFloat f);
             ("inr_baseline", b);
             ("percent_of_inr", VFloat (float_times_100 d))]).

Definition add_fiber (product_nutrition : pyval) (fssai_inr_baseline : dict)
  (analysis : dict) : result dict :=
  let? fiber := py_get product_nutrition "fiber_g" VNone in
  if negb (eq_str fiber "Not Available") && negb (is_none fiber)
     && negb (eq_str fiber "N/A")
  then rcatch (let? entry := fiber_entry fiber fssai_inr_baseline in
               Ok (dict_set "fiber_g" entry analysis))
              is_value_or_type_error
              (fun _ => Ok analysis)
  else Ok analysis.

Definition calculate_nutrient_analysis (product_nutrition : pyval)
  (fssai_inr_baseline : dict) : result pyval :=
  let? analysis := for_nutrients product_nutrition fssai_inr_baseline
                     nutrients [] in
  let? analysis := add_fiber product_nutrition fssai_inr_baseline analysis in
  Ok (VDict analysis).

(** *** extract_nutrition_info_gpt4o *)

Definition fence_json : string := "```json".
Definition fence : string := "```".

(** Lines 129-138: the text handed to [json.loads]. *)
Definition locate_json (result_text : string) : string :=
  if PyStr.contains fence_json result_text then
    let json_start := PyStr.find fence_json result_text 0 + 7 in
    let json_end := PyStr.find fence result_text json_start in
    PyStr.strip (PyStr.slice result_text json_start json_end)
  else if PyStr.contains fence result_text then
    let json_start := PyStr.find fence result_text 0 + 3 in
    let json_end := PyStr.find fence result_text json_start in
    PyStr.strip (PyStr.slice result_text json_start json_end)
  else result_text.

(** Lines 127-152: the [try] around the parse. *)
Definition parse_extraction (result_text : string) : result pyval :=
  rcatch
    (let? nutrition_data := json_loads (locate_json result_text) in
     Ok (VDict [("success", VBool true);
                ("data", nutrition_data);
                ("raw_response", VStr result_text)]))
    is_json_decode_error
    (fun e =>
       Ok (VDict [("success", VBool false);
                  ("error", VStr ("Failed to parse JSON: " ++ exn_str e));
                  ("raw_response", VStr result_text)])).

(** The request to the vision model (lines 83-124: the client, the encoded
    image, the messages, the call, the text of the reply) is one call of
    [vision_call]; it stands outside the [try]. *)
Definition extract_nutrition_info_gpt4o (image_path : pyval)
  (api_key : option string) : M pyval :=
  _ <- lift (match api_key with
             | Some _ => Ok tt
             | None =>
                 match getenv_api_key with
                 | Some k =>
                     if String.eqb k EmptyString
                     then Raise (Exn ValueError
"API key not provided and NETAICONNECT_API_KEY environment variable not set")
                     else Ok tt
                 | None => Raise (Exn ValueError
"API key not provided and NETAICONNECT_API_KEY environment variable not set")
                 end
             end) ;;
  log (VisionCall image_path) ;;;
  result_text <- lift (vision_call image_path) ;;
  lift (parse_extraction result_text).

(** *** calculate_inr_score *)

(** The first match of the pattern [\{[\s\S]*\}]: from the first opening
    brace of the text through its last closing brace, when that one comes
    later. *)
Definition re_search_braces (text : string) : option string :=
  match PyStr.first_index "{"%char text with
  | Some i =>
      let from_brace := PyStr.drop i text in
      match PyStr.last_index "}"%char from_brace with
      | Some j => Some (PyStr.take (S j) from_brace)
      | None => None
      end
  | None => None
  end.

Definition times_sign : string := String (ascii_of_nat 215) EmptyString.

(** The f-string of lines 272-323, over its rendered fields. *)
Definition reasoning_prompt_text
  (ptype energy sugars satfat sodium protein fiber : string)
  (b_energy b_sugars b_satfat b_sodium b_protein b_fiber : string)
  (a_energy a_sugars a_satfat a_sodium a_protein : string) : string :=
"You are an expert food nutrition analyst tasked with calculating the Indian Nutrition Rating (INR) score for a food product based on FSSAI guidelines.

**Product Information:**
- Product Type: " ++ ptype ++ "
- Nutritional Information (per 100g):
  - Energy: " ++ energy ++ " kcal
  - Sugars: " ++ sugars ++ " g
  - Saturated Fat: " ++ satfat ++ " g
  - Sodium: " ++ sodium ++ " mg
  - Protein: " ++ protein ++ " g
  - Fiber: " ++ fiber ++ "

**FSSAI INR Baseline Values (2000 kcal diet):**
- Energy: " ++ b_energy ++ " kcal
- Sugars: " ++ b_sugars ++ " g
- Saturated Fat: " ++ b_satfat ++ " g
- Sodium: " ++ b_sodium ++ " mg
- Protein: " ++ b_protein ++ " g
- Fiber: " ++ b_fiber ++ " g

**Nutrient Analysis (% of INR per 100g):**
- Energy: " ++ a_energy ++ "%
- Sugars: " ++ a_sugars ++ "%
- Saturated Fat: " ++ a_satfat ++ "%
- Sodium: " ++ a_sodium ++ "%
- Protein: " ++ a_protein ++ "%

**Task:**
Calculate the Indian Nutrition Rating (INR) score (0-100) using this methodology:

1. **Negative Points** (0-10 each, max 40 total):
   - Energy, Sugars, Saturated Fat, Sodium (capped at 10 points each)
   
2. **Positive Points** (0-5 each, max 10 total):
   - Protein, Fiber

3. **Final Score:**
   - Raw Score = (Total Positive - Total Negative) + 40
   - Scale to 0-100: Raw Score " ++ times_sign ++ " 2
   - Grade: A (80-100), B (60-79), C (40-59), D (20-39), E (0-19)

**Output Format (JSON only):**
{
    " ++ PyStr.q "negative_points" ++ ": {" ++ PyStr.q "energy" ++ ": <val>, "
 ++ PyStr.q "sugars" ++ ": <val>, " ++ PyStr.q "saturated_fat" ++ ": <val>, "
 ++ PyStr.q "sodium" ++ ": <val>, " ++ PyStr.q "total" ++ ": <val>},
    " ++ PyStr.q "positive_points" ++ ": {" ++ PyStr.q "protein" ++ ": <val>, "
 ++ PyStr.q "fiber" ++ ": <val>, " ++ PyStr.q "total" ++ ": <val>},
    " ++ PyStr.q "inr_score" ++ ": <0-100>,
    " ++ PyStr.q "grade" ++ ": " ++ PyStr.q "<A/B/C/D/E>" ++ ",
    " ++ PyStr.q "interpretation" ++ ": " ++ PyStr.q "<brief text>" ++ ",
    " ++ PyStr.q "health_warnings" ++ ": [<list>],
    " ++ PyStr.q "positive_claims" ++ ": [<list>]
}
".

(** The fields of the f-string, evaluated in the order they stand. *)
Definition reasoning_prompt (product_data analysis : pyval)
  (fssai_inr_baseline : dict) : result string :=
  let info k := let? n := py_getitem product_data "nutritional_info_per_100g" in
                py_getitem n k in
  let base k := py_getitem (VDict fssai_inr_baseline) k in
  let pct k := let? a := py_getitem analysis k in
               let? p := py_getitem a "percent_of_inr" in
               py_format_1f p in
  let? ptype := py_get product_data "product_type" (VStr "Solid") in
  let? energy := info "energy_kcal" in
  let? sugars := info "sugars_g" in
  let? satfat := info "saturated_fat_g" in
  let? sodium := info "sodium_mg" in
  let? protein := info "protein_g" in
  let? n := py_getitem product_data "nutritional_info_per_100g" in
  let? fiber := py_get n "fiber_g" (VStr "Not Available") in
  let? b_energy := base "energy_kcal" in
  let? b_sugars := base "sugars_g" in
  let? b_satfat := base "saturated_fat_g" in
  let? b_sodium := base "sodium_mg" in
  let? b_protein := base "protein_g" in
  let? b_fiber := base "fiber_g" in
  let? a_energy := pct "energy_kcal" in
  let? a_sugars := pct "sugars_g" in
  let? a_satfat := pct "saturated_fat_g" in
  let? a_sodium := pct "sodium_mg" in
  let? a_protein := pct "protein_g" in
  Ok (reasoning_prompt_text
        (py_str ptype) (py_str energy) (py_str sugars) (py_str satfat)
        (py_str sodium) (py_str protein) (py_str fiber)
        (py_str b_energy) (py_str b_sugars) (py_str b_satfat)
        (py_str b_sodium) (py_str b_protein) (py_str b_fiber)
        a_energy a_sugars a_satfat a_sodium a_protein).

(** Lines 332-338: [None] is returned as [VNone]; what [json.loads] raises
    is not caught. *)
Definition parse_inr_reply (response_text : string) : result pyval :=
  match re_search_braces response_text with
  | Some json_match => json_loads json_match
  | None => Ok VNone
  end.

Definition calculate_inr_score (product_data analysis : pyval)
  (fssai_inr_baseline : dict) : M pyval :=
  log (InrScore product_data) ;;;
  prompt <- lift (reasoning_prompt product_data analysis fssai_inr_baseline) ;;
  log (RatingCall prompt) ;;;
  response_text <- lift (rating_call prompt) ;;
  lift (parse_inr_reply response_text).

(** *** create_nutrition_analysis_chain *)

Section Chain.

Variable api_key : option string.
Variable fssai_inr_baseline : dict.

Definition extract_nutrition_step (inputs : pyval) : M pyval :=
  image_path <- lift (match inputs with
                      | VStr _ => Ok inputs
                      | _ => py_get inputs "image_path" VNone
                      end) ;;
  extraction_result <- extract_nutrition_info_gpt4o image_path api_key ;;
  success <- lift (py_getitem extraction_result "success") ;;
  if negb (truthy success) then
    details <- lift (py_get extraction_result "error" VNone) ;;
    ret (VDict [("success", VBool false);
                ("error", VStr "Nutrition extraction failed");
                ("details", details);
                ("image_path", image_path)])
  else
    data <- lift (py_getitem extraction_result "data") ;;
    ret (VDict [("success", VBool true);
                ("image_path", image_path);
                ("product_data", data)]).

Definition calculate_analysis_step (inputs : pyval) : M pyval :=
  success <- lift (py_get inputs "success" VNone) ;;
  if negb (truthy success) then ret inputs
  else
    product_data <- lift (py_getitem inputs "product_data") ;;
    nutrition <- lift (py_getitem product_data "nutritional_info_per_100g") ;;
    log (Normalize nutrition) ;;;
    analysis <- lift (calculate_nutrient_analysis nutrition
                        fssai_inr_baseline) ;;
    image_path <- lift (py_getitem inputs "image_path") ;;
    ret (VDict [("success", VBool true);
                ("image_path", image_path);
                ("product_data", product_data);
                ("analysis", analysis)]).

Definition calculate_inr_step (inputs : pyval) : M pyval :=
  success <- lift (py_get inputs "success" VNone) ;;
  if negb (truthy success) then ret inputs
  else
    product_data <- lift (py_getitem inputs "product_data") ;;
    analysis <- lift (py_getitem inputs "analysis") ;;
    inr_result <- calculate_inr_score product_data analysis
                    fssai_inr_baseline ;;
    if is_none inr_result then
      image_path <- lift (py_getitem inputs "image_path") ;;
      ret (VDict [("success", VBool false);
                  ("error", VStr "INR score calculation failed");
                  ("image_path", image_path)])
    else
      image_path <- lift (py_getitem inputs "image_path") ;;
      ret (VDict [("success", VBool true);
                  ("image_path", image_path);
                  ("product_data", product_data);
                  ("analysis", analysis);
                  ("inr_result", inr_result)]).

(** [chain.invoke(x)] for the chain
    [extract_nutrition_step | calculate_analysis_step | calculate_inr_step]. *)
Definition create_nutrition_analysis_chain (x : pyval) : M pyval :=
  a <- extract_nutrition_step x ;;
  b <- calculate_analysis_step a ;;
  calculate_inr_step b.

End Chain.

(** ** app.py *)

Definition ALLOWED_EXTENSIONS : list string :=
  ["png"; "jpg"; "jpeg"; "gif"; "webp"].

Definition UPLOAD_FOLDER : string := "uploads".

Definition FSSAI_INR_BASELINE : dict :=
  [("energy_kcal", VInt 2000);
   ("total_fat_g", VInt 65);
   ("saturated_fat_g", VInt 20);
   ("carbohydrates_g", VInt 300);
   ("sugars_g", VInt 50);
   ("added_sugars_g", VInt 30);
   ("protein_g", VInt 50);
   ("sodium_mg", VInt 2000);
   ("fiber_g", VInt 25)].

(** [nutrition_analysis_chain.invoke]; the key is the one of the
    environment, without which app.py does not start. *)
Definition nutrition_analysis_chain : pyval -> M pyval :=
  create_nutrition_analysis_chain getenv_api_key FSSAI_INR_BASELINE.

(** [request.files] holds the part named image or not; [filename] is its
    file name; [now] is [datetime.now().strftime('%Y%m%d_%H%M%S')]. *)
Record upload_request : Type :=
  UploadRequest { image : option string; now : string }.

(** [jsonify(body), status] *)
Record response : Type := Response { body : pyval; status : Z }.

(** [os.path.join(folder, name)] on a POSIX system *)
Definition path_join (folder name : string) : string :=
  if PyStr.starts_with "/" name then name else folder ++ "/" ++ name.

Definition upload_image (request : upload_request) : M response :=
  match image request with
  | None =>
      ret (Response (VDict [("error", VStr "No image file provided")]) 400)
  | Some file_filename =>
      if String.eqb file_filename EmptyString then
        ret (Response (VDict [("error", VStr "No file selected")]) 400)
      else
        allowed <- lift (allowed_file file_filename ALLOWED_EXTENSIONS) ;;
        if negb allowed then
          ret (Response (VDict [("error", VStr
"Invalid file type. Please upload an image (PNG, JPG, JPEG, GIF, WEBP)")])
                 400)
        else
          try_except
            (let filename := secure_filename file_filename in
             let timestamp := now request in
             let filename := timestamp ++ "_" ++ filename in
             let filepath := path_join UPLOAD_FOLDER filename in
             log (SaveFile filepath) ;;;
             _ <- lift (save_file filepath) ;;
             chain_result <- nutrition_analysis_chain (VStr filepath) ;;
             success <- lift (py_getitem chain_result "success") ;;
             if negb (truthy success) then
               error <- lift (py_get chain_result "error"
                                (VStr "Analysis failed")) ;;
               details <- lift (py_get chain_result "details" VNone) ;;
               ret (Response (VDict [("error", error); ("details", details)])
                      500)
             else
               product_data <- lift (py_getitem chain_result "product_data") ;;
               analysis <- lift (py_getitem chain_result "analysis") ;;
               inr_result <- lift (py_getitem chain_result "inr_result") ;;
               session_set "current_product"
                 (VDict [("product_data", product_data);
                         ("analysis", analysis);
                         ("inr_result", inr_result);
                         ("image_path", VStr filepath)]) ;;;
               ret (Response (VDict [("success", VBool true);
                                     ("product_data", product_data);
                                     ("analysis", analysis);
                                     ("inr_result", inr_result);
                                     ("image_path", VStr filename)])
                      200))
            (fun e => ret (Response (VDict [("error", VStr (exn_str e))]) 500))
  end.

(** The f-string of lines 189-218, over its rendered fields. *)
Definition product_context_text
  (name brand ptype score grade energy sugars satfat sodium protein : string)
  (warnings claims msg : string) : string :=
"

Current Product Analysis:
- Product: " ++ name ++ "
- Brand: " ++ brand ++ "
- Type: " ++ ptype ++ "
- INR Score: " ++ score ++ "/100
- Grade: " ++ grade ++ "
- Energy: " ++ energy ++ " kcal/100g
- Sugars: " ++ sugars ++ " g/100g
- Saturated Fat: " ++ satfat ++ " g/100g
- Sodium: " ++ sodium ++ " mg/100g
- Protein: " ++ protein ++ " g/100g

Health Warnings: " ++ warnings ++ "
Positive Claims: " ++ claims ++ "

You are the CPG (Compliance and Product Guidance) assistant for FSSAI regulations and nutrition guidelines.
Pin-point your answers based on the product data provided above.
Tell where the guidlines fails. Which clause is violated.


User Question: " ++ msg ++ "

Format your response with:
- Use **bold** for important terms (wrap text in **)
- Use bullet points with " ++ PyStr.q "- " ++ " for lists
- Be concise and friendly
- Include relevant emojis where appropriate
".

(** [s or 'None'] *)
Definition or_none (s : string) : string :=
  if String.eqb s EmptyString then "None" else s.

(** The fields of the f-string, evaluated in the order they stand. *)
Definition product_context (current_product msg : pyval) : result string :=
  let pd := py_getitem current_product "product_data" in
  let inr := py_getitem current_product "inr_result" in
  let info k := let? p := pd in
                let? n := py_getitem p "nutritional_info_per_100g" in
                py_getitem n k in
  let? name := (let? p := pd in py_get p "product_name" (VStr "Unknown")) in
  let? brand := (let? p := pd in py_get p "brand" (VStr "Unknown")) in
  let? ptype := (let? p := pd in py_get p "product_type" (VStr "Solid")) in
  let? score := (let? r := inr in
                 let? s := py_getitem r "inr_score" in
                 py_format_1f s) in
  let? grade := (let? r := inr in py_getitem r "grade") in
  let? energy := info "energy_kcal" in
  let? sugars := info "sugars_g" in
  let? satfat := info "saturated_fat_g" in
  let? sodium := info "sodium_mg" in
  let? protein := info "protein_g" in
  let? warnings := (let? r := inr in
                    let? l := py_get r "health_warnings" (VList []) in
                    py_join ", " l) in
  let? claims := (let? r := inr in
                  let? l := py_get r "positive_claims" (VList []) in
                  py_join ", " l) in
  Ok (product_context_text
        (py_str name) (py_str brand) (py_str ptype) score (py_str grade)
        (py_str energy) (py_str sugars) (py_str satfat) (py_str sodium)
        (py_str protein) (or_none warnings) (or_none claims) (py_str msg)).

(** [rag_chain.invoke({'input': msg})['answer']]: the chain built by
    [create_retrieval_chain] queries the retriever once with the input and
    hands the passages and the input to the answer chain. *)
Definition rag_chain_invoke (msg : pyval) : M string :=
  log (Retrieve msg) ;;;
  docs <- lift (retriever msg) ;;
  log (AnswerCall msg) ;;;
  lift (answer_call docs msg).

(** [data] is [request.get_json()].  The first [print] stands before the
    [try], the second inside it, the third in its handler. *)
Definition chat (data : pyval) : M response :=
  msg <- lift (py_get data "message" (VStr EmptyString)) ;;
  if negb (truthy msg) then
    ret (Response (VDict [("success", VBool false);
                          ("error", VStr "No message provided")]) 400)
  else
    print_str ("User input: " ++ py_str msg) ;;;
    try_except
      (current_product <- session_get "current_product" ;;
       response_text <-
         (if truthy current_product then
            prompt <- lift (product_context current_product msg) ;;
            log (ChatCall prompt) ;;;
            lift (chat_call prompt)
          else rag_chain_invoke msg) ;;
       print_str ("Response: " ++ response_text) ;;;
       ret (Response (VDict [("success", VBool true);
                             ("response", VStr response_text)]) 200))
      (fun e =>
         print_str ("Error: " ++ exn_str e) ;;;
         ret (Response (VDict [("success", VBool false);
                               ("error", VStr (exn_str e))]) 500)).

Definition clear_session : M response :=
  session_pop "current_product" ;;;
  ret (Response (VDict [("success", VBool true)]) 200).

End Program.

(** ** Reference built-ins

    An executable rendering of the four built-ins the program calls, on the
    characters of this model: [float] on a str, [format(x, '.1f')],
    [str] and [json.loads]; and of standard output under two encodings.
    The theorems below hold for any built-ins; these run the examples. *)

Module PyFloat.

Definition is_digit (c : ascii) : bool :=
  let n := nat_of_ascii c in ((48 <=? n) && (n <=? 57))%nat.

Definition digit_val (c : ascii) : Z := Z.of_nat (nat_of_ascii c) - 48.

(** After a first digit: [(["_"] digit)*].  The value read so far, the
    number of digits, and what is left. *)
Fixpoint digits_tail (acc : Z) (cnt : Z) (s : string) : Z * Z * string :=
  match s with
  | String c r =>
      if is_digit c then digits_tail (acc * 10 + digit_val c) (cnt + 1) r
      else if Ascii.eqb c "_" then
        match r with
        | String d r' =>
            if is_digit d
            then digits_tail (acc * 10 + digit_val d) (cnt + 1) r'
            else (acc, cnt, s)
        | EmptyString => (acc, cnt, s)
        end
      else (acc, cnt, s)
  | EmptyString => (acc, cnt, s)
  end.

(** [digit (["_"] digit)*], or nothing read when no digit stands first. *)
Definition digitpart (acc : Z) (s : string) : option (Z * Z * string) :=
  match s with
  | String c r =>
      if is_digit c then Some (digits_tail (acc * 10 + digit_val c) 1 r)
      else None
  | EmptyString => None
  end.

(** The binary64 number nearest to [m * 10^e] for [0 <= m], ties to even;
    [cnt] bounds the number of decimal digits of [m]. *)
Definition of_decimal (neg : bool) (m cnt e : Z) : float :=
  let sign z := if neg then - z else z in
  if m =? 0 then (if neg then neg_zero else zero)
  else if 0 <=? e then
    if 400 <? e then (if neg then neg_infinity else infinity)
    else SF2Prim (binary_normalize prec emax (sign (m * 10 ^ e)) 0 false)
  else if cnt + e <? -400 then (if neg then neg_zero else zero)
  else
    let d := 10 ^ (- e) in
    let k := Z.max 0 (Z.log2 d - Z.log2 m + 64) in
    let n := m * 2 ^ k in
    let qt := n / d in
    let sticky := if n mod d =? 0 then 0 else 1 in
    SF2Prim (binary_normalize prec emax (sign (2 * qt + sticky))
               (- (k + 1)) neg).

Definition exponent (s : string) : option (Z * string) :=
  match s with
  | String c r =>
      if Ascii.eqb c "e" || Ascii.eqb c "E" then
        match r with
        | String sg r' =>
            if Ascii.eqb sg "-" then
              match digitpart 0 r' with
              | Some (v, _, rest) => Some (- v, rest)
              | None => None
              end
            else if Ascii.eqb sg "+" then
              match digitpart 0 r' with
              | Some (v, _, rest) => Some (v, rest)
              | None => None
              end
            else
              match digitpart 0 r with
              | Some (v, _, rest) => Some (v, rest)
              | None => None
              end
        | EmptyString => None
        end
      else None
  | EmptyString => Some (0, s)
  end.

(** [floatnumber]: the digits before and after the point as one integer,
    their number, and the power of ten. *)
Definition floatnumber (s : string) : option (Z * Z * Z) :=
  let finish m cnt nfrac rest :=
    match exponent rest with
    | Some (e, EmptyString) => Some (m, cnt, e - nfrac)
    | _ => None
    end in
  match digitpart 0 s with
  | Some (m, cnt, String "." rest) =>
      match digitpart m rest with
      | Some (m', nfrac, rest') => finish m' (cnt + nfrac) nfrac rest'
      | None => finish m cnt 0 rest
      end
  | Some (m, cnt, rest) => finish m cnt 0 rest
  | None =>
      match s with
      | String "." rest =>
          match digitpart 0 rest with
          | Some (m, nfrac, rest') => finish m nfrac nfrac rest'
          | None => None
          end
      | _ => None
      end
  end.

Definition unsigned (neg : bool) (s : string) : option float :=
  let l := PyStr.lower s in
  if String.eqb l "inf" || String.eqb l "infinity"
  then Some (if neg then neg_infinity else infinity)
  else if String.eqb l "nan" then Some nan
  else match floatnumber s with
       | Some (m, cnt, e) => Some (of_decimal neg m cnt e)
       | None => None
       end.

(** The white space [float] drops around the number: the ASCII white
    space, and U+0085 and U+00A0; not U+001C to U+001F, which [str.strip]
    drops. *)
Definition is_space (c : ascii) : bool :=
  let n := nat_of_ascii c in
  (((9 <=? n) && (n <=? 13)) || (n =? 32) || (n =? 133) || (n =? 160))%nat.

Fixpoint lstrip (s : string) : string :=
  match s with
  | EmptyString => EmptyString
  | String c r => if is_space c then lstrip r else s
  end.

Fixpoint rstrip (s : string) : string :=
  match s with
  | EmptyString => EmptyString
  | String c r =>
      match rstrip r with
      | EmptyString => if is_space c then EmptyString else String c EmptyString
      | r' => String c r'
      end
  end.

(** [float(s)] for a str [s]; [None] is ValueError. *)
Definition of_string (s : string) : option float :=
  match rstrip (lstrip s) with
  | String "-" r => unsigned true r
  | String "+" r => unsigned false r
  | t => unsigned false t
  end.

Definition Z_str (z : Z) : string := NilZero.string_of_int (Z.to_int z).

(** [num / den] rounded to the nearest integer, ties to even, [0 < den]. *)
Definition div_half_even (num den : Z) : Z :=
  let qt := num / den in
  let r := num mod den in
  match 2 * r ?= den with
  | Lt => qt
  | Gt => qt + 1
  | Eq => if Z.even qt then qt else qt + 1
  end.

(** [format(x, '.1f')] *)
Definition format_1f (x : float) : string :=
  match Prim2SF x with
  | S754_nan => "nan"
  | S754_infinity s => if s then "-inf" else "inf"
  | S754_zero s => if s then "-0.0" else "0.0"
  | S754_finite s m e =>
      let n := if 0 <=? e then Zpos m * 2 ^ e * 10
               else div_half_even (Zpos m * 10) (2 ^ (- e)) in
      (if s then "-" else EmptyString)
      ++ Z_str (n / 10) ++ "." ++ Z_str (n mod 10)
  end.

End PyFloat.

(** [str(v)] and [repr(v)] *)
Module PyRepr.

(** Is [10^k <= num / den], for positive [num] and [den]. *)
Definition le_pow10 (k num den : Z) : bool :=
  if 0 <=? k then 10 ^ k * den <=? num else den <=? num * 10 ^ (- k).

(** The [k] with [10^k <= num / den < 10^(k+1)], from an estimate. *)
Fixpoint adjust_k (fuel : nat) (k num den : Z) : Z :=
  match fuel with
  | O => k
  | S f =>
      if le_pow10 (k + 1) num den then adjust_k f (k + 1) num den
      else if le_pow10 k num den then k
           else adjust_k f (k - 1) num den
  end.

Definition floor_log10 (num den : Z) : Z :=
  adjust_k 8 (((Z.log2 num - Z.log2 den) * 30103) / 100000) num den.

(** The decimal [c * 10^s] of [nd] digits that reads back as [x] and is
    nearest to [num / den], when there is one. *)
Definition candidate (x : float) (num den k : Z) (nd : Z) : option (Z * Z) :=
  let s := k - nd + 1 in
  let n' := if 0 <=? s then num else num * 10 ^ (- s) in
  let d' := if 0 <=? s then den * 10 ^ s else den in
  let lo := n' / d' in
  let r := n' mod d' in
  let back c := PrimFloat.eqb (PyFloat.of_decimal false c (nd + 1) s) x in
  let lo_ok := back lo in
  let hi_ok := negb (r =? 0) && back (lo + 1) in
  if lo_ok && hi_ok then
    match 2 * r ?= d' with
    | Lt => Some (lo, s)
    | Gt => Some (lo + 1, s)
    | Eq => Some (if Z.even lo then lo else lo + 1, s)
    end
  else if lo_ok then Some (lo, s)
  else if hi_ok then Some (lo + 1, s)
  else None.

Fixpoint shortest (fuel : nat) (x : float) (num den k nd : Z) : Z * Z :=
  match fuel with
  | O => (0, 0)
  | S f =>
      match candidate x num den k nd with
      | Some cs => cs
      | None => shortest f x num den k (nd + 1)
      end
  end.

Fixpoint strip_zeros_rev (s : list ascii) : list ascii :=
  match s with
  | "0"%char :: r => strip_zeros_rev r
  | _ => s
  end.

Definition strip_trailing_zeros (s : string) : string :=
  string_of_list_ascii
    (rev (strip_zeros_rev (rev (list_ascii_of_string s)))).

Fixpoint zeros (n : nat) : string :=
  match n with
  | O => EmptyString
  | S n' => String "0" (zeros n')
  end.

(** The digits [D] and the place [decpt] of the point, read [0.D * 10^decpt],
    as [repr] lays them out. *)
Definition layout (digits : string) (decpt : Z) : string :=
  let len := Z.of_nat (String.length digits) in
  if (-4 <? decpt) && (decpt <=? 16) then
    if decpt <=? 0 then "0." ++ zeros (Z.to_nat (- decpt)) ++ digits
    else if decpt <? len then
      PyStr.take (Z.to_nat decpt) digits ++ "."
      ++ PyStr.drop (Z.to_nat decpt) digits
    else digits ++ zeros (Z.to_nat (decpt - len)) ++ ".0"
  else
    let e := decpt - 1 in
    let mant := match digits with
                | String c EmptyString => digits
                | String c r => String c ("." ++ r)
                | EmptyString => digits
                end in
    let ea := Z.abs e in
    mant ++ "e" ++ (if e <? 0 then "-" else "+")
    ++ (if ea <? 10 then "0" else EmptyString) ++ PyFloat.Z_str ea.

(** [repr(x)] for a float: the shortest decimal that reads back as [x]. *)
Definition repr_float (x : float) : string :=
  match Prim2SF x with
  | S754_nan => "nan"
  | S754_infinity s => if s then "-inf" else "inf"
  | S754_zero s => if s then "-0.0" else "0.0"
  | S754_finite s m e =>
      let num := if 0 <=? e then Zpos m * 2 ^ e else Zpos m in
      let den := if 0 <=? e then 1 else 2 ^ (- e) in
      let k := floor_log10 num den in
      let '(c, sc) := shortest 17 (PrimFloat.abs x) num den k 1 in
      let ds := PyFloat.Z_str c in
      let decpt := Z.of_nat (String.length ds) + sc in
      (if s then "-" else EmptyString)
      ++ layout (strip_trailing_zeros ds) decpt
  end.

Definition hex_digit (n : nat) : ascii :=
  ascii_of_nat (if (n <? 10)%nat then 48 + n else 87 + n).

Definition printable (c : ascii) : bool :=
  let n := nat_of_ascii c in
  (((32 <=? n) && (n <=? 126)) || ((161 <=? n) && negb (n =? 173)))%nat.

Definition escape_char (quote c : ascii) : string :=
  let n := nat_of_ascii c in
  if Ascii.eqb c "\"%char then "\\"
  else if Ascii.eqb c quote then String "\"%char (String c EmptyString)
  else if (n =? 9)%nat then "\t"
  else if (n =? 10)%nat then "\n"
  else if (n =? 13)%nat then "\r"
  else if printable c then String c EmptyString
  else "\x" ++ String (hex_digit (n / 16)) (String (hex_digit (n mod 16))
                                              EmptyString).

Fixpoint escape (quote : ascii) (s : string) : string :=
  match s with
  | EmptyString => EmptyString
  | String c r => escape_char quote c ++ escape quote r
  end.

(** [repr(s)] for a str *)
Definition repr_str (s : string) : string :=
  let sq := "'"%char in
  let dqc := ascii_of_nat 34 in
  let quote := if PyStr.contains "'" s && negb (PyStr.contains PyStr.dq s)
               then dqc else sq in
  String quote (escape quote s ++ String quote EmptyString).

Fixpoint repr (v : pyval) : string :=
  match v with
  | VNone => "None"
  | VBool b => if b then "True" else "False"
  | VInt z => PyFloat.Z_str z
  | VFloat f => repr_float f
  | VStr s => repr_str s
  | VList l => "[" ++ PyStr.join ", " (map repr l) ++ "]"
  | VDict d =>
      "{" ++ PyStr.join ", "
               (map (fun kv : string * pyval => let (k, x) := kv in
                               repr_str k ++ ": " ++ repr x) d) ++ "}"
  end.

(** [str(v)] *)
Definition str (v : pyval) : string :=
  match v with
  | VStr s => s
  | _ => repr v
  end.

End PyRepr.

(** [json.loads] on a str, as the C scanner of CPython 3.11 reads it.
    Positions are offsets into the text; a failure is [(msg, pos)] until
    [loads] renders it.  A [\u] escape beyond U+00FF has no character in
    this model and is reported as an invalid escape; the limit on nesting
    depth is not modelled. *)
Module Json.

Inductive failure : Type :=
| Stop (pos : nat)                   (* StopIteration(pos): Expecting value *)
| Err (msg : string) (pos : nat)     (* JSONDecodeError(msg, s, pos) *)
| IntTooLong (ndigits : nat).        (* ValueError of int() on 4301+ digits *)

Definition parsed (A : Type) : Type := (A * string * nat) + failure.

Definition is_ws (c : ascii) : bool :=
  let n := nat_of_ascii c in
  ((n =? 32) || (n =? 9) || (n =? 10) || (n =? 13))%nat.

Fixpoint skip_ws (s : string) (pos : nat) : string * nat :=
  match s with
  | String c r => if is_ws c then skip_ws r (S pos) else (s, pos)
  | EmptyString => (s, pos)
  end.

Definition hex_val (c : ascii) : option nat :=
  let n := nat_of_ascii c in
  if ((48 <=? n) && (n <=? 57))%nat then Some (n - 48)%nat
  else if ((97 <=? n) && (n <=? 102))%nat then Some (n - 87)%nat
  else if ((65 <=? n) && (n <=? 70))%nat then Some (n - 55)%nat
  else None.

Definition unescape (c : ascii) : option ascii :=
  if Ascii.eqb c (ascii_of_nat 34) then Some c
  else if Ascii.eqb c "\"%char then Some c
  else if Ascii.eqb c "/" then Some c
  else if Ascii.eqb c "b" then Some (ascii_of_nat 8)
  else if Ascii.eqb c "f" then Some (ascii_of_nat 12)
  else if Ascii.eqb c "n" then Some (ascii_of_nat 10)
  else if Ascii.eqb c "r" then Some (ascii_of_nat 13)
  else if Ascii.eqb c "t" then Some (ascii_of_nat 9)
  else None.

(** The str that opens at offset [begin]; [s] starts after the quote. *)
Fixpoint scanstring (begin : nat) (s : string) (pos : nat) (acc : string)
  : parsed string :=
  match s with
  | EmptyString => inr (Err "Unterminated string starting at" begin)
  | String c r =>
      if Ascii.eqb c (ascii_of_nat 34) then inl (acc, r, S pos)
      else if Ascii.eqb c "\"%char then
        match r with
        | EmptyString => inr (Err "Unterminated string starting at" begin)
        | String e r' =>
            if Ascii.eqb e "u" then
              match r' with
              | String h1 (String h2 (String h3 (String h4 r4))) =>
                  match r4, hex_val h1, hex_val h2, hex_val h3, hex_val h4 with
                  | String _ _, Some a, Some b, Some c', Some d =>
                      let code := (((a * 16 + b) * 16 + c') * 16 + d)%nat in
                      if (code <? 256)%nat
                      then scanstring begin r4 (pos + 6)
                             (acc ++ String (ascii_of_nat code) EmptyString)
                      else inr (Err "Invalid \uXXXX escape" (S pos))
                  | _, _, _, _, _ => inr (Err "Invalid \uXXXX escape" (S pos))
                  end
              | _ => inr (Err "Invalid \uXXXX escape" (S pos))
              end
            else
              match unescape e with
              | Some ch => scanstring begin r' (pos + 2)
                             (acc ++ String ch EmptyString)
              | None => inr (Err "Invalid \escape" pos)
              end
        end
      else if (nat_of_ascii c <? 32)%nat
      then inr (Err "Invalid control character at" pos)
      else scanstring begin r (S pos) (acc ++ String c EmptyString)
  end.

(** The digits at the head of [s]: their text and what follows. *)
Fixpoint digits (s : string) : string * string :=
  match s with
  | String c r =>
      if PyFloat.is_digit c
      then let (d, rest) := digits r in (String c d, rest)
      else (EmptyString, s)
  | EmptyString => (EmptyString, s)
  end.

Fixpoint digits_val (acc : Z) (s : string) : Z :=
  match s with
  | String c r => digits_val (acc * 10 + PyFloat.digit_val c) r
  | EmptyString => acc
  end.

(** The text of the number at the head of [s], whether it is a float, and
    what follows.  A number is an optional minus, then 0 or a digit string
    that does not start with 0, then an optional point with digits, then an
    optional exponent: e or E, an optional sign, digits. *)
Definition match_number (s : string) : option (string * bool * string) :=
  let (sign, s1) := match s with
                    | String "-" r => ("-", r)
                    | _ => (EmptyString, s)
                    end in
  let int_part :=
    match s1 with
    | String "0" r => Some ("0", r)
    | String c _ =>
        if PyFloat.is_digit c then Some (digits s1) else None
    | EmptyString => None
    end in
  match int_part with
  | None => None
  | Some (ip, s2) =>
      let '(fp, s3) :=
        match s2 with
        | String "." r =>
            match digits r with
            | (EmptyString, _) => (EmptyString, s2)
            | (d, rest) => ("." ++ d, rest)
            end
        | _ => (EmptyString, s2)
        end in
      let '(ep, s4) :=
        match s3 with
        | String c r =>
            if Ascii.eqb c "e" || Ascii.eqb c "E" then
              let (sg, r1) := match r with
                              | String "-" r' => ("-", r')
                              | String "+" r' => ("+", r')
                              | _ => (EmptyString, r)
                              end in
              match digits r1 with
              | (EmptyString, _) => (EmptyString, s3)
              | (d, rest) => (String c (sg ++ d), rest)
              end
            else (EmptyString, s3)
        | EmptyString => (EmptyString, s3)
        end in
      let is_float := negb (String.eqb fp EmptyString)
                      || negb (String.eqb ep EmptyString) in
      Some (sign ++ ip ++ fp ++ ep, is_float, s4)
  end.

Definition number_value (text : string) (is_float : bool) : pyval + failure :=
  if is_float then
    match PyFloat.of_string text with
    | Some f => inl (VFloat f)
    | None => inr (Stop 0)
    end
  else
    let (neg, ds) := match text with
                     | String "-" r => (true, r)
                     | _ => (false, text)
                     end in
    if (4300 <? String.length ds)%nat then inr (IntTooLong (String.length ds))
    else let v := digits_val 0 ds in inl (VInt (if neg then - v else v)).

Definition constant (s : string) (pos : nat) : option (pyval * string * nat) :=
  let try word v :=
    if PyStr.starts_with word s
    then Some (v, PyStr.drop (String.length word) s,
               (pos + String.length word)%nat)
    else None in
  match try "null" VNone with
  | Some r => Some r
  | None =>
  match try "true" (VBool true) with
  | Some r => Some r
  | None =>
  match try "false" (VBool false) with
  | Some r => Some r
  | None =>
  match try "NaN" (VFloat nan) with
  | Some r => Some r
  | None =>
  match try "Infinity" (VFloat infinity) with
  | Some r => Some r
  | None => try "-Infinity" (VFloat neg_infinity)
  end end end end end.

(** [scan_once], and the loops of the object and of the array, each at the
    place where the next key or the next item is read.  A value that opens
    a bracket spends two units of [fuel] on one character, every other
    step at most one: twice the length of the text is enough. *)
Fixpoint scan_once (fuel : nat) (s : string) (pos : nat) {struct fuel}
  : parsed pyval :=
  match fuel with
  | O => inr (Stop pos)
  | S fuel' =>
      match s with
      | EmptyString => inr (Stop pos)
      | String c r =>
          if Ascii.eqb c (ascii_of_nat 34) then
            match scanstring pos r (S pos) EmptyString with
            | inl (str, rest, p) => inl (VStr str, rest, p)
            | inr e => inr e
            end
          else if Ascii.eqb c "{" then
            let (r1, p1) := skip_ws r (S pos) in
            match r1 with
            | String "}" r2 => inl (VDict [], r2, S p1)
            | _ => object_loop fuel' r1 p1 []
            end
          else if Ascii.eqb c "[" then
            let (r1, p1) := skip_ws r (S pos) in
            match r1 with
            | String "]" r2 => inl (VList [], r2, S p1)
            | _ => array_loop fuel' r1 p1 []
            end
          else
            match constant s pos with
            | Some res => inl res
            | None =>
                match match_number s with
                | Some (text, is_float, rest) =>
                    match number_value text is_float with
                    | inl v => inl (v, rest, (pos + String.length text)%nat)
                    | inr e => inr e
                    end
                | None => inr (Stop pos)
                end
            end
      end
  end

with object_loop (fuel : nat) (s : string) (pos : nat) (acc : dict)
  {struct fuel} : parsed pyval :=
  match fuel with
  | O => inr (Stop pos)
  | S fuel' =>
      match s with
      | String c r =>
          if Ascii.eqb c (ascii_of_nat 34) then
            match scanstring pos r (S pos) EmptyString with
            | inr e => inr e
            | inl (key, r1, p1) =>
                let (r2, p2) := skip_ws r1 p1 in
                match r2 with
                | String ":" r3 =>
                    let (r4, p4) := skip_ws r3 (S p2) in
                    match scan_once fuel' r4 p4 with
                    | inr e => inr e
                    | inl (v, r5, p5) =>
                        let acc' := dict_set key v acc in
                        let (r6, p6) := skip_ws r5 p5 in
                        match r6 with
                        | String "}" r7 => inl (VDict acc', r7, S p6)
                        | String "," r7 =>
                            let (r8, p8) := skip_ws r7 (S p6) in
                            object_loop fuel' r8 p8 acc'
                        | _ => inr (Err "Expecting ',' delimiter" p6)
                        end
                    end
                | _ => inr (Err "Expecting ':' delimiter" p2)
                end
            end
          else
            inr (Err "Expecting property name enclosed in double quotes" pos)
      | EmptyString =>
          inr (Err "Expecting property name enclosed in double quotes" pos)
      end
  end

with array_loop (fuel : nat) (s : string) (pos : nat) (acc : list pyval)
  {struct fuel} : parsed pyval :=
  match fuel with
  | O => inr (Stop pos)
  | S fuel' =>
      match scan_once fuel' s pos with
      | inr e => inr e
      | inl (v, r1, p1) =>
          let acc' := (acc ++ [v])%list in
          let (r2, p2) := skip_ws r1 p1 in
          match r2 with
          | String "]" r3 => inl (VList acc', r3, S p2)
          | String "," r3 =>
              let (r4, p4) := skip_ws r3 (S p2) in
              array_loop fuel' r4 p4 acc'
          | _ => inr (Err "Expecting ',' delimiter" p2)
          end
      end
  end.

(** Line and column of an offset, as [JSONDecodeError] counts them. *)
Fixpoint line_col (s : string) (pos : nat) (line col : nat) : nat * nat :=
  match pos, s with
  | O, _ => (line, col)
  | S p, String c r =>
      if (nat_of_ascii c =? 10)%nat then line_col r p (S line) 1%nat
      else line_col r p line (S col)
  | S _, EmptyString => (line, col)
  end.

Definition decode_error (msg text : string) (pos : nat) : exn :=
  let (line, col) := line_col text pos 1%nat 1%nat in
  Exn JSONDecodeError
    (msg ++ ": line " ++ nat_str line ++ " column " ++ nat_str col
     ++ " (char " ++ nat_str pos ++ ")").

Definition loads (text : string) : result pyval :=
  let (s0, p0) := skip_ws text 0%nat in
  match scan_once (S (2 * String.length text)) s0 p0 with
  | inl (v, rest, p) =>
      match skip_ws rest p with
      | (EmptyString, _) => Ok v
      | (_, p') => Raise (decode_error "Extra data" text p')
      end
  | inr (Stop p) => Raise (decode_error "Expecting value" text p)
  | inr (Err msg p) => Raise (decode_error msg text p)
  | inr (IntTooLong n) =>
      Raise (Exn ValueError
               ("Exceeds the limit (4300 digits) for integer string conversion: value has "
                ++ nat_str n
                ++ " digits; use sys.set_int_max_str_digits() to increase the limit"))
  end.

End Json.

(** Standard output, as a text stream with an encoding: a line is written
    unless it holds a character the encoding does not have, and then
    [print] raises UnicodeEncodeError for the first run of such
    characters. *)
Module Stdout.

Definition hex_digit (n : Z) : string :=
  String (ascii_of_nat (Z.to_nat (if n <? 10 then 48 + n else 87 + n)))
    EmptyString.

Fixpoint hex (digits : nat) (n : Z) : string :=
  match digits with
  | O => EmptyString
  | S d => hex d (n / 16) ++ hex_digit (n mod 16)
  end.

(** The character as the message of the exception shows it. *)
Definition char_repr (c : Z) : string :=
  if c <? 256 then "\x" ++ hex 2 c
  else if c <? 65536 then "\u" ++ hex 4 c
  else "\U" ++ hex 8 c.

Fixpoint run_length (bad : Z -> bool) (line : text) : nat :=
  match line with
  | c :: rest => if bad c then S (run_length bad rest) else O
  | [] => O
  end.

(** Where the first run of bad characters starts, its first character and
    its length. *)
Fixpoint first_bad (bad : Z -> bool) (line : text) (pos : nat)
  : option (nat * Z * nat) :=
  match line with
  | [] => None
  | c :: rest =>
      if bad c then Some (pos, c, S (run_length bad rest))
      else first_bad bad rest (S pos)
  end.

Definition write (codec reason : string) (bad : Z -> bool) (line : text)
  : result unit :=
  match first_bad bad line 0%nat with
  | None => Ok tt
  | Some (pos, c, n) =>
      Raise (Exn UnicodeEncodeError
               ("'" ++ codec ++ "' codec can't encode "
                ++ (if (n =? 1)%nat
                    then "character '" ++ char_repr c ++ "' in position "
                         ++ nat_str pos
                    else "characters in position " ++ nat_str pos ++ "-"
                         ++ nat_str (pos + n - 1))
                ++ ": " ++ reason))
  end.

(** A stream in UTF-8, which has every character but the surrogates. *)
Definition utf8 : text -> result unit :=
  write "utf-8" "surrogates not allowed"
    (fun c => (55296 <=? c) && (c <=? 57343)).

(** A stream in ASCII, as under the C locale. *)
Definition ascii : text -> result unit :=
  write "ascii" "ordinal not in range(128)" (fun c => 128 <=? c).

End Stdout.

(** ** The vocabulary of the claims *)

Section ClaimVocabulary.

Variable float_of_str : string -> option float.

(** What the coercion of a mandatory nutrient makes of the entry of the
    product mapping ([None]: no such key). *)
Inductive coerces : option pyval -> coerced -> Prop :=
| coerces_absent : coerces None (CFloat 0%float)
| coerces_null : coerces (Some VNone) CZero
| coerces_not_available : coerces (Some (VStr "Not Available")) CZero
| coerces_na : coerces (Some (VStr "N/A")) CZero
| coerces_float f : coerces (Some (VFloat f)) (CFloat f)
| coerces_int z f :
    float_of_int z = Ok f -> coerces (Some (VInt z)) (CFloat f)
| coerces_bool b : coerces (Some (VBool b)) (CFloat (float_of_bool b))
| coerces_str s f :
    s <> "Not Available" -> s <> "N/A" -> float_of_str s = Some f ->
    coerces (Some (VStr s)) (CFloat f)
| coerces_bad_str s :
    float_of_str s = None -> coerces (Some (VStr s)) CZero
| coerces_list l : coerces (Some (VList l)) CZero
| coerces_dict d : coerces (Some (VDict d)) CZero.

(** Fiber absent, null, a not-available marker, or not parseable as a
    number. *)
Inductive fiber_missing : option pyval -> Prop :=
| fiber_absent : fiber_missing None
| fiber_null : fiber_missing (Some VNone)
| fiber_not_available : fiber_missing (Some (VStr "Not Available"))
| fiber_na : fiber_missing (Some (VStr "N/A"))
| fiber_bad_str s : float_of_str s = None -> fiber_missing (Some (VStr s))
| fiber_list l : fiber_missing (Some (VList l))
| fiber_dict d : fiber_missing (Some (VDict d)).

(** A fiber value that is a number, or reads as one, and the float it is. *)
Inductive fiber_number : option pyval -> float -> Prop :=
| fiber_float f : fiber_number (Some (VFloat f)) f
| fiber_int z f : float_of_int z = Ok f -> fiber_number (Some (VInt z)) f
| fiber_bool b : fiber_number (Some (VBool b)) (float_of_bool b)
| fiber_str s f :
    s <> "Not Available" -> s <> "N/A" -> float_of_str s = Some f ->
    fiber_number (Some (VStr s)) f.

End ClaimVocabulary.

(** An int entry fits a float: [float()] does not overflow on it. *)
Definition fits_float (v : option pyval) : bool :=
  match v with
  | Some (VInt z) =>
      match float_of_int z with
      | Ok _ => true
      | Raise _ => false
      end
  | _ => true
  end.

(** The six values normalization converts all fit. *)
Definition all_fit (d : dict) : bool :=
  forallb (fun k => fits_float (dict_get k d)) (nutrients ++ ["fiber_g"]).

(** A number equal to 0, as Python compares numbers. *)
Definition num_is_zero (v : pyval) : bool :=
  match v with
  | VInt z => z =? 0
  | VFloat f => PrimFloat.eqb f 0%float
  | VBool b => negb b
  | _ => false
  end.

(** The claim's reading of the percentage:
    [value > 0 and baseline > 0 ? value / baseline * 100 : 0]. *)
Definition claimed_percent_is_zero (value baseline : float) : bool :=
  negb (PrimFloat.ltb 0%float value && PrimFloat.ltb 0%float baseline).

(** The claim's reading of the located text: the first balanced
    (brace-matched) object of a reply.  [closing s depth] is the number of
    characters of [s] up to and with the brace that closes [depth] open
    ones. *)
Fixpoint closing (s : string) (depth : nat) : option nat :=
  match s with
  | EmptyString => None
  | String c r =>
      if Ascii.eqb c "{" then option_map S (closing r (S depth))
      else if Ascii.eqb c "}" then
        match depth with
        | O => None
        | S O => Some 1%nat
        | S d => option_map S (closing r d)
        end
      else option_map S (closing r depth)
  end.

Definition first_balanced_object (text : string) : option string :=
  match PyStr.first_index "{"%char text with
  | Some i =>
      let s := PyStr.drop i text in
      match closing s 0 with
      | Some n => Some (PyStr.take n s)
      | None => None
      end
  | None => None
  end.

(** The banding table of the rating: the grade of a score in [0,100]. *)
Definition grade_of_score (score : Z) : option string :=
  if (80 <=? score) && (score <=? 100) then Some "A"
  else if (60 <=? score) && (score <=? 79) then Some "B"
  else if (40 <=? score) && (score <=? 59) then Some "C"
  else if (20 <=? score) && (score <=? 39) then Some "D"
  else if (0 <=? score) && (score <=? 19) then Some "E"
  else None.

(** The same table for a score that is a float: a band runs up to the
    start of the next one. *)
Definition grade_of_float (score : float) : option string :=
  let ge x := PrimFloat.leb x score in
  if ge 80%float && PrimFloat.leb score 100%float then Some "A"
  else if ge 60%float && PrimFloat.ltb score 80%float then Some "B"
  else if ge 40%float && PrimFloat.ltb score 60%float then Some "C"
  else if ge 20%float && PrimFloat.ltb score 40%float then Some "D"
  else if ge 0%float && PrimFloat.ltb score 20%float then Some "E"
  else None.

(** A rating result whose score lies in [0,100] and whose grade is the one
    of the band of the score. *)
Definition rating_consistent (inr_result : pyval) : bool :=
  match inr_result with
  | VDict d =>
      let band := match dict_get "inr_score" d with
                  | Some (VInt score) => grade_of_score score
                  | Some (VFloat score) => grade_of_float score
                  | _ => None
                  end in
      match band, dict_get "grade" d with
      | Some g, Some (VStr grade) => String.eqb g grade
      | _, _ => false
      end
  | _ => false
  end.

(** [s] stands somewhere in [p]. *)
Definition occurs (s p : string) : Prop := exists a b, p = a ++ s ++ b.

(** The result of a successful run of the chain. *)
Definition success_result (image_path product_data analysis inr_result : pyval)
  : pyval :=
  VDict [("success", VBool true);
         ("image_path", image_path);
         ("product_data", product_data);
         ("analysis", analysis);
         ("inr_result", inr_result)].

(** The failure value of the rating step. *)
Definition inr_failure (image_path : pyval) : pyval :=
  VDict [("success", VBool false);
         ("error", VStr "INR score calculation failed");
         ("image_path", image_path)].

(** A value of the chain that says it failed: its success entry is false
    or missing. *)
Definition is_failure (v : pyval) : Prop :=
  exists s, py_get v "success" VNone = Ok s /\ truthy s = false.

(** A computation that leaves the session as it found it. *)
Definition keeps_session {A} (c : M A) : Prop :=
  forall w, session (snd (c w)) = session w.

(** The percentage of an entry, as the code computes it against a nonzero
    baseline [g]: [value / g * 100] for a float other than zero, the int 0
    otherwise. *)
Definition percent_entry (value : coerced) (g : float) : pyval :=
  match value with
  | CZero => VInt 0
  | CFloat f =>
      if PrimFloat.eqb f 0%float then VInt 0
      else VFloat (PrimFloat.mul (PrimFloat.div f g) 100%float)
  end.

(** An entry of the analysis. *)
Definition analysis_entry (per_100g inr_baseline percent : pyval) : pyval :=
  VDict [("per_100g", per_100g);
         ("inr_baseline", inr_baseline);
         ("percent_of_inr", percent)].

(** The product stored in the session, or None. *)
Definition stored_product (w : world) : pyval :=
  match dict_get "current_product" (session w) with
  | Some v => v
  | None => VNone
  end.

Section ContextFields.

Variable py_str : pyval -> string.
Variable format_1f : float -> string.

(** The fields of a stored product that the product-grounded mode renders:
    name, brand, type, score, grade, the five nutrient values, warnings,
    claims, and the question. *)
Inductive context_fields (cp msg : pyval) : list string -> Prop :=
| context_fields_intro
    (pd inr nut name brand ptype score grade : pyval)
    (energy sugars satfat sodium protein warnings claims : pyval)
    (score_text warnings_text claims_text : string) :
    py_getitem cp "product_data" = Ok pd ->
    py_getitem cp "inr_result" = Ok inr ->
    py_getitem pd "nutritional_info_per_100g" = Ok nut ->
    py_get pd "product_name" (VStr "Unknown") = Ok name ->
    py_get pd "brand" (VStr "Unknown") = Ok brand ->
    py_get pd "product_type" (VStr "Solid") = Ok ptype ->
    py_getitem inr "inr_score" = Ok score ->
    py_format_1f format_1f score = Ok score_text ->
    py_getitem inr "grade" = Ok grade ->
    py_getitem nut "energy_kcal" = Ok energy ->
    py_getitem nut "sugars_g" = Ok sugars ->
    py_getitem nut "saturated_fat_g" = Ok satfat ->
    py_getitem nut "sodium_mg" = Ok sodium ->
    py_getitem nut "protein_g" = Ok protein ->
    py_get inr "health_warnings" (VList []) = Ok warnings ->
    py_join ", " warnings = Ok warnings_text ->
    py_get inr "positive_claims" (VList []) = Ok claims ->
    py_join ", " claims = Ok claims_text ->
    context_fields cp msg
      [py_str name; py_str brand; py_str ptype; score_text; py_str grade;
       py_str energy; py_str sugars; py_str satfat; py_str sodium;
       py_str protein; or_none warnings_text; or_none claims_text;
       py_str msg].

End ContextFields.

(** The two answers of the chat handler after a call. *)
Definition chat_ok (text : string) : response :=
  Response (VDict [("success", VBool true); ("response", VStr text)]) 200.

Definition chat_error (e : exn) : response :=
  Response (VDict [("success", VBool false); ("error", VStr (exn_str e))])
    500.

(** The stored product as the request after the upload reads it from the
    cookie of the session. *)
Definition read_product (w : world) : pyval := cookie_value (stored_product w).

Section ChatOutcome.

Variable stdout_write : text -> result unit.

(** The three lines the chat handler prints. *)
Definition input_line (msg : string) : text :=
  code_points ("User input: " ++ msg).

Definition response_line (response_text : string) : text :=
  code_points ("Response: " ++ response_text).

Definition error_line (e : exn) : text :=
  code_points ("Error: " ++ exn_str e).

(** How the handler of the [try] ends (lines 231-233): it prints the
    error and answers 500, unless that [print] raises. *)
Definition chat_handled (e : exn) (w : world) : result response * world :=
  (match stdout_write (error_line e) with
   | Ok _ => Ok (chat_error e)
   | Raise e' => Raise e'
   end,
   logged w [Print (error_line e)]).

(** How the [try] ends on the text of a model (lines 228-229): it prints
    the text and answers 200; when that [print] raises, the handler of the
    [try] takes over. *)
Definition chat_answered (response_text : string) (w : world)
  : result response * world :=
  match stdout_write (response_line response_text) with
  | Ok _ =>
      (Ok (chat_ok response_text),
       logged w [Print (response_line response_text)])
  | Raise e =>
      chat_handled e (logged w [Print (response_line response_text)])
  end.

(** How the handler ends on what the call of a model returned or
    raised. *)
Definition chat_end (tail : result string) (w : world)
  : result response * world :=
  match tail with
  | Ok response_text => chat_answered response_text w
  | Raise e => chat_handled e w
  end.

(** The handler answered, or raised what a [print] raised. *)
Definition answered (r : result response) : Prop :=
  (exists resp, r = Ok resp)
  \/ (exists line e, stdout_write line = Raise e /\ r = Raise e).

End ChatOutcome.

(** An event that is a call of [print]. *)
Definition is_print (ev : event) : bool :=
  match ev with Print _ => true | _ => false end.

Section UploadOutcome.

Variable float_of_str : string -> option float.
Variable json_loads : string -> result pyval.
Variable py_str : pyval -> string.
Variable format_1f : float -> string.
Variable getenv_api_key : option string.
Variable vision_call : pyval -> result string.
Variable rating_call : string -> result string.
Variable secure_filename : string -> string.

(** The stored product after an upload that answered 200. *)
Definition stored_after (request : upload_request) (w w' : world) : Prop :=
  exists name chain_result w2 s pd an inr,
    let path := path_join UPLOAD_FOLDER
                  (now request ++ "_" ++ secure_filename name) in
    image request = Some name
    /\ nutrition_analysis_chain float_of_str json_loads py_str format_1f
         getenv_api_key vision_call rating_call (VStr path)
         (logged w [SaveFile path]) = (Ok chain_result, w2)
    /\ py_getitem chain_result "success" = Ok s /\ truthy s = true
    /\ py_getitem chain_result "product_data" = Ok pd
    /\ py_getitem chain_result "analysis" = Ok an
    /\ py_getitem chain_result "inr_result" = Ok inr
    /\ w' = World (trace w2)
              (dict_set "current_product"
                 (VDict [("product_data", pd); ("analysis", an);
                         ("inr_result", inr); ("image_path", VStr path)])
                 (session w)).

End UploadOutcome.

(** ** Scenarios

    Inputs and scripted services for the closed examples: the built-ins are
    the reference ones, a service answers every request with one text or
    raises one exception. *)

Module Scenario.

Definition answers {A : Type} (text : string) : A -> result string :=
  fun _ => Ok text.

Definition fails {A B : Type} (e : exn) : A -> result B :=
  fun _ => Raise e.

(** The label of section 8 of the specification. *)
Definition label : dict :=
  [("energy_kcal", VInt 450);
   ("sugars_g", VInt 25);
   ("saturated_fat_g", VInt 8);
   ("sodium_mg", VInt 200);
   ("protein_g", VInt 6);
   ("fiber_g", VInt 2)].

(** A label with a negative energy value and nothing else. *)
Definition negative_energy : dict := [("energy_kcal", VInt (-5))].

(** A label whose energy value is the integer 10^400. *)
Definition huge_energy : dict := [("energy_kcal", VInt (10 ^ 400))].

(** A text written with single quotes, each one read as a double quote. *)
Fixpoint dquote (s : string) : string :=
  match s with
  | EmptyString => EmptyString
  | String c r =>
      String (if Ascii.eqb c "'" then ascii_of_nat 34 else c) (dquote r)
  end.

(** A reply of the vision model: the product of section 8, in a fence. *)
Definition label_reply : string :=
  "Here is the data:" ++ PyStr.nl ++ "```json" ++ PyStr.nl ++ dquote
  "{'product_name': 'Oat Bar', 'brand': 'Acme', 'product_type': 'Solid',
 'nutritional_info_per_100g': {'energy_kcal': 450, 'sugars_g': 25,
 'saturated_fat_g': 8, 'sodium_mg': 200, 'protein_g': 6, 'fiber_g': 2}}"
  ++ PyStr.nl ++ "```".

Definition product_data : pyval :=
  VDict [("product_name", VStr "Oat Bar");
         ("brand", VStr "Acme");
         ("product_type", VStr "Solid");
         ("nutritional_info_per_100g", VDict label)].

(** The analysis of [label]. *)
Definition label_analysis : dict :=
  [("energy_kcal", analysis_entry (VFloat 450) (VInt 2000) (VFloat 22.5));
   ("sugars_g", analysis_entry (VFloat 25) (VInt 50) (VFloat 50));
   ("saturated_fat_g", analysis_entry (VFloat 8) (VInt 20) (VFloat 40));
   ("sodium_mg", analysis_entry (VFloat 200) (VInt 2000) (VFloat 10));
   ("protein_g", analysis_entry (VFloat 6) (VInt 50) (VFloat 12));
   ("fiber_g", analysis_entry (VFloat 2) (VInt 25) (VFloat 8))].

Definition image_path : pyval := VStr "uploads/20240101_120000_label.PNG".

(** What the analysis step hands to the rating step. *)
Definition analysed : pyval :=
  VDict [("success", VBool true);
         ("image_path", image_path);
         ("product_data", product_data);
         ("analysis", VDict label_analysis)].

(** Replies of the rating model. *)
Definition rating_reply : string :=
  "Result: " ++ dquote
  "{'inr_score': 72, 'grade': 'B', 'health_warnings': ['High in sugar'], 'positive_claims': []}".

Definition rating_two_objects : string :=
  dquote "{'inr_score': 72, 'grade': 'B'} computed from {'energy': 6}".

Definition rating_out_of_band : string :=
  dquote "{'inr_score': 150, 'grade': 'E'}".

Definition rating_without_score : string := dquote "{'grade': 'A'}".

Definition rating_no_object : string := "I cannot rate this product.".

(** A reply of the vision model that holds no JSON. *)
Definition vision_no_json : string := "Sorry, I cannot read the label.".

(** The error of a client that cannot reach the service. *)
Definition connection_error : exn :=
  Exn (OtherError "APIConnectionError") "Connection error.".

(** An upload of label.PNG; [secure_filename] leaves this name as it is,
    and the file is saved. *)
Definition request : upload_request :=
  UploadRequest (Some "label.PNG") "20240101_120000".

Definition secure_filename (name : string) : string := name.

Definition save_file (path : string) : result unit := Ok tt.

Definition upload (vision : pyval -> result string)
  (rating : string -> result string) : upload_request -> M response :=
  upload_image PyFloat.of_string Json.loads PyRepr.str PyFloat.format_1f
    (Some "secret") vision rating secure_filename save_file.

(** The chat handler over a chat model and a retrieval chain that answer
    with fixed texts, and a standard output in UTF-8. *)
Definition chat_handler : pyval -> M response :=
  chat PyRepr.str PyFloat.format_1f (answers "It is high in sugar.")
    (fun _ => Ok ["FSSAI labelling regulation, clause 5"])
    (fun _ _ => Ok "See the labelling regulation.") Stdout.utf8.

Definition question : pyval := VDict [("message", VStr "Is it healthy?")].

(** An empty world: nothing logged, nothing in the session. *)
Definition w0 : world := World [] [].

Definition api_key : option string := Some "secret".

(** The chain over the reference built-ins and two scripted models. *)
Definition chain (vision : pyval -> result string)
  (rating : string -> result string) : pyval -> M pyval :=
  create_nutrition_analysis_chain PyFloat.of_string Json.loads PyRepr.str
    PyFloat.format_1f api_key vision rating api_key FSSAI_INR_BASELINE.

(** A reply of the vision model for a package without a nutrition table:
    the whole table is marked as not available. *)
Definition no_table_reply : string :=
  dquote "{'product_name': 'Oat Bar', 'nutritional_info_per_100g': 'Not Available'}".

(** What the extraction step hands on for that reply. *)
Definition extracted_no_table : pyval :=
  VDict [("success", VBool true);
         ("image_path", image_path);
         ("product_data",
          VDict [("product_name", VStr "Oat Bar");
                 ("nutritional_info_per_100g", VStr "Not Available")])].

(** The rating step over the reference built-ins and a scripted model. *)
Definition rating_step (rating : string -> result string)
  : pyval -> M pyval :=
  calculate_inr_step Json.loads PyRepr.str PyFloat.format_1f rating
    FSSAI_INR_BASELINE.

(** The first object of [rating_two_objects], and what it parses to. *)
Definition first_object : string := dquote "{'inr_score': 72, 'grade': 'B'}".

Definition first_object_value : pyval :=
  VDict [("inr_score", VInt 72); ("grade", VStr "B")].

Definition out_of_band_value : pyval :=
  VDict [("inr_score", VInt 150); ("grade", VStr "E")].

End Scenario.
(** ** The tools of helper.py

    The functions of [src/helper.py] that the web application does not
    call: the document filter of the index script, and the two console
    tools that run the extraction and print its result. *)

(** [s * n] *)
Fixpoint str_times (s : string) (n : nat) : string :=
  match n with
  | O => EmptyString
  | S n' => s ++ str_times s n'
  end.

(** [k in v] for a str [k] *)
Definition py_in (k : string) (v : pyval) : result bool :=
  match v with
  | VDict d => Ok (match dict_get k d with Some _ => true | None => false end)
  | VList l => Ok (existsb (fun x => eq_str x k) l)
  | VStr s => Ok (PyStr.contains k s)
  | _ => Raise (Exn TypeError
                  ("argument of type '" ++ type_name v ++ "' is not iterable"))
  end.

(** [v.items()]: only a dict has the method. *)
Definition py_items (v : pyval) : result dict :=
  match v with
  | VDict d => Ok d
  | _ => Raise (Exn AttributeError
                  ("'" ++ type_name v ++ "' object has no attribute 'items'"))
  end.

(** *** filter_to_minimal_docs *)

(** A langchain [Document]: its metadata, a dict, and its text. *)
Record Document : Type :=
  MkDocument { metadata : dict; page_content : string }.

(** Lines 28-34. *)
Definition filter_to_minimal_docs (docs : list Document) : list Document :=
  fold_left
    (fun minimal_docs doc =>
       let src := match dict_get "source" (metadata doc) with
                  | Some v => v
                  | None => VNone
                  end in
       let minimal_doc := MkDocument [("source", src)] (page_content doc) in
       (minimal_docs ++ [minimal_doc])%list)
    docs [].

Section Tools.

Variable json_loads : string -> result pyval.
Variable py_str : pyval -> string.
Variable getenv_api_key : option string.
Variable vision_call : pyval -> result string.
Variable stdout_write : text -> result unit.

Local Abbreviation say := (print stdout_write).
Local Abbreviation say_str := (print_str stdout_write).

(** *** analyze_food_product *)

(** U+2713 and U+2717 *)
Definition check_mark : Z := 10003.
Definition ballot_x : Z := 10007.

(** Lines 168-178: the body of the [try]. *)
Definition analyze_try (image_path : pyval) (api_key : option string)
  : M pyval :=
  result <- extract_nutrition_info_gpt4o json_loads getenv_api_key
              vision_call image_path api_key ;;
  success <- lift (py_getitem result "success") ;;
  if truthy success then
    say ([10; check_mark]
         ++ code_points
              " Successfully extracted nutritional information!")%list ;;;
    lift (py_getitem result "data")
  else
    error <- lift (py_getitem result "error") ;;
    say ([10; ballot_x] ++ code_points (" Error: " ++ py_str error))%list ;;;
    say_str "Raw response:" ;;;
    raw_response <- lift (py_getitem result "raw_response") ;;
    say_str (py_str raw_response) ;;;
    ret VNone.

(** The line its handler prints. *)
Definition error_analyzing (e : exn) : text :=
  ([10; ballot_x]
   ++ code_points (" Error analyzing image: " ++ exn_str e))%list.

(** Lines 155-182.  The first [print] stands before the [try]; the last
    one stands in its handler. *)
Definition analyze_food_product (image_path : pyval)
  (api_key : option string) : M pyval :=
  say_str ("Analyzing food product image: " ++ py_str image_path) ;;;
  try_except
    (analyze_try image_path api_key)
    (fun e => say (error_analyzing e) ;;; ret VNone).

(** *** display_nutrition_summary *)

(** [print(f"...{v.get(k, default)}...")] *)
Definition print_get (v : pyval) (k : string) (default : pyval)
  (line : string -> string) : M unit :=
  x <- lift (py_get v k default) ;;
  say_str (line (py_str x)).

(** [k in v and v[k] != 'N/A'] *)
Definition present_and_known (k : string) (v : pyval) : result bool :=
  let? present := py_in k v in
  if present then
    let? x := py_getitem v k in
    Ok (negb (eq_str x "N/A"))
  else Ok false.

(** The loop of lines 236-237 over the items of a dict. *)
Fixpoint print_items (items : dict) : M unit :=
  match items with
  | [] => ret tt
  | (nutrient, value) :: rest =>
      say_str ("  - " ++ nutrient ++ ": " ++ py_str value) ;;;
      print_items rest
  end.

(** Lines 209-237: the block under [if nutrition:]. *)
Definition display_nutrition (nutrition : pyval) : M unit :=
  say_str (PyStr.nl ++ str_times "-" 60) ;;;
  say_str "NUTRITIONAL VALUES (per 100g/100ml)" ;;;
  say_str (str_times "-" 60) ;;;
  say_str (PyStr.nl ++ "Energy:") ;;;
  print_get nutrition "energy_kcal" (VStr "N/A")
    (fun x => "  - " ++ x ++ " kcal") ;;;
  print_get nutrition "energy_kj" (VStr "N/A")
    (fun x => "  - " ++ x ++ " kJ") ;;;
  print_get nutrition "carbohydrates_g" (VStr "N/A")
    (fun x => PyStr.nl ++ "Carbohydrates: " ++ x ++ " g") ;;;
  print_get nutrition "sugars_g" (VStr "N/A")
    (fun x => "  - Sugars: " ++ x ++ " g") ;;;
  added <- lift (present_and_known "added_sugars_g" nutrition) ;;
  (if added then
     print_get nutrition "added_sugars_g" VNone
       (fun x => "  - Added Sugars: " ++ x ++ " g")
   else ret tt) ;;;
  print_get nutrition "total_fat_g" (VStr "N/A")
    (fun x => PyStr.nl ++ "Fat: " ++ x ++ " g") ;;;
  print_get nutrition "saturated_fat_g" (VStr "N/A")
    (fun x => "  - Saturated Fat: " ++ x ++ " g") ;;;
  trans <- lift (present_and_known "trans_fat_g" nutrition) ;;
  (if trans then
     print_get nutrition "trans_fat_g" VNone
       (fun x => "  - Trans Fat: " ++ x ++ " g")
   else ret tt) ;;;
  print_get nutrition "protein_g" (VStr "N/A")
    (fun x => PyStr.nl ++ "Protein: " ++ x ++ " g") ;;;
  print_get nutrition "fiber_g" (VStr "N/A")
    (fun x => "Fiber: " ++ x ++ " g") ;;;
  print_get nutrition "sodium_mg" (VStr "N/A")
    (fun x => "Sodium: " ++ x ++ " mg") ;;;
  other <- lift (py_get nutrition "other_nutrients" (VDict [])) ;;
  if truthy other then
    say_str (PyStr.nl ++ "Other Nutrients:") ;;;
    items <- lift (py_items other) ;;
    print_items items
  else ret tt.

(** Lines 185-239. *)
Definition display_nutrition_summary (nutrition_data : pyval) : M unit :=
  if negb (truthy nutrition_data) then say_str "No data to display"
  else
    say_str (PyStr.nl ++ str_times "=" 60) ;;;
    say_str "FOOD PRODUCT NUTRITIONAL INFORMATION" ;;;
    say_str (str_times "=" 60) ;;;
    print_get nutrition_data "product_name" (VStr "N/A")
      (fun x => PyStr.nl ++ "Product: " ++ x) ;;;
    print_get nutrition_data "brand" (VStr "N/A")
      (fun x => "Brand: " ++ x) ;;;
    print_get nutrition_data "product_type" (VStr "N/A")
      (fun x => "Type: " ++ x) ;;;
    print_get nutrition_data "package_size" (VStr "N/A")
      (fun x => "Package Size: " ++ x) ;;;
    print_get nutrition_data "serving_size" (VStr "N/A")
      (fun x => "Serving Size: " ++ x) ;;;
    nutrition <- lift (py_get nutrition_data "nutritional_info_per_100g"
                         (VDict [])) ;;
    (if truthy nutrition then display_nutrition nutrition else ret tt) ;;;
    say_str (PyStr.nl ++ str_times "=" 60).

End Tools.

(** ** The vocabulary of the further properties *)

(** The calls of one run of the chain, in their order: the vision model,
    the normalization, the rating function, the rating model; a run may
    stop after any of them. *)
Definition chain_calls (evs : list event) : bool :=
  match evs with
  | [] => true
  | [VisionCall _] => true
  | [VisionCall _; Normalize _] => true
  | [VisionCall _; Normalize _; InrScore _] => true
  | [VisionCall _; Normalize _; InrScore _; RatingCall _] => true
  | _ => false
  end.

(** A request that passes the three checks of [upload_image]: it has an
    image part, with a file name, of an allowed type. *)
Definition acceptable (request : upload_request) : bool :=
  match image request with
  | Some name =>
      negb (String.eqb name EmptyString)
      && match allowed_file name ALLOWED_EXTENSIONS with
         | Ok b => b
         | Raise _ => false
         end
  | None => false
  end.

(** The path under which [upload_image] saves the file named [name]. *)
Definition saved_path (secure_filename : string -> string)
  (request : upload_request) (name : string) : string :=
  path_join UPLOAD_FOLDER (now request ++ "_" ++ secure_filename name).

(** [f"{analysis[k]['percent_of_inr']:.1f}"], a field of the rating
    prompt. *)
Definition percent_text (format_1f : float -> string) (analysis : pyval)
  (k : string) : result string :=
  let? a := py_getitem analysis k in
  let? p := py_getitem a "percent_of_inr" in
  py_format_1f format_1f p.

(** The calls of one chat request: none, the chat model once, or the
    retriever once and then, once at most, the answer generation. *)
Definition chat_calls (evs : list event) : bool :=
  match evs with
  | [] => true
  | [ChatCall _] => true
  | [Retrieve _] => true
  | [Retrieve _; AnswerCall _] => true
  | _ => false
  end.

(** The events of a log other than the calls of [print]. *)
Definition calls_of (evs : list event) : list event :=
  filter (fun ev => negb (is_print ev)) evs.

(** [data.get('message', '')] on a dict *)
Definition message_of (d : dict) : pyval :=
  match dict_get "message" d with
  | Some v => v
  | None => VStr EmptyString
  end.

(** [', '.join(inr_result.get(k, []))], a field of the chat prompt. *)
Definition joined (inr_result : pyval) (k : string) : result string :=
  let? l := py_get inr_result k (VList []) in
  py_join ", " l.

(** The shape of the data [display_nutrition_summary] can print: nothing
    to print (a falsy value), or a dict whose nutrition mapping is falsy or
    a dict, and whose other nutrients in it are falsy or a dict. *)
Definition summary_shape (nutrition_data : pyval) : bool :=
  if negb (truthy nutrition_data) then true
  else
    match nutrition_data with
    | VDict d =>
        match dict_get "nutritional_info_per_100g" d with
        | Some (VDict nd) =>
            match nd with
            | [] => true
            | _ =>
                match dict_get "other_nutrients" nd with
                | Some (VDict _) | None => true
                | Some other => negb (truthy other)
                end
            end
        | Some nutrition => negb (truthy nutrition)
        | None => true
        end
    | _ => false
    end.

(** A result that is an exception raised by [print]. *)
Definition raised_by_print {A} (stdout_write : text -> result unit)
  (r : result A) : Prop :=
  exists line e, stdout_write line = Raise e /\ r = Raise e.

(** A property of the end of a computation that every exception of
    [print] has. *)
Definition print_closed {A} (stdout_write : text -> result unit)
  (post : result A -> Prop) : Prop :=
  forall line e, stdout_write line = Raise e -> post (Raise e).

(** A computation that only prints, whatever the world it starts from:
    it logs calls of [print] and nothing else, leaves the session, and ends
    as [post] says. *)
Definition prints {A} (m : M A) (post : result A -> Prop) : Prop :=
  forall w,
    exists r out,
      m w = (r, logged w (map Print out)) /\ post r.

(** ** More scenarios *)

Module Sample.

(** The label of [Scenario.label] with two more entries. *)
Definition label_with_more : dict :=
  (Scenario.label
   ++ [("energy_kj", VInt 1884); ("other_nutrients", VStr "N/A")])%list.

(** The same label without its fiber. *)
Definition label_without_fiber : dict :=
  [("energy_kcal", VInt 450);
   ("sugars_g", VInt 25);
   ("saturated_fat_g", VInt 8);
   ("sodium_mg", VInt 200);
   ("protein_g", VInt 6)].

(** The FSSAI table without its fiber entry, and with a fiber entry of 0. *)
Definition baseline_without_fiber : dict :=
  [("energy_kcal", VInt 2000);
   ("saturated_fat_g", VInt 20);
   ("sugars_g", VInt 50);
   ("protein_g", VInt 50);
   ("sodium_mg", VInt 2000)].

Definition baseline_zero_fiber : dict :=
  (baseline_without_fiber ++ [("fiber_g", VInt 0)])%list.

(** A baseline with zeros, and without sodium. *)
Definition baseline_of_zeros : dict :=
  [("energy_kcal", VInt 0);
   ("sugars_g", VFloat 0);
   ("saturated_fat_g", VInt 0);
   ("protein_g", VNone)].

(** A reply of the vision model for a label that shows no protein. *)
Definition reply_without_protein : string :=
  Scenario.dquote
  "{'product_name': 'Cola', 'product_type': 'Liquid',
 'nutritional_info_per_100g': {'energy_kcal': 42, 'sugars_g': 10.5,
 'saturated_fat_g': 0, 'sodium_mg': 4}}".

Definition cola_nutrition : dict :=
  [("energy_kcal", VInt 42);
   ("sugars_g", VFloat 10.5);
   ("saturated_fat_g", VInt 0);
   ("sodium_mg", VInt 4)].

Definition cola : pyval :=
  VDict [("product_name", VStr "Cola");
         ("product_type", VStr "Liquid");
         ("nutritional_info_per_100g", VDict cola_nutrition)].

(** The path under which the upload of [Scenario.request] is saved. *)
Definition path : string := "uploads/20240101_120000_label.PNG".


(** A question with an e acute, U+00E9. *)
Definition accented_question : string :=
  "Is it a caf" ++ String (ascii_of_nat 233) " snack?".

(** A session that holds a product and a second entry. *)
Definition session_with_product : world :=
  World [] [("current_product",
             VDict [("product_data", Scenario.product_data)]);
            ("theme", VStr "dark")].

(** A reply with one fenced block, in its three parts. *)
Definition before_fence : string := "Here is the data:" ++ PyStr.nl.
Definition fenced_body : string := PyStr.nl ++ "{}" ++ PyStr.nl.
Definition after_fence : string := PyStr.nl ++ "Done.".

(** Product data whose nutrition table is marked as not available. *)
Definition product_without_table : pyval :=
  VDict [("product_name", VStr "Oat Bar");
         ("nutritional_info_per_100g", VStr "Not Available")].

(** Two documents of the index script. *)
Definition documents : list Document :=
  [MkDocument [("source", VStr "data/fssai.pdf"); ("page", VInt 3)]
     "Every package shall carry a label.";
   MkDocument [("page", VInt 4)] "The label shall be legible."].

End Sample.

(** ** Properties *)

(** *** The operations on sample inputs *)

Example float_of_str_with_unit : PyFloat.of_string "12 g" = None.
Proof. reflexivity. Qed.

Example float_of_str_padded :
  PyFloat.of_string " 12.5 " = Some 12.5%float.
Proof. vm_compute. reflexivity. Qed.

Example float_of_str_grouped :
  PyFloat.of_string "1_000.5" = Some 1000.5%float.
Proof. vm_compute. reflexivity. Qed.

Example float_of_str_overflows_to_inf :
  PyFloat.of_string "1e400" = Some infinity.
Proof. vm_compute. reflexivity. Qed.

Example float_of_int_largest :
  float_of_int (2 ^ 1024 - 2 ^ 971) = Ok 0x1.fffffffffffffp+1023%float.
Proof. vm_compute. reflexivity. Qed.

Example float_of_int_too_large :
  float_of_int (2 ^ 1024)
  = Raise (Exn OverflowError "int too large to convert to float").
Proof. vm_compute. reflexivity. Qed.

Example format_1f_half_even : PyFloat.format_1f 85.25%float = "85.2".
Proof. vm_compute. reflexivity. Qed.

Example str_of_float : PyRepr.str (VFloat 450%float) = "450.0".
Proof. vm_compute. reflexivity. Qed.

Example str_of_large_float : PyRepr.str (VFloat 1e16%float) = "1e+16".
Proof. vm_compute. reflexivity. Qed.

Example loads_object :
  Json.loads (Scenario.dquote "{'a': [1, 2.5, null]}")
  = Ok (VDict [("a", VList [VInt 1; VFloat 2.5; VNone])]).
Proof. vm_compute. reflexivity. Qed.

Example loads_extra_data :
  Json.loads "{} {}"
  = Raise (Exn JSONDecodeError "Extra data: line 1 column 4 (char 3)").
Proof. vm_compute. reflexivity. Qed.

Example loads_no_json :
  Json.loads "abc"
  = Raise (Exn JSONDecodeError "Expecting value: line 1 column 1 (char 0)").
Proof. vm_compute. reflexivity. Qed.

Example search_is_greedy : re_search_braces "x{a}b}c{d" = Some "{a}b}".
Proof. reflexivity. Qed.

Example search_needs_order : re_search_braces "a } b {" = None.
Proof. reflexivity. Qed.

Example balanced_stops_early :
  first_balanced_object "x{a}b}c{d" = Some "{a}".
Proof. reflexivity. Qed.

Example locate_in_fence :
  locate_json ("Here:" ++ PyStr.nl ++ "```json" ++ PyStr.nl ++ "{}"
               ++ PyStr.nl ++ "```" ++ PyStr.nl ++ "Done") = "{}".
Proof. reflexivity. Qed.

Example locate_in_open_fence :
  locate_json ("```" ++ PyStr.nl ++ "{'a': 1}") = "{'a': 1".
Proof. reflexivity. Qed.

Example rsplit_at_last_dot : PyStr.rsplit1 "." "a.b.c" = ["a.b"; "c"].
Proof. reflexivity. Qed.

Example coerce_with_unit :
  coerce_value PyFloat.of_string (VStr "12 g") = Ok CZero.
Proof. reflexivity. Qed.

(** *** dict *)

Lemma dict_get_set_same (k : string) (v : pyval) (d : dict) :
  dict_get k (dict_set k v d) = Some v.
Proof.
  induction d as [|[k' v'] r IH]; simpl.
  - now rewrite String.eqb_refl.
  - destruct (String.eqb k k') eqn:E; simpl; rewrite E; auto.
Qed.

Lemma dict_get_set_other (k k' : string) (v : pyval) (d : dict) :
  k <> k' -> dict_get k (dict_set k' v d) = dict_get k d.
Proof.
  intros Hne. induction d as [|[k1 v1] r IH]; simpl.
  - destruct (String.eqb_spec k k'); congruence.
  - destruct (String.eqb_spec k' k1) as [->|Hk]; simpl.
    + destruct (String.eqb_spec k k1); congruence.
    + destruct (String.eqb_spec k k1); auto.
Qed.

(** *** Normalization *)

Section Normalization.

Variable float_of_str : string -> option float.

Lemma float_truediv_int (f : float) (z : Z) (g : float) :
  float_of_int z = Ok g -> PrimFloat.eqb g 0%float = false ->
  float_truediv f (VInt z) = Ok (PrimFloat.div f g).
Proof.
  intros Hz Hg. unfold float_truediv. rewrite Hz. simpl. now rewrite Hg.
Qed.

Lemma coerce_value_spec (o : option pyval) :
  fits_float o = true ->
  exists c,
    coerce_value float_of_str (match o with Some x => x | None => VInt 0 end)
    = Ok c
    /\ coerces float_of_str o c.
Proof.
  intros Hfit. destruct o as [v|].
  - destruct v as [| b | z | f | s | l | d]; unfold coerce_value; simpl.
    + eexists; split; [reflexivity | constructor].
    + eexists; split; [reflexivity | constructor].
    + simpl in Hfit. destruct (float_of_int z) as [f|e] eqn:Hz;
        [|discriminate].
      eexists; split; [reflexivity | now constructor].
    + eexists; split; [reflexivity | constructor].
    + destruct (String.eqb_spec s "Not Available") as [->|Hna]; simpl.
      { eexists; split; [reflexivity | constructor]. }
      destruct (String.eqb_spec s "N/A") as [->|Hna']; simpl.
      { eexists; split; [reflexivity | constructor]. }
      destruct (float_of_str s) as [f|] eqn:Hs; simpl.
      * eexists; split; [reflexivity | now constructor].
      * eexists; split; [reflexivity | now constructor].
    + eexists; split; [reflexivity | constructor].
    + eexists; split; [reflexivity | constructor].
  - exists (CFloat 0%float). split; [reflexivity | constructor].
Qed.

Lemma percent_of_inr_int (c : coerced) (b : Z) (g : float) :
  float_of_int b = Ok g -> PrimFloat.eqb g 0%float = false -> b <> 0 ->
  percent_of_inr c (VInt b) = Ok (percent_entry c g).
Proof.
  intros Hb Hg Hnz. destruct c as [|f]; simpl; [reflexivity|].
  destruct (PrimFloat.eqb f 0%float); simpl; [reflexivity|].
  apply Z.eqb_neq in Hnz. rewrite Hnz. simpl.
  now rewrite (float_truediv_int f b g Hb Hg).
Qed.

Lemma nutrient_entry_ok (d bl : dict) (n : string) (b : Z) (g : float) :
  dict_get n bl = Some (VInt b) ->
  float_of_int b = Ok g -> PrimFloat.eqb g 0%float = false -> b <> 0 ->
  fits_float (dict_get n d) = true ->
  exists c,
    coerces float_of_str (dict_get n d) c
    /\ nutrient_entry float_of_str (VDict d) bl n
       = Ok (analysis_entry (coerced_val c) (VInt b) (percent_entry c g)).
Proof.
  intros Hbl Hb Hg Hnz Hfit.
  destruct (coerce_value_spec (dict_get n d) Hfit) as [c [Hc Hrel]].
  exists c. split; [exact Hrel|].
  unfold nutrient_entry. simpl. rewrite Hc. simpl. rewrite Hbl.
  now rewrite (percent_of_inr_int c b g Hb Hg Hnz).
Qed.




Lemma add_fiber_total (d a : dict) :
  fits_float (dict_get "fiber_g" d) = true ->
  exists r, add_fiber float_of_str (VDict d) FSSAI_INR_BASELINE a = Ok r
            /\ forall k, k <> "fiber_g" -> dict_get k r = dict_get k a.
Proof.
  intros Hfit. unfold add_fiber. simpl.
  destruct (dict_get "fiber_g" d) as [x|]; simpl;
    [|exists a; split; [reflexivity | auto]].
  destruct (negb (eq_str x "Not Available") && negb (is_none x)
            && negb (eq_str x "N/A"));
    [|exists a; split; [reflexivity | auto]].
  assert (Hset : forall e k, k <> "fiber_g" ->
                   dict_get k (dict_set "fiber_g" e a) = dict_get k a)
    by (intros; now apply dict_get_set_other).
  unfold fiber_entry.
  destruct x as [| b | z | f | s | l | dd]; simpl;
    try (eexists; split; [reflexivity | now auto]).
  - simpl in Hfit. destruct (float_of_int z); [|discriminate]. simpl.
    eexists; split; [reflexivity | now auto].
  - destruct (float_of_str s); simpl;
      eexists; (split; [reflexivity | now auto]).
Qed.

End Normalization.

(** *** The session cookie *)

Lemma cookie_value_dict (d : dict) :
  cookie_value (VDict d) = VDict (cookie_entries d).
Proof.
  cbn [cookie_value]. f_equal.
  induction d as [|[k x] rest IH]; [reflexivity|].
  change (cookie_entries ((k, x) :: rest))
    with (insert_key k (cookie_value x) (cookie_entries rest)).
  now rewrite <- IH.
Qed.

Lemma leb_refl (k : string) : String.leb k k = true.
Proof. now destruct (String.leb_total k k). Qed.

(** A key inserted in its place is found, and hides no other key. *)
Lemma dict_get_insert_key (k k0 : string) (v : pyval) (d : dict) :
  dict_get k (insert_key k0 v d)
  = if String.eqb k k0 then Some v else dict_get k d.
Proof.
  induction d as [|[k1 v1] rest IH]; cbn [insert_key dict_get].
  - reflexivity.
  - destruct (String.leb k0 k1) eqn:Hle; cbn [dict_get].
    + reflexivity.
    + destruct (String.eqb k k1) eqn:H1.
      * apply String.eqb_eq in H1. subst k1.
        destruct (String.eqb k k0) eqn:H0; [|reflexivity].
        apply String.eqb_eq in H0. subst k0.
        now rewrite leb_refl in Hle.
      * exact IH.
Qed.

(** What a key holds after the round trip is what it held before, after
    its own round trip. *)
Lemma dict_get_cookie (k : string) (d : dict) :
  dict_get k (cookie_entries d) = option_map cookie_value (dict_get k d).
Proof.
  induction d as [|[k1 v1] rest IH]; [reflexivity|].
  cbn [cookie_entries fold_right fst snd dict_get].
  rewrite dict_get_insert_key.
  destruct (String.eqb k k1); [reflexivity | exact IH].
Qed.

Lemma insert_key_cons (k : string) (v : pyval) (d : dict) :
  insert_key k v d <> [].
Proof.
  destruct d as [|[k1 v1] rest]; cbn [insert_key]; [discriminate|].
  destruct (String.leb k k1); discriminate.
Qed.

Lemma truthy_cookie (v : pyval) : truthy (cookie_value v) = truthy v.
Proof.
  destruct v as [| b | z | f | s | l | d]; try reflexivity.
  - cbn [cookie_value truthy]. now destruct l.
  - rewrite cookie_value_dict. cbn [truthy].
    destruct d as [|[k x] rest]; [reflexivity|].
    cbn [cookie_entries fold_right fst snd].
    destruct (insert_key k (cookie_value x) _) eqn:H; [|reflexivity].
    now apply insert_key_cons in H.
Qed.

Lemma py_getitem_cookie (v : pyval) (k : string) :
  py_getitem (cookie_value v) k
  = match py_getitem v k with
    | Ok x => Ok (cookie_value x)
    | Raise e => Raise e
    end.
Proof.
  destruct v as [| b | z | f | s | l | d]; try reflexivity.
  rewrite cookie_value_dict. cbn [py_getitem]. rewrite dict_get_cookie.
  now destruct (dict_get k d).
Qed.

Section NormalizationClaims.

Variable float_of_str : string -> option float.

Lemma for_nutrients_cons (pn : pyval) (bl : dict) (n : string)
  (rest : list string) (acc : dict) :
  for_nutrients float_of_str pn bl (n :: rest) acc
  = (let? entry := nutrient_entry float_of_str pn bl n in
     for_nutrients float_of_str pn bl rest (dict_set n entry acc)).
Proof. reflexivity. Qed.

(** The analysis of a mapping whose converted values all fit a float. *)
Lemma analysis_of_fitting_mapping (d : dict) :
  all_fit d = true ->
  exists a,
    calculate_nutrient_analysis float_of_str (VDict d) FSSAI_INR_BASELINE
    = Ok (VDict a)
    /\ forall n, In n nutrients ->
         exists c b g,
           dict_get n FSSAI_INR_BASELINE = Some (VInt b)
           /\ float_of_int b = Ok g
           /\ coerces float_of_str (dict_get n d) c
           /\ dict_get n a
              = Some (analysis_entry (coerced_val c) (VInt b)
                        (percent_entry c g)).
Proof.
  intros Hfit. unfold all_fit in Hfit. simpl in Hfit.
  rewrite !andb_true_iff in Hfit.
  destruct Hfit as (F1 & F2 & F3 & F4 & F5 & F6 & _).
  destruct (nutrient_entry_ok float_of_str d FSSAI_INR_BASELINE "energy_kcal"
              2000 2000%float eq_refl eq_refl eq_refl ltac:(lia) F1)
    as [c1 [R1 E1]].
  destruct (nutrient_entry_ok float_of_str d FSSAI_INR_BASELINE "sugars_g"
              50 50%float eq_refl eq_refl eq_refl ltac:(lia) F2)
    as [c2 [R2 E2]].
  destruct (nutrient_entry_ok float_of_str d FSSAI_INR_BASELINE
              "saturated_fat_g"
              20 20%float eq_refl eq_refl eq_refl ltac:(lia) F3)
    as [c3 [R3 E3]].
  destruct (nutrient_entry_ok float_of_str d FSSAI_INR_BASELINE "sodium_mg"
              2000 2000%float eq_refl eq_refl eq_refl ltac:(lia) F4)
    as [c4 [R4 E4]].
  destruct (nutrient_entry_ok float_of_str d FSSAI_INR_BASELINE "protein_g"
              50 50%float eq_refl eq_refl eq_refl ltac:(lia) F5)
    as [c5 [R5 E5]].
  unfold calculate_nutrient_analysis, nutrients.
  rewrite for_nutrients_cons, E1. cbn [rbind].
  rewrite for_nutrients_cons, E2. cbn [rbind].
  rewrite for_nutrients_cons, E3. cbn [rbind].
  rewrite for_nutrients_cons, E4. cbn [rbind].
  rewrite for_nutrients_cons, E5. cbn [rbind for_nutrients].
  match goal with
  | |- context [add_fiber _ _ _ ?acc] =>
      destruct (add_fiber_total float_of_str d acc F6) as [r [Hr Hkeep]]
  end.
  rewrite Hr. cbn [rbind]. exists r. split; [reflexivity|].
  intros n Hn. simpl in Hn.
  destruct Hn as [<- | [<- | [<- | [<- | [<- | []]]]]];
    (rewrite Hkeep; [|discriminate]).
  - exists c1, 2000, 2000%float. now repeat split.
  - exists c2, 50, 50%float. now repeat split.
  - exists c3, 20, 20%float. now repeat split.
  - exists c4, 2000, 2000%float. now repeat split.
  - exists c5, 50, 50%float. now repeat split.
Qed.

(** C1, as amended.  For every product nutrition mapping in which none of
    the six values normalization converts is an int beyond the range of a
    float, and the fixed FSSAI baseline, [calculate_nutrient_analysis]
    returns an analysis that has an entry for each of the five mandatory
    nutrients.  Its per-100g value is the profile value coerced to a number
    (absent, null, the not-available markers and what does not read as a
    number give 0); its percent_of_inr is value / baseline * 100 when the
    value is a float other than zero (a negative value and NaN included),
    and the int 0 otherwise. *)
Theorem mandatory_nutrients_analysed (d : dict) :
  all_fit d = true ->
  exists a,
    calculate_nutrient_analysis float_of_str (VDict d) FSSAI_INR_BASELINE
    = Ok (VDict a)
    /\ forall n, In n nutrients ->
         exists c b g,
           dict_get n FSSAI_INR_BASELINE = Some (VInt b)
           /\ float_of_int b = Ok g
           /\ coerces float_of_str (dict_get n d) c
           /\ dict_get n a
              = Some (analysis_entry (coerced_val c) (VInt b)
                        (percent_entry c g)).
Proof. exact (analysis_of_fitting_mapping d). Qed.



(** C8, at the failing input.  On the mapping whose energy value is the
    integer 10^400, [float(value)] raises OverflowError, which the clause
    [except (ValueError, TypeError)] does not catch:
    [calculate_nutrient_analysis] raises. *)
Theorem huge_int_raises_overflow :
  calculate_nutrient_analysis float_of_str (VDict Scenario.huge_energy)
    FSSAI_INR_BASELINE
  = Raise (Exn OverflowError "int too large to convert to float").
Proof. vm_compute. reflexivity. Qed.

(** A value that is a str not readable as a number is coerced to the
    int 0. *)
Lemma unparseable_string_is_zero (s : string) :
  float_of_str s = None -> coerce_value float_of_str (VStr s) = Ok CZero.
Proof.
  intros Hs. unfold coerce_value. simpl.
  destruct (String.eqb s "Not Available"); simpl; [reflexivity|].
  destruct (String.eqb s "N/A"); simpl; [reflexivity|].
  now rewrite Hs.
Qed.

End NormalizationClaims.

(** The scenario of section 8 of the specification: the six percentages. *)
Example label_percentages :
  calculate_nutrient_analysis PyFloat.of_string (VDict Scenario.label)
    FSSAI_INR_BASELINE
  = Ok (VDict
          [("energy_kcal",
            analysis_entry (VFloat 450) (VInt 2000) (VFloat 22.5));
           ("sugars_g", analysis_entry (VFloat 25) (VInt 50) (VFloat 50));
           ("saturated_fat_g",
            analysis_entry (VFloat 8) (VInt 20) (VFloat 40));
           ("sodium_mg", analysis_entry (VFloat 200) (VInt 2000) (VFloat 10));
           ("protein_g", analysis_entry (VFloat 6) (VInt 50) (VFloat 12));
           ("fiber_g", analysis_entry (VFloat 2) (VInt 25) (VFloat 8))]).
Proof. vm_compute. reflexivity. Qed.

(** C1, witness: the label of section 8. *)
Lemma mandatory_nutrients_analysed_witness :
  all_fit Scenario.label = true
  /\ exists a,
       calculate_nutrient_analysis PyFloat.of_string (VDict Scenario.label)
         FSSAI_INR_BASELINE = Ok (VDict a)
       /\ forall n, In n nutrients ->
            exists c b g,
              dict_get n FSSAI_INR_BASELINE = Some (VInt b)
              /\ float_of_int b = Ok g
              /\ coerces PyFloat.of_string (dict_get n Scenario.label) c
              /\ dict_get n a
                 = Some (analysis_entry (coerced_val c) (VInt b)
                           (percent_entry c g)).
Proof.
  split; [reflexivity|].
  apply (mandatory_nutrients_analysed PyFloat.of_string Scenario.label).
  reflexivity.
Defined.

(** C1, counterexample: an energy value of -5 is not greater than 0, so the
    claim puts its percent_of_inr at 0; the code divides, and the entry
    holds -0.25. *)
Lemma negative_value_percent_not_zero :
  exists a,
    calculate_nutrient_analysis PyFloat.of_string
      (VDict Scenario.negative_energy) FSSAI_INR_BASELINE = Ok (VDict a)
    /\ dict_get "energy_kcal" a
       = Some (analysis_entry (VFloat (-5)) (VInt 2000) (VFloat (-0.25)))
    /\ claimed_percent_is_zero (-5) 2000 = true
    /\ num_is_zero (VFloat (-0.25)) = false.
Proof.
  eexists. split; [vm_compute; reflexivity|].
  split; [reflexivity|]. split; vm_compute; reflexivity.
Qed.

(** *** allowed_file *)

Lemma contains_dot_cons (c : ascii) (r : string) :
  PyStr.contains "." (String c r)
  = Ascii.eqb c "." || PyStr.contains "." r.
Proof.
  unfold PyStr.contains. cbn [PyStr.index_of PyStr.starts_with].
  rewrite andb_true_r, (Ascii.eqb_sym "." c).
  destruct (Ascii.eqb c "."); simpl; [reflexivity|].
  now destruct (PyStr.index_of "." r).
Qed.

Lemma rsplit_last_none (s : string) :
  PyStr.rsplit_last "." s = None <-> PyStr.contains "." s = false.
Proof.
  induction s as [|c r IH].
  - split; reflexivity.
  - rewrite contains_dot_cons. simpl.
    destruct (PyStr.rsplit_last "." r) as [[a b]|].
    + split; [discriminate|]. intros H. apply orb_false_elim in H.
      destruct H as [_ H]. apply IH in H. discriminate.
    + destruct (Ascii.eqb c "."); simpl.
      * split; discriminate.
      * split; intros _; [now apply IH | reflexivity].
Qed.

Lemma dot_after_stem (a b : string) :
  PyStr.contains "." (a ++ "." ++ b) = true.
Proof.
  induction a as [|x a IH]; cbn [append] in *.
  - rewrite contains_dot_cons. reflexivity.
  - rewrite contains_dot_cons, IH. apply orb_true_r.
Qed.

Lemma rsplit_last_some (s a b : string) :
  PyStr.rsplit_last "." s = Some (a, b)
  <-> s = a ++ "." ++ b /\ PyStr.contains "." b = false.
Proof.
  revert a b. induction s as [|c r IH]; intros a b.
  - split; [discriminate|]. intros [H _]. destruct a; discriminate.
  - cbn [PyStr.rsplit_last].
    destruct (PyStr.rsplit_last "." r) as [[a' b']|] eqn:Hr.
    + split.
      * intros H. inversion H; subst.
        destruct (proj1 (IH a' b) eq_refl) as [-> Hb]. now split.
      * intros [Heq Hb]. destruct a as [|c' a''].
        -- simpl in Heq. inversion Heq; subst.
           apply rsplit_last_none in Hb. congruence.
        -- simpl in Heq. inversion Heq; subst.
           assert (H : Some (a', b') = Some (a'', b))
             by (apply IH; now split).
           now inversion H.
    + apply rsplit_last_none in Hr. destruct (Ascii.eqb_spec c "."%char).
      * subst c. split.
        -- intros H. inversion H; subst. now split.
        -- intros [Heq Hb]. destruct a as [|c' a''].
           ++ simpl in Heq. now inversion Heq.
           ++ simpl in Heq. inversion Heq; subst.
              pose proof (dot_after_stem a'' b) as Hd. cbn [append] in Hd.
              congruence.
      * split; [discriminate|]. intros [Heq Hb]. destruct a as [|c' a''].
        -- simpl in Heq. inversion Heq. congruence.
        -- simpl in Heq. inversion Heq; subst.
           pose proof (dot_after_stem a'' b) as Hd. cbn [append] in Hd.
              congruence.
Qed.

Lemma set_mem_In (x : string) (s : list string) :
  set_mem x s = true <-> In x s.
Proof.
  unfold set_mem. rewrite existsb_exists. split.
  - intros [y [Hy He]]. apply String.eqb_eq in He. now subst.
  - intros H. exists x. split; [exact H | apply String.eqb_refl].
Qed.

Lemma allowed_file_dotless (filename : string) (allowed : list string) :
  PyStr.contains "." filename = false ->
  allowed_file filename allowed = Ok false.
Proof. intros H. unfold allowed_file. now rewrite H. Qed.

Lemma allowed_file_split (stem ext : string) (allowed : list string) :
  PyStr.contains "." ext = false ->
  allowed_file (stem ++ "." ++ ext) allowed
  = Ok (set_mem (PyStr.lower ext) allowed).
Proof.
  intros Hext. unfold allowed_file.
  assert (Hsplit : PyStr.rsplit_last "." (stem ++ "." ++ ext)
                   = Some (stem, ext)) by (apply rsplit_last_some; now split).
  destruct (PyStr.contains "." (stem ++ "." ++ ext)) eqn:Hc.
  - unfold PyStr.rsplit1. rewrite Hsplit. reflexivity.
  - apply rsplit_last_none in Hc. congruence.
Qed.

(** *** The monad *)

Lemma logged_logged (w : world) (a b : list event) :
  logged (logged w a) b = logged w (a ++ b).
Proof. unfold logged. simpl. now rewrite app_assoc. Qed.

Lemma count_events_app (p : event -> bool) (a b : list event) :
  count_events p (a ++ b) = (count_events p a + count_events p b)%nat.
Proof. unfold count_events. now rewrite filter_app, length_app. Qed.

Lemma keeps_ret {A} (a : A) : keeps_session (ret a).
Proof. intros w. reflexivity. Qed.

Lemma keeps_lift {A} (r : result A) : keeps_session (lift r).
Proof. intros w. reflexivity. Qed.

Lemma keeps_log (ev : event) : keeps_session (log ev).
Proof. intros w. reflexivity. Qed.

Lemma keeps_session_get (k : string) : keeps_session (session_get k).
Proof. intros w. reflexivity. Qed.

Lemma keeps_bind {A B} (c : M A) (k : A -> M B) :
  keeps_session c -> (forall a, keeps_session (k a)) ->
  keeps_session (bind c k).
Proof.
  intros Hc Hk w. unfold bind. specialize (Hc w).
  destruct (c w) as [[a|e] w1]; simpl in *.
  - rewrite <- Hc. apply Hk.
  - exact Hc.
Qed.

Lemma keeps_try_except {A} (c : M A) (h : exn -> M A) :
  keeps_session c -> (forall e, keeps_session (h e)) ->
  keeps_session (try_except c h).
Proof.
  intros Hc Hh w. unfold try_except. specialize (Hc w).
  destruct (c w) as [[a|e] w1]; simpl in *.
  - exact Hc.
  - rewrite <- Hc. apply Hh.
Qed.

Lemma keeps_if {A} (b : bool) (c1 c2 : M A) :
  keeps_session c1 -> keeps_session c2 ->
  keeps_session (if b then c1 else c2).
Proof. now destruct b. Qed.

Ltac keeps := repeat (intros; first
  [ apply keeps_ret | apply keeps_lift | apply keeps_log
  | apply keeps_session_get | apply keeps_bind | apply keeps_try_except
  | apply keeps_if ]).

Lemma calls_of_prints (evs : list event) :
  forallb is_print evs = true -> calls_of evs = [].
Proof.
  induction evs as [|ev r IH]; [reflexivity|].
  cbn [forallb]. intros H. apply andb_prop in H as [Hev Hr].
  unfold calls_of. cbn [filter]. rewrite Hev. cbn [negb]. now apply IH.
Qed.

Lemma count_prints (p : event -> bool) (evs : list event) :
  (forall ev, is_print ev = true -> p ev = false) ->
  forallb is_print evs = true -> count_events p evs = 0%nat.
Proof.
  intros Hp. induction evs as [|ev r IH]; simpl; intros H; [reflexivity|].
  apply andb_prop in H as [Hev Hr]. unfold count_events in *. simpl.
  rewrite (Hp ev Hev). now apply IH.
Qed.

(** The counts of a log that ends with printed lines. *)
Ltac count_calls Hp :=
  unfold count_events; cbn [filter is_retrieve is_chat_call length];
  match goal with
  | |- context [filter is_retrieve ?evs] =>
      fold (count_events is_retrieve evs);
      rewrite (count_prints is_retrieve evs) by (exact Hp || now intros [])
  | _ => idtac
  end;
  match goal with
  | |- context [filter is_chat_call ?evs] =>
      fold (count_events is_chat_call evs);
      rewrite (count_prints is_chat_call evs) by (exact Hp || now intros [])
  | _ => idtac
  end.


(** *** The pattern of the rating reply *)

Lemma take_drop (n : nat) (s : string) :
  s = PyStr.take n s ++ PyStr.drop n s.
Proof.
  revert s. induction n as [|n IH]; intros [|c r]; simpl; auto.
  now rewrite <- IH.
Qed.

Lemma append_assoc (a b c : string) : (a ++ b) ++ c = a ++ b ++ c.
Proof. induction a as [|x a IH]; simpl; [reflexivity | now rewrite IH]. Qed.

Lemma first_index_split (c : ascii) (s : string) (i : nat) :
  PyStr.first_index c s = Some i ->
  PyStr.drop i s = String c (PyStr.drop (S i) s)
  /\ PyStr.first_index c (PyStr.take i s) = None.
Proof.
  revert i. induction s as [|d r IH]; intros i H; simpl in H; [discriminate|].
  destruct (Ascii.eqb_spec d c) as [->|Hne].
  - inversion H; subst. simpl. split; [|reflexivity]. now destruct r.
  - destruct (PyStr.first_index c r) as [k|] eqn:Hr; [|discriminate].
    inversion H; subst. destruct (IH k eq_refl) as [Hd Ht].
    split; [exact Hd|]. simpl.
    destruct (Ascii.eqb_spec d c); [congruence|]. now rewrite Ht.
Qed.

Lemma last_index_split (c : ascii) (s : string) (j : nat) :
  PyStr.last_index c s = Some j ->
  PyStr.take (S j) s = PyStr.take j s ++ String c EmptyString
  /\ PyStr.last_index c (PyStr.drop (S j) s) = None.
Proof.
  revert j. induction s as [|d r IH]; intros j H; simpl in H; [discriminate|].
  destruct (PyStr.last_index c r) as [k|] eqn:Hr.
  - inversion H; subst. destruct (IH k eq_refl) as [Ht Hd]. split.
    + change (PyStr.take (S (S k)) (String d r))
        with (String d (PyStr.take (S k) r)).
      rewrite Ht. reflexivity.
    + exact Hd.
  - destruct (Ascii.eqb_spec d c) as [->|Hne]; [|discriminate].
    inversion H; subst. split.
    + now destruct r.
    + simpl. now destruct r.
Qed.

Lemma last_index_none_app (c : ascii) (a b : string) :
  PyStr.last_index c (a ++ String c b) <> None.
Proof.
  induction a as [|x a IH]; simpl.
  - destruct (PyStr.last_index c b); [discriminate|].
    now rewrite Ascii.eqb_refl.
  - destruct (PyStr.last_index c (a ++ String c b)); [discriminate|].
    now contradiction IH.
Qed.

Lemma first_index_app (c : ascii) (a b : string) :
  exists i, PyStr.first_index c (a ++ String c b) = Some i
            /\ (i <= String.length a)%nat.
Proof.
  induction a as [|x a [i [Hi Hle]]]; simpl.
  - exists 0%nat. now rewrite Ascii.eqb_refl.
  - destruct (Ascii.eqb x c).
    + exists 0%nat. split; [reflexivity | lia].
    + rewrite Hi. exists (S i). split; [reflexivity | lia].
Qed.

Lemma drop_app (i : nat) (a b : string) :
  (i <= String.length a)%nat ->
  PyStr.drop i (a ++ b) = PyStr.drop i a ++ b.
Proof.
  revert a. induction i as [|i IH]; intros a Hle; [reflexivity|].
  destruct a as [|x a]; simpl in *; [lia|]. apply IH. lia.
Qed.

(** The located text runs from the first opening brace of the reply through
    its last closing brace. *)
Lemma re_search_braces_some (reply m : string) :
  re_search_braces reply = Some m ->
  exists pre body post,
    reply = pre ++ m ++ post
    /\ m = "{" ++ body ++ "}"
    /\ PyStr.first_index "{" pre = None
    /\ PyStr.last_index "}" post = None.
Proof.
  unfold re_search_braces. intros H.
  destruct (PyStr.first_index "{" reply) as [i|] eqn:Hi; [|discriminate].
  destruct (first_index_split _ _ _ Hi) as [Hdrop Hpre].
  cbv zeta in H. remember (PyStr.drop i reply) as from_brace eqn:Hfb.
  destruct (PyStr.last_index "}" from_brace) as [j|] eqn:Hj; [|discriminate].
  assert (Hm : m = PyStr.take (S j) from_brace) by congruence. clear H.
  destruct (last_index_split _ _ _ Hj) as [Htake Hpost].
  destruct j as [|j].
  { rewrite Hdrop in Hj. cbn [PyStr.last_index] in Hj.
    destruct (PyStr.last_index "}" (PyStr.drop (S i) reply));
      [discriminate|]. vm_compute in Hj. discriminate. }
  exists (PyStr.take i reply), (PyStr.take j (PyStr.drop (S i) reply)),
    (PyStr.drop (S (S j)) from_brace).
  repeat split.
  - rewrite Hm, <- (take_drop (S (S j)) from_brace), Hfb.
    apply take_drop.
  - rewrite Hm, Htake, Hdrop. reflexivity.
  - exact Hpre.
  - exact Hpost.
Qed.

(** No text is located only when no closing brace follows an opening one. *)
Lemma re_search_braces_none (reply : string) :
  re_search_braces reply = None ->
  forall pre body post, reply <> pre ++ "{" ++ body ++ "}" ++ post.
Proof.
  unfold re_search_braces. intros H pre body post Heq. subst reply.
  destruct (first_index_app "{" pre (body ++ "}" ++ post)) as [i [Hi Hle]].
  cbn [append] in *. rewrite Hi in H.
  rewrite (drop_app i pre _ Hle) in H.
  replace (PyStr.drop i pre ++ String "{" (body ++ String "}" post))
    with ((PyStr.drop i pre ++ String "{" body) ++ String "}" post) in H
    by (rewrite append_assoc; reflexivity).
  destruct (PyStr.last_index "}"
              ((PyStr.drop i pre ++ String "{" body) ++ String "}" post))
    eqn:Hl; [discriminate|].
  now apply last_index_none_app in Hl.
Qed.

(** *** Texts that carry a field *)

Lemma occurs_here (s b : string) : occurs s (s ++ b).
Proof. exists EmptyString, b. reflexivity. Qed.

Lemma occurs_later (s a p : string) : occurs s p -> occurs s (a ++ p).
Proof.
  intros [x [y ->]]. exists (a ++ x), y. now rewrite append_assoc.
Qed.

Ltac occurs := repeat first [apply occurs_here | apply occurs_later].

(** One step through a chain of [let?] that ends in [Ok]. *)
Ltac step_bind H :=
  match type of H with
  | context [rbind ?r _] =>
      lazymatch r with
      | rbind _ _ => fail
      | _ => destruct r eqn:?; cbn [rbind] in H; [|discriminate H]
      end
  end.

(** *** The chain *)

Section Claims.

Variable float_of_str : string -> option float.
Variable json_loads : string -> result pyval.
Variable py_str : pyval -> string.
Variable format_1f : float -> string.
Variable getenv_api_key : option string.
Variable vision_call : pyval -> result string.
Variable rating_call : string -> result string.
Variable chat_call : string -> result string.
Variable retriever : pyval -> result (list string).
Variable answer_call : list string -> pyval -> result string.
Variable secure_filename : string -> string.
Variable save_file : string -> result unit.
Variable stdout_write : text -> result unit.

Local Abbreviation extract_info :=
  (extract_nutrition_info_gpt4o json_loads getenv_api_key vision_call).
Local Abbreviation step1 :=
  (extract_nutrition_step json_loads getenv_api_key vision_call).
Local Abbreviation step2 :=
  (calculate_analysis_step float_of_str FSSAI_INR_BASELINE).
Local Abbreviation step3 :=
  (calculate_inr_step json_loads py_str format_1f rating_call
     FSSAI_INR_BASELINE).
Local Abbreviation run_chain key :=
  (create_nutrition_analysis_chain float_of_str json_loads py_str format_1f
     getenv_api_key vision_call rating_call key FSSAI_INR_BASELINE).
Local Abbreviation upload :=
  (upload_image float_of_str json_loads py_str format_1f getenv_api_key
     vision_call rating_call secure_filename save_file).
Local Abbreviation chat_handler :=
  (chat py_str format_1f chat_call retriever answer_call stdout_write).

Lemma keeps_chain (key : option string) (x : pyval) :
  keeps_session (run_chain key x).
Proof.
  unfold create_nutrition_analysis_chain, extract_nutrition_step,
    extract_nutrition_info_gpt4o, calculate_analysis_step,
    calculate_inr_step, calculate_inr_score.
  keeps.
Qed.

Lemma step2_passes_failure (r : pyval) (w : world) :
  is_failure r -> step2 r w = (Ok r, w).
Proof.
  intros [s [Hs Ht]]. unfold calculate_analysis_step, bind, lift.
  rewrite Hs, Ht. reflexivity.
Qed.

Lemma step3_passes_failure (r : pyval) (w : world) :
  is_failure r -> step3 r w = (Ok r, w).
Proof.
  intros [s [Hs Ht]]. unfold calculate_inr_step, bind, lift.
  rewrite Hs, Ht. reflexivity.
Qed.

Lemma logged_nil (w : world) : w = logged w [].
Proof. destruct w as [t s]. unfold logged. simpl. now rewrite app_nil_r. Qed.

(** What the extraction step logs: the call of the vision model, at most. *)
Lemma step1_trace (key : option string) (x : pyval) (w : world) :
  exists evs, snd (step1 key x w) = logged w evs
              /\ forallb is_vision_call evs = true.
Proof.
  unfold extract_nutrition_step, extract_nutrition_info_gpt4o,
    bind, lift, log, ret.
  destruct (match x with VStr _ => Ok x | _ => py_get x "image_path" VNone end)
    as [ip|e]; [|exists []; split; [apply logged_nil | reflexivity]].
  destruct (match key with
            | Some _ => Ok tt
            | None => _
            end) as [u|e]; [|exists []; split; [apply logged_nil | reflexivity]].
  exists [VisionCall ip]. split; [|reflexivity].
  destruct (vision_call ip) as [text|e]; [|reflexivity].
  destruct (parse_extraction json_loads text) as [r|e]; [|reflexivity].
  destruct (py_getitem r "success") as [s|e]; [|reflexivity].
  destruct (negb (truthy s)).
  - destruct (py_get r "error" VNone); reflexivity.
  - destruct (py_getitem r "data"); reflexivity.
Qed.

Lemma count_other_events (p : event -> bool) (evs : list event) :
  (forall ev, is_vision_call ev = true -> p ev = false) ->
  forallb is_vision_call evs = true -> count_events p evs = 0%nat.
Proof.
  intros Hp. induction evs as [|ev r IH]; simpl; intros H; [reflexivity|].
  apply andb_prop in H as [Hev Hr]. unfold count_events in *. simpl.
  rewrite (Hp ev Hev). now apply IH.
Qed.

Lemma count_after_step1 (p : event -> bool) (key : option string)
  (x : pyval) (w : world) :
  (forall ev, is_vision_call ev = true -> p ev = false) ->
  count_events p (trace (snd (step1 key x w))) = count_events p (trace w).
Proof.
  intros Hp. destruct (step1_trace key x w) as [evs [-> Hevs]].
  unfold logged. simpl. rewrite count_events_app.
  rewrite (count_other_events p evs Hp Hevs). lia.
Qed.

(** The run of the rating step on a successful input whose prompt is built
    and whose model call returns the text [reply]. *)
Lemma step3_run (inputs s pd an ip : pyval) (prompt reply : string)
  (w : world) :
  py_get inputs "success" VNone = Ok s -> truthy s = true ->
  py_getitem inputs "product_data" = Ok pd ->
  py_getitem inputs "analysis" = Ok an ->
  py_getitem inputs "image_path" = Ok ip ->
  reasoning_prompt py_str format_1f pd an FSSAI_INR_BASELINE = Ok prompt ->
  rating_call prompt = Ok reply ->
  step3 inputs w
  = match parse_inr_reply json_loads reply with
    | Ok v => (Ok (if is_none v then inr_failure ip
                   else success_result ip pd an v),
               logged w [InrScore pd; RatingCall prompt])
    | Raise e => (Raise e, logged w [InrScore pd; RatingCall prompt])
    end.
Proof.
  intros Hs Ht Hpd Han Hip Hp Hr.
  unfold calculate_inr_step, calculate_inr_score, bind, lift, log, ret.
  rewrite Hs, Ht, Hpd, Han. simpl. rewrite Hp, Hr.
  unfold logged. simpl. rewrite <- app_assoc. simpl.
  destruct (parse_inr_reply json_loads reply) as [v|e]; [|reflexivity].
  destruct (is_none v); rewrite Hip; reflexivity.
Qed.

(** The run of the analysis step on a successful input. *)
Lemma step2_run (inputs s pd nut : pyval) (w : world) :
  py_get inputs "success" VNone = Ok s -> truthy s = true ->
  py_getitem inputs "product_data" = Ok pd ->
  py_getitem pd "nutritional_info_per_100g" = Ok nut ->
  step2 inputs w
  = match calculate_nutrient_analysis float_of_str nut FSSAI_INR_BASELINE with
    | Ok an =>
        match py_getitem inputs "image_path" with
        | Ok ip => (Ok (VDict [("success", VBool true);
                               ("image_path", ip);
                               ("product_data", pd);
                               ("analysis", an)]),
                    logged w [Normalize nut])
        | Raise e => (Raise e, logged w [Normalize nut])
        end
    | Raise e => (Raise e, logged w [Normalize nut])
    end.
Proof.
  intros Hs Ht Hpd Hnut.
  unfold calculate_analysis_step, bind, lift, log, ret.
  rewrite Hs, Ht, Hpd, Hnut. simpl.
  destruct (calculate_nutrient_analysis float_of_str nut FSSAI_INR_BASELINE)
    as [an|e]; [|reflexivity].
  destruct (py_getitem inputs "image_path"); reflexivity.
Qed.

(** C2, as amended.  (1) When the extraction step returns a failure value,
    the chain returns that value unchanged, and neither
    [calculate_nutrient_analysis] nor [calculate_inr_score] nor the rating
    model is called.  (2) When [calculate_inr_score] returns None, the
    rating step returns the failure value that names the INR score
    calculation.  (3) The analysis step builds no failure value: what it
    returns on a successful input is a success value; and (4) it returns
    one when the product data holds a nutritional_info_per_100g mapping
    none of whose six converted values is an int beyond the range of a
    float. *)
Theorem chain_short_circuit :
  (forall key x w r w1,
     step1 key x w = (Ok r, w1) -> is_failure r ->
     run_chain key x w = (Ok r, w1)
     /\ count_events is_normalize (trace w1)
        = count_events is_normalize (trace w)
     /\ count_events is_inr_score (trace w1)
        = count_events is_inr_score (trace w)
     /\ count_events is_rating_call (trace w1)
        = count_events is_rating_call (trace w))
  /\ (forall inputs s pd an ip w w',
        py_get inputs "success" VNone = Ok s -> truthy s = true ->
        py_getitem inputs "product_data" = Ok pd ->
        py_getitem inputs "analysis" = Ok an ->
        py_getitem inputs "image_path" = Ok ip ->
        calculate_inr_score json_loads py_str format_1f rating_call pd an
          FSSAI_INR_BASELINE w = (Ok VNone, w') ->
        step3 inputs w = (Ok (inr_failure ip), w'))
  /\ (forall inputs s w r w',
        py_get inputs "success" VNone = Ok s -> truthy s = true ->
        step2 inputs w = (Ok r, w') ->
        exists ip pd an,
          r = VDict [("success", VBool true); ("image_path", ip);
                     ("product_data", pd); ("analysis", an)])
  /\ (forall inputs s pd d ip w,
        py_get inputs "success" VNone = Ok s -> truthy s = true ->
        py_getitem inputs "product_data" = Ok pd ->
        py_getitem pd "nutritional_info_per_100g" = Ok (VDict d) ->
        all_fit d = true ->
        py_getitem inputs "image_path" = Ok ip ->
        exists a,
          step2 inputs w
          = (Ok (VDict [("success", VBool true); ("image_path", ip);
                        ("product_data", pd); ("analysis", VDict a)]),
             logged w [Normalize (VDict d)])).
Proof.
  split; [|split; [|split]].
  - intros key x w r w1 Hrun Hfail.
    pose proof (count_after_step1 is_normalize key x w) as Hn.
    pose proof (count_after_step1 is_inr_score key x w) as Hi.
    pose proof (count_after_step1 is_rating_call key x w) as Hr.
    rewrite Hrun in Hn, Hi, Hr. simpl in Hn, Hi, Hr.
    repeat split.
    + unfold create_nutrition_analysis_chain, bind.
      rewrite Hrun. rewrite (step2_passes_failure r w1 Hfail).
      apply (step3_passes_failure r w1 Hfail).
    + apply Hn. now intros [].
    + apply Hi. now intros [].
    + apply Hr. now intros [].
  - intros inputs s pd an ip w w' Hs Ht Hpd Han Hip Hscore.
    unfold calculate_inr_step, bind, lift, ret.
    rewrite Hs, Ht, Hpd, Han. simpl. rewrite Hscore. simpl.
    now rewrite Hip.
  - intros inputs s w r w' Hs Ht Hrun.
    unfold calculate_analysis_step, bind, lift, log, ret in Hrun.
    rewrite Hs, Ht in Hrun. simpl in Hrun.
    destruct (py_getitem inputs "product_data") as [pd|e];
      [|discriminate].
    destruct (py_getitem pd "nutritional_info_per_100g") as [nut|e];
      [|discriminate].
    simpl in Hrun.
    destruct (calculate_nutrient_analysis float_of_str nut
                FSSAI_INR_BASELINE) as [an|e]; [|discriminate].
    destruct (py_getitem inputs "image_path") as [ip|e]; [|discriminate].
    inversion Hrun. now exists ip, pd, an.
  - intros inputs s pd d ip w Hs Ht Hpd Hnut Hfit Hip.
    destruct (analysis_of_fitting_mapping float_of_str d Hfit)
      as [a [Ha _]].
    exists a. rewrite (step2_run inputs s pd (VDict d) w Hs Ht Hpd Hnut).
    now rewrite Ha, Hip.
Qed.

(** C3, as amended.  The rating step hands to [json.loads] the text from
    the first opening brace of the reply through its last closing brace
    (1).  A reply in which no closing brace follows an opening one (2)
    yields the failure value of the rating step (3); a located text that
    parses to a value other than null yields the success value with that
    value as inr_result (4). *)
Theorem rating_reply_located (inputs s pd an ip : pyval)
  (prompt reply : string) (w : world) :
  py_get inputs "success" VNone = Ok s -> truthy s = true ->
  py_getitem inputs "product_data" = Ok pd ->
  py_getitem inputs "analysis" = Ok an ->
  py_getitem inputs "image_path" = Ok ip ->
  reasoning_prompt py_str format_1f pd an FSSAI_INR_BASELINE = Ok prompt ->
  rating_call prompt = Ok reply ->
  (forall m, re_search_braces reply = Some m ->
     exists pre body post,
       reply = pre ++ m ++ post
       /\ m = "{" ++ body ++ "}"
       /\ PyStr.first_index "{" pre = None
       /\ PyStr.last_index "}" post = None)
  /\ (re_search_braces reply = None ->
      forall pre body post, reply <> pre ++ "{" ++ body ++ "}" ++ post)
  /\ (re_search_braces reply = None ->
      step3 inputs w
      = (Ok (inr_failure ip), logged w [InrScore pd; RatingCall prompt]))
  /\ (forall m v,
        re_search_braces reply = Some m -> json_loads m = Ok v ->
        is_none v = false ->
        step3 inputs w
        = (Ok (success_result ip pd an v),
           logged w [InrScore pd; RatingCall prompt])).
Proof.
  intros Hs Ht Hpd Han Hip Hp Hr.
  pose proof (step3_run inputs s pd an ip prompt reply w
                Hs Ht Hpd Han Hip Hp Hr) as Hrun.
  unfold parse_inr_reply in Hrun.
  split; [|split; [|split]].
  - intros m Hm. now apply re_search_braces_some.
  - apply re_search_braces_none.
  - intros Hnone. now rewrite Hnone in Hrun.
  - intros m v Hm Hv Hnn. now rewrite Hm, Hv, Hnn in Hrun.
Qed.

(** C5, as amended.  Whatever value other than null the located text of the
    reply parses to, the rating step returns the success value with that
    value as inr_result, unchanged: neither the range of the score nor the
    band of the grade is looked at. *)
Theorem rating_result_passed_unverified (inputs s pd an ip v : pyval)
  (prompt reply m : string) (w : world) :
  py_get inputs "success" VNone = Ok s -> truthy s = true ->
  py_getitem inputs "product_data" = Ok pd ->
  py_getitem inputs "analysis" = Ok an ->
  py_getitem inputs "image_path" = Ok ip ->
  reasoning_prompt py_str format_1f pd an FSSAI_INR_BASELINE = Ok prompt ->
  rating_call prompt = Ok reply ->
  re_search_braces reply = Some m -> json_loads m = Ok v ->
  is_none v = false ->
  exists r w',
    step3 inputs w = (Ok r, w')
    /\ py_getitem r "success" = Ok (VBool true)
    /\ py_getitem r "inr_result" = Ok v
    /\ r = success_result ip pd an v.
Proof.
  intros Hs Ht Hpd Han Hip Hp Hr Hm Hv Hnn.
  pose proof (step3_run inputs s pd an ip prompt reply w
                Hs Ht Hpd Han Hip Hp Hr) as Hrun.
  unfold parse_inr_reply in Hrun. rewrite Hm, Hv, Hnn in Hrun.
  eexists. eexists. split; [exact Hrun|]. now repeat split.
Qed.

(** The run of the extraction on a reply of the vision model. *)
Lemma extract_info_run (image_path : pyval) (key text : string) (w : world) :
  vision_call image_path = Ok text ->
  extract_info image_path (Some key) w
  = (parse_extraction json_loads text, logged w [VisionCall image_path]).
Proof.
  intros Hv. unfold extract_nutrition_info_gpt4o, bind, lift, log.
  simpl. now rewrite Hv.
Qed.

Lemma extract_info_raises (image_path : pyval) (key : string) (e : exn)
  (w : world) :
  vision_call image_path = Raise e ->
  extract_info image_path (Some key) w
  = (Raise e, logged w [VisionCall image_path]).
Proof.
  intros Hv. unfold extract_nutrition_info_gpt4o, bind, lift, log.
  simpl. now rewrite Hv.
Qed.

(** C4, as amended.  (1) When [json.loads] raises JSONDecodeError on the
    text located in the reply of the vision model, the extraction function
    returns a failure value that carries the raw text of the reply; the
    extraction step makes of it the failure value of the stage, which
    carries the message of the parser as its details and the path of the
    image, and no longer the raw text; the chain returns that value and
    raises nothing.  (2) When the request to the vision model raises (or
    the client or the read of the image before it, lines 83-124), the
    extraction raises the same exception, and so do the extraction step
    and the chain: no failure value is built.  (3) The upload handler
    catches it and answers 500 with the text of the exception. *)
Theorem extraction_failures :
  (forall path key text e w,
     vision_call (VStr path) = Ok text ->
     json_loads (locate_json text) = Raise e ->
     is_json_decode_error e = true ->
     let stage_failure :=
       VDict [("success", VBool false);
              ("error", VStr "Nutrition extraction failed");
              ("details", VStr ("Failed to parse JSON: " ++ exn_str e));
              ("image_path", VStr path)] in
     extract_info (VStr path) (Some key) w
     = (Ok (VDict [("success", VBool false);
                   ("error", VStr ("Failed to parse JSON: " ++ exn_str e));
                   ("raw_response", VStr text)]),
        logged w [VisionCall (VStr path)])
     /\ step1 (Some key) (VStr path) w
        = (Ok stage_failure, logged w [VisionCall (VStr path)])
     /\ run_chain (Some key) (VStr path) w
        = (Ok stage_failure, logged w [VisionCall (VStr path)])
     /\ py_get stage_failure "raw_response" VNone = Ok VNone)
  /\ (forall path key e w,
        vision_call (VStr path) = Raise e ->
        extract_info (VStr path) (Some key) w
        = (Raise e, logged w [VisionCall (VStr path)])
        /\ step1 (Some key) (VStr path) w
           = (Raise e, logged w [VisionCall (VStr path)])
        /\ run_chain (Some key) (VStr path) w
           = (Raise e, logged w [VisionCall (VStr path)]))
  /\ (forall request name key e w,
        let path := path_join UPLOAD_FOLDER
                      (now request ++ "_" ++ secure_filename name) in
        image request = Some name -> name <> EmptyString ->
        allowed_file name ALLOWED_EXTENSIONS = Ok true ->
        getenv_api_key = Some key ->
        save_file path = Ok tt ->
        vision_call (VStr path) = Raise e ->
        upload request w
        = (Ok (Response (VDict [("error", VStr (exn_str e))]) 500),
           logged w [SaveFile path; VisionCall (VStr path)])).
Proof.
  split; [|split].
  - intros path key text e w Hv Hj He stage_failure.
    assert (Hx : extract_info (VStr path) (Some key) w
                 = (Ok (VDict [("success", VBool false);
                               ("error",
                                VStr ("Failed to parse JSON: " ++ exn_str e));
                               ("raw_response", VStr text)]),
                    logged w [VisionCall (VStr path)])).
    { rewrite (extract_info_run (VStr path) key text w Hv).
      unfold parse_extraction, rcatch. rewrite Hj. cbn [rbind].
      now rewrite He. }
    assert (Hstep : step1 (Some key) (VStr path) w
                    = (Ok stage_failure, logged w [VisionCall (VStr path)])).
    { unfold extract_nutrition_step, bind at 1. unfold lift at 1.
      unfold bind at 1. rewrite Hx. reflexivity. }
    split; [exact Hx|]. split; [exact Hstep|]. split; [|reflexivity].
    assert (Hfail : is_failure stage_failure)
      by (exists (VBool false); now split).
    unfold create_nutrition_analysis_chain, bind. rewrite Hstep.
    rewrite (step2_passes_failure _ _ Hfail).
    apply (step3_passes_failure _ _ Hfail).
  - intros path key e w Hv.
    pose proof (extract_info_raises (VStr path) key e w Hv) as Hx.
    split; [exact Hx|]. split.
    + unfold extract_nutrition_step, bind, lift. simpl.
      now rewrite Hx.
    + unfold create_nutrition_analysis_chain, extract_nutrition_step,
        bind, lift. simpl. now rewrite Hx.
  - intros request name key e w path Himg Hne Hok Hkey Hsave Hv.
    unfold upload_image. rewrite Himg.
    apply String.eqb_neq in Hne. rewrite Hne.
    unfold bind at 1. unfold lift at 1. rewrite Hok. simpl negb. cbv iota.
    unfold try_except, nutrition_analysis_chain,
      create_nutrition_analysis_chain, extract_nutrition_step.
    unfold bind, lift, log, ret. fold path. rewrite Hsave. simpl.
    rewrite Hkey.
    pose proof (extract_info_raises (VStr path) key e
                  (World (trace w ++ [SaveFile path]) (session w)) Hv) as Hx.
    rewrite Hkey in Hx. rewrite Hx.
    unfold logged. simpl. now rewrite <- app_assoc.
Qed.

(** *** The handlers *)

Lemma allowed_file_total (filename : string) (allowed : list string) :
  exists b, allowed_file filename allowed = Ok b.
Proof.
  unfold allowed_file. destruct (PyStr.contains "." filename) eqn:Hc.
  - unfold PyStr.rsplit1.
    destruct (PyStr.rsplit_last "." filename) as [[a b]|] eqn:Hs.
    + eexists. reflexivity.
    + apply rsplit_last_none in Hs. congruence.
  - eexists. reflexivity.
Qed.

(** C9.  The upload handler always answers.  When the answer is not a 200
    (the pipeline failed or raised, or the request was refused), the
    session it leaves is the session it found, so the product stored
    before is still there for the chat; the stored product is replaced
    only with a 200, after the chain returned a success value. *)
Theorem upload_failure_keeps_context (request : upload_request) (w : world) :
  exists resp w',
    upload request w = (Ok resp, w')
    /\ (status resp <> 200 ->
        session w' = session w /\ stored_product w' = stored_product w)
    /\ (session w' <> session w -> status resp = 200)
    /\ (status resp = 200 ->
        stored_after float_of_str json_loads py_str format_1f getenv_api_key
          vision_call rating_call secure_filename request w w').
Proof.
  assert (Hstay : forall resp w', session w' = session w ->
            status resp <> 200 ->
            (status resp <> 200 ->
             session w' = session w /\ stored_product w' = stored_product w)
            /\ (session w' <> session w -> status resp = 200)
            /\ (status resp = 200 ->
        stored_after float_of_str json_loads py_str format_1f getenv_api_key
          vision_call rating_call secure_filename request w w')).
  { intros resp w' Hsame Hst. split; [|split].
    - intros _. split; [exact Hsame|]. unfold stored_product.
      now rewrite Hsame.
    - intros Hdiff. contradiction.
    - intros H200. contradiction. }
  unfold upload_image.
  destruct (image request) as [name|] eqn:Himg;
    [|eexists; eexists; split; [reflexivity | apply Hstay; simpl; [reflexivity | lia]]].
  destruct (String.eqb name EmptyString);
    [eexists; eexists; split; [reflexivity | apply Hstay; simpl; [reflexivity | lia]]|].
  destruct (allowed_file_total name ALLOWED_EXTENSIONS) as [ok Hok].
  unfold bind at 1. unfold lift at 1. rewrite Hok.
  destruct ok; cbn [negb]; cbv beta iota;
    [|eexists; eexists; split; [reflexivity | apply Hstay; simpl; [reflexivity | lia]]].
  set (path := path_join UPLOAD_FOLDER
                 (now request ++ "_" ++ secure_filename name)).
  unfold try_except, bind, lift, log, ret, session_set. cbv beta iota.
  fold (logged w [SaveFile path]).
  destruct (save_file path) as [u|e]; cbv beta iota;
    [|eexists; eexists; split; [reflexivity | apply Hstay; simpl; [reflexivity | lia]]].
  pose proof (keeps_chain getenv_api_key (VStr path)
                (logged w [SaveFile path])) as Hk.
  destruct (nutrition_analysis_chain float_of_str json_loads py_str format_1f
              getenv_api_key vision_call rating_call (VStr path)
              (logged w [SaveFile path])) as [[cr|e0] w2] eqn:Hc;
    unfold nutrition_analysis_chain in Hc; rewrite Hc in Hk; simpl in Hk;
    [|eexists; eexists; split; [reflexivity | apply Hstay; simpl; [exact Hk | lia]]].
  destruct (py_getitem cr "success") as [s|e0] eqn:Hs;
    [|eexists; eexists; split; [reflexivity | apply Hstay; simpl; [exact Hk | lia]]].
  destruct (truthy s) eqn:Ht; cbn [negb]; cbv beta iota.
  - destruct (py_getitem cr "product_data") as [pd|e0] eqn:Hpd;
      [|eexists; eexists; split; [reflexivity | apply Hstay; simpl; [exact Hk | lia]]].
    destruct (py_getitem cr "analysis") as [an|e0] eqn:Han;
      [|eexists; eexists; split; [reflexivity | apply Hstay; simpl; [exact Hk | lia]]].
    destruct (py_getitem cr "inr_result") as [inr|e0] eqn:Hinr;
      [|eexists; eexists; split; [reflexivity | apply Hstay; simpl; [exact Hk | lia]]].
    eexists; eexists; split; [reflexivity|]. simpl. split; [|split].
    + intros Hne. contradiction.
    + reflexivity.
    + intros _. unfold stored_after.
      exists name, cr, w2, s, pd, an, inr. cbv zeta. fold path.
      unfold nutrition_analysis_chain. rewrite Hk.
      now repeat split.
  - destruct (py_get cr "error" (VStr "Analysis failed")) as [er|e0];
      [|eexists; eexists; split; [reflexivity | apply Hstay; simpl; [exact Hk | lia]]].
    destruct (py_get cr "details" VNone) as [de|e0];
      eexists; eexists; (split; [reflexivity | apply Hstay; simpl; [exact Hk | lia]]).
Qed.

Lemma product_context_fields (cp msg : pyval) (prompt : string) :
  product_context py_str format_1f cp msg = Ok prompt ->
  exists fields,
    context_fields py_str format_1f cp msg fields
    /\ Forall (fun s => occurs s prompt) fields.
Proof.
  intros H. unfold product_context in H. cbv zeta in H.
  repeat step_bind H.
  injection H as <-.
  eexists. split.
  - eapply context_fields_intro; eassumption.
  - unfold product_context_text. repeat constructor; occurs.
Qed.

(** The run of the chat handler on a non-empty message. *)
Lemma chat_run (data msg : pyval) (w : world) :
  py_get data "message" (VStr EmptyString) = Ok msg -> truthy msg = true ->
  chat_handler data w
  = let line := input_line (py_str msg) in
    match stdout_write line with
    | Raise e => (Raise e, logged w [Print line])
    | Ok _ =>
        if truthy (stored_product w) then
          match product_context py_str format_1f (read_product w) msg with
          | Ok prompt =>
              chat_end stdout_write (chat_call prompt)
                (logged w [Print line; ChatCall prompt])
          | Raise e => chat_end stdout_write (Raise e) (logged w [Print line])
          end
        else
          match retriever msg with
          | Ok docs =>
              chat_end stdout_write (answer_call docs msg)
                (logged w [Print line; Retrieve msg; AnswerCall msg])
          | Raise e =>
              chat_end stdout_write (Raise e)
                (logged w [Print line; Retrieve msg])
          end
    end.
Proof.
  intros Hmsg Ht.
  assert (Hread : match dict_get "current_product" (session w) with
                  | Some v => cookie_value v
                  | None => VNone
                  end = read_product w).
  { unfold read_product, stored_product.
    now destruct (dict_get "current_product" (session w)). }
  rewrite <- (truthy_cookie (stored_product w)). fold (read_product w).
  unfold chat, chat_end, chat_answered, chat_handled, rag_chain_invoke,
    try_except, print_str, print, bind, lift, log, ret, session_get,
    input_line, response_line, error_line, logged.
  rewrite Hmsg, Ht. cbn [negb trace session]. cbv zeta. rewrite Hread.
  destruct (stdout_write (code_points ("User input: " ++ py_str msg)))
    as [u|e]; [|reflexivity].
  destruct (truthy (read_product w)).
  - destruct (product_context py_str format_1f (read_product w) msg)
      as [prompt|e]; cbn [trace session].
    + rewrite <- !app_assoc. cbn [app].
      destruct (chat_call prompt) as [text|e]; cbn [trace session].
      * destruct (stdout_write (code_points ("Response: " ++ text)))
          as [u'|e]; cbn [trace session].
        -- reflexivity.
        -- now destruct (stdout_write (code_points ("Error: " ++ exn_str e))).
      * now destruct (stdout_write (code_points ("Error: " ++ exn_str e))).
    + now destruct (stdout_write (code_points ("Error: " ++ exn_str e))).
  - destruct (retriever msg) as [docs|e]; cbn [trace session].
    + rewrite <- !app_assoc. cbn [app].
      destruct (answer_call docs msg) as [text|e]; cbn [trace session].
      * destruct (stdout_write (code_points ("Response: " ++ text)))
          as [u'|e]; cbn [trace session].
        -- reflexivity.
        -- now destruct (stdout_write (code_points ("Error: " ++ exn_str e))).
      * now destruct (stdout_write (code_points ("Error: " ++ exn_str e))).
    + rewrite <- !app_assoc. cbn [app].
      now destruct (stdout_write (code_points ("Error: " ++ exn_str e))).
Qed.

(** The end of the [try] and its handler log the lines they print and
    nothing else, and raise only what [print] raises. *)
Lemma chat_handled_ends (e : exn) (w : world) :
  exists r evs,
    chat_handled stdout_write e w = (r, logged w evs)
    /\ forallb is_print evs = true
    /\ answered stdout_write r
    /\ (forall resp, r = Ok resp -> resp = chat_error e)
    /\ ((forall line, stdout_write line = Ok tt) -> r = Ok (chat_error e)).
Proof.
  unfold chat_handled. eexists. exists [Print (error_line e)].
  split; [reflexivity|]. split; [reflexivity|].
  destruct (stdout_write (error_line e)) as [u|e'] eqn:Hw.
  - split; [left; now eexists|]. split; [|reflexivity].
    intros resp H. now inversion H.
  - split; [right; now exists (error_line e), e'|].
    split; [discriminate|].
    intros Hall. rewrite Hall in Hw. discriminate Hw.
Qed.

Lemma chat_answered_ends (text : string) (w : world) :
  exists r evs,
    chat_answered stdout_write text w = (r, logged w evs)
    /\ forallb is_print evs = true
    /\ answered stdout_write r
    /\ (forall resp,
          r = Ok resp ->
          resp = chat_ok text
          \/ exists e,
               stdout_write (response_line text) = Raise e
               /\ resp = chat_error e)
    /\ ((forall line, stdout_write line = Ok tt) -> r = Ok (chat_ok text)).
Proof.
  unfold chat_answered.
  destruct (stdout_write (response_line text)) as [u|e] eqn:Hw.
  - eexists. exists [Print (response_line text)].
    split; [reflexivity|]. split; [reflexivity|].
    split; [left; now eexists|]. split; [|reflexivity].
    intros resp H. inversion H. now left.
  - destruct (chat_handled_ends e (logged w [Print (response_line text)]))
      as [r [evs [Hr [Hp [Ha [Hresp _]]]]]].
    exists r, (Print (response_line text) :: evs). rewrite Hr.
    rewrite logged_logged. split; [reflexivity|]. split; [exact Hp|].
    split; [exact Ha|]. split.
    + intros resp H. right. exists e. split; [reflexivity|].
      now apply Hresp.
    + intros Hall. rewrite Hall in Hw. discriminate Hw.
Qed.

(** Both ends at once, on what the call of the model returned. *)
Lemma chat_ends (tail : result string) (w : world) :
  exists r evs,
    chat_end stdout_write tail w = (r, logged w evs)
    /\ forallb is_print evs = true
    /\ answered stdout_write r
    /\ (forall resp,
          r = Ok resp ->
          (status resp = 200 \/ status resp = 500)
          /\ (status resp = 200 ->
              exists text, tail = Ok text /\ resp = chat_ok text))
    /\ ((forall line, stdout_write line = Ok tt) ->
        r = Ok (match tail with
                | Ok text => chat_ok text
                | Raise e => chat_error e
                end)).
Proof.
  destruct tail as [text|e]; cbn [chat_end].
  - destruct (chat_answered_ends text w)
      as [r [evs [Hr [Hp [Ha [Hresp Hall]]]]]].
    exists r, evs. split; [exact Hr|]. split; [exact Hp|].
    split; [exact Ha|]. split; [|exact Hall].
    intros resp H. destruct (Hresp resp H) as [-> | [e [_ ->]]].
    + split; [now left|]. intros _. now exists text.
    + split; [now right|]. intros H200. discriminate H200.
  - destruct (chat_handled_ends e w)
      as [r [evs [Hr [Hp [Ha [Hresp Hall]]]]]].
    exists r, evs. split; [exact Hr|]. split; [exact Hp|].
    split; [exact Ha|]. split; [|exact Hall].
    intros resp H. rewrite (Hresp resp H).
    split; [now right|]. intros H200. discriminate H200.
Qed.

(** C7, as amended.  For a chat request with a non-empty message the
    handler first prints the message, before its [try]: (0) when that
    [print] raises, the handler raises the same exception and makes no
    call.  When the line is printed: (1) with no product stored in the
    session, the handler queries the retriever exactly once and does not
    call the chat model directly; (2) with a product stored, it never
    queries the retriever; when the prompt can be built from the stored
    product, as this request reads it from the session, it makes exactly
    one direct call of the chat model, with a prompt that carries the
    stored name, brand, type, score, grade, nutrient values, warnings and
    claims and the question; when a field the prompt reads is missing or
    of the wrong type, it makes no call and answers 500, if the line of
    the error can be printed.  In (1) and (2) the handler answers, unless
    a later [print] raises. *)
Theorem chat_modes (data msg : pyval) (w : world) :
  py_get data "message" (VStr EmptyString) = Ok msg -> truthy msg = true ->
  let line := input_line (py_str msg) in
  (forall e,
     stdout_write line = Raise e ->
     chat_handler data w = (Raise e, logged w [Print line]))
  /\ (stdout_write line = Ok tt ->
      (truthy (stored_product w) = false ->
       exists r evs,
         chat_handler data w
         = (r, logged w (Print line :: Retrieve msg :: evs))
         /\ count_events is_retrieve (Retrieve msg :: evs) = 1%nat
         /\ count_events is_chat_call (Retrieve msg :: evs) = 0%nat
         /\ answered stdout_write r)
      /\ (truthy (stored_product w) = true ->
          (forall prompt,
             product_context py_str format_1f (read_product w) msg
             = Ok prompt ->
             (exists r evs,
                chat_handler data w
                = (r, logged w (Print line :: ChatCall prompt :: evs))
                /\ count_events is_chat_call (ChatCall prompt :: evs) = 1%nat
                /\ count_events is_retrieve (ChatCall prompt :: evs) = 0%nat
                /\ answered stdout_write r)
             /\ exists fields,
                  context_fields py_str format_1f (read_product w) msg fields
                  /\ Forall (fun s => occurs s prompt) fields)
          /\ (forall e,
                product_context py_str format_1f (read_product w) msg
                = Raise e ->
                chat_handler data w
                = chat_handled stdout_write e (logged w [Print line])
                /\ count_events is_chat_call
                     (trace (snd (chat_handler data w)))
                   = count_events is_chat_call (trace w)
                /\ (stdout_write (error_line e) = Ok tt ->
                    chat_handler data w
                    = (Ok (chat_error e),
                       logged w [Print line; Print (error_line e)]))))).
Proof.
  intros Hmsg Ht line. rewrite (chat_run data msg w Hmsg Ht). fold line.
  cbv zeta. split.
  - intros e He. now rewrite He.
  - intros Hline. rewrite Hline. split.
    + intros Hno. rewrite Hno.
      destruct (retriever msg) as [docs|e].
      * destruct (chat_ends (answer_call docs msg)
                    (logged w [Print line; Retrieve msg; AnswerCall msg]))
          as [r [evs [Hr [Hp [Ha _]]]]].
        exists r, (AnswerCall msg :: evs). rewrite Hr, logged_logged.
        split; [reflexivity|]. count_calls Hp. now repeat split.
      * destruct (chat_ends (Raise e) (logged w [Print line; Retrieve msg]))
          as [r [evs [Hr [Hp [Ha _]]]]].
        exists r, evs. rewrite Hr, logged_logged.
        split; [reflexivity|]. count_calls Hp. now repeat split.
    + intros Hyes. rewrite Hyes. split.
      * intros prompt Hprompt. rewrite Hprompt. split.
        -- destruct (chat_ends (chat_call prompt)
                       (logged w [Print line; ChatCall prompt]))
             as [r [evs [Hr [Hp [Ha _]]]]].
           exists r, evs. rewrite Hr, logged_logged.
           split; [reflexivity|]. count_calls Hp. now repeat split.
        -- now apply product_context_fields.
      * intros e He. rewrite He. cbn [chat_end]. split; [reflexivity|].
        split.
        -- unfold chat_handled, logged. cbn [snd trace].
           rewrite !count_events_app. unfold count_events at 2 3.
           cbn [filter is_chat_call length]. lia.
        -- intros Hw. unfold chat_handled. rewrite Hw.
           now rewrite logged_logged.
Qed.

(** C10.  [allowed_file] accepts a name exactly when the name has a dot and
    what follows its last dot, in lower case, is one of png, jpg, jpeg,
    gif, webp.  So label.PNG is accepted, a.png.exe is not, and the upload
    of a name without a dot is answered with a 400. *)
Theorem allowed_file_last_extension :
  (forall filename,
     exists b,
       allowed_file filename ALLOWED_EXTENSIONS = Ok b
       /\ (b = true <->
           exists stem ext,
             filename = stem ++ "." ++ ext
             /\ PyStr.contains "." ext = false
             /\ In (PyStr.lower ext) ALLOWED_EXTENSIONS))
  /\ allowed_file "label.PNG" ALLOWED_EXTENSIONS = Ok true
  /\ allowed_file "a.png.exe" ALLOWED_EXTENSIONS = Ok false
  /\ (forall request filename w,
        image request = Some filename ->
        PyStr.contains "." filename = false ->
        exists message,
          upload request w
          = (Ok (Response (VDict [("error", VStr message)]) 400), w)).
Proof.
  split; [|split; [|split]].
  - intros filename. destruct (PyStr.contains "." filename) eqn:Hc.
    + destruct (PyStr.rsplit_last "." filename) as [[stem ext]|] eqn:Hs;
        [|apply rsplit_last_none in Hs; congruence].
      apply rsplit_last_some in Hs as [-> Hext].
      exists (set_mem (PyStr.lower ext) ALLOWED_EXTENSIONS).
      split; [now apply allowed_file_split|]. rewrite set_mem_In. split.
      * intros Hin. now exists stem, ext.
      * intros [stem' [ext' [Heq [Hext' Hin]]]].
        assert (H : Some (stem, ext) = Some (stem', ext')).
        { rewrite <- (proj2 (rsplit_last_some (stem ++ "." ++ ext)
                               stem ext) (conj eq_refl Hext)).
          apply rsplit_last_some. now split. }
        now inversion H.
    + exists false. split; [now apply allowed_file_dotless|]. split.
      * discriminate.
      * intros [stem [ext [-> _]]]. rewrite dot_after_stem in Hc.
        discriminate.
  - reflexivity.
  - reflexivity.
  - intros request filename w Himg Hc. unfold upload_image. rewrite Himg.
    destruct (String.eqb filename EmptyString).
    + eexists. reflexivity.
    + unfold bind, lift. rewrite (allowed_file_dotless _ _ Hc).
      eexists. reflexivity.
Qed.

End Claims.

(** ** Closed instances: witnesses and counterexamples *)

(** C2, counterexample: for a package without a nutrition table the vision
    model marks the table as not available; the extraction succeeds, and
    [calculate_nutrient_analysis] raises AttributeError on the str, which
    leaves the analysis step and the chain as an exception: normalization
    has a failure path. *)
Lemma normalization_raises_without_table :
  calculate_nutrient_analysis PyFloat.of_string (VStr "Not Available")
    FSSAI_INR_BASELINE
  = Raise (Exn AttributeError "'str' object has no attribute 'get'")
  /\ calculate_analysis_step PyFloat.of_string FSSAI_INR_BASELINE
       Scenario.extracted_no_table Scenario.w0
     = (Raise (Exn AttributeError "'str' object has no attribute 'get'"),
        World [Normalize (VStr "Not Available")] [])
  /\ Scenario.chain (Scenario.answers Scenario.no_table_reply)
       (Scenario.answers Scenario.rating_reply) Scenario.image_path
       Scenario.w0
     = (Raise (Exn AttributeError "'str' object has no attribute 'get'"),
        World [VisionCall Scenario.image_path;
               Normalize (VStr "Not Available")] []).
Proof. repeat split; vm_compute; reflexivity. Qed.

(** C2, witness: a reply of the vision model that holds no JSON. *)
Lemma chain_short_circuit_witness :
  exists r w1,
    extract_nutrition_step Json.loads Scenario.api_key
      (Scenario.answers Scenario.vision_no_json) Scenario.api_key
      Scenario.image_path Scenario.w0 = (Ok r, w1)
    /\ is_failure r
    /\ Scenario.chain (Scenario.answers Scenario.vision_no_json)
         (Scenario.answers Scenario.rating_reply) Scenario.image_path
         Scenario.w0 = (Ok r, w1)
    /\ count_events is_normalize (trace w1) = 0%nat
    /\ count_events is_inr_score (trace w1) = 0%nat
    /\ count_events is_rating_call (trace w1) = 0%nat.
Proof.
  destruct (chain_short_circuit PyFloat.of_string Json.loads PyRepr.str
              PyFloat.format_1f Scenario.api_key
              (Scenario.answers Scenario.vision_no_json)
              (Scenario.answers Scenario.rating_reply)) as [Hshort _].
  eexists. eexists.
  assert (Hrun : extract_nutrition_step Json.loads Scenario.api_key
                   (Scenario.answers Scenario.vision_no_json)
                   Scenario.api_key Scenario.image_path Scenario.w0
                 = (Ok _, _)) by (vm_compute; reflexivity).
  assert (Hfail : is_failure
                    (VDict [("success", VBool false);
                            ("error", VStr "Nutrition extraction failed");
                            ("details", VStr
"Failed to parse JSON: Expecting value: line 1 column 1 (char 0)");
                            ("image_path", Scenario.image_path)]))
    by (exists (VBool false); split; reflexivity).
  split; [exact Hrun|]. split; [exact Hfail|].
  exact (Hshort _ _ _ _ _ Hrun Hfail).
Defined.

(** C3, counterexample: a reply with two objects.  Its first balanced
    object parses; the code hands to [json.loads] the text through the
    last closing brace, and the JSONDecodeError leaves the rating step. *)
Lemma balanced_object_not_located :
  first_balanced_object Scenario.rating_two_objects
  = Some Scenario.first_object
  /\ Json.loads Scenario.first_object = Ok Scenario.first_object_value
  /\ re_search_braces Scenario.rating_two_objects
     = Some Scenario.rating_two_objects
  /\ exists w',
       Scenario.rating_step (Scenario.answers Scenario.rating_two_objects)
         Scenario.analysed Scenario.w0
       = (Raise (Exn JSONDecodeError "Extra data: line 1 column 33 (char 32)"),
          w').
Proof.
  repeat split; try (vm_compute; reflexivity).
  eexists. vm_compute. reflexivity.
Qed.

(** C3, witness: a reply with one object after some words. *)
Lemma rating_reply_located_witness :
  exists prompt v w',
    reasoning_prompt PyRepr.str PyFloat.format_1f Scenario.product_data
      (VDict Scenario.label_analysis) FSSAI_INR_BASELINE = Ok prompt
    /\ re_search_braces Scenario.rating_reply
       = Some (PyStr.drop 8 Scenario.rating_reply)
    /\ Json.loads (PyStr.drop 8 Scenario.rating_reply) = Ok v
    /\ Scenario.rating_step (Scenario.answers Scenario.rating_reply)
         Scenario.analysed Scenario.w0
       = (Ok (success_result Scenario.image_path Scenario.product_data
                (VDict Scenario.label_analysis) v), w').
Proof.
  eexists. eexists. eexists.
  assert (Hp : reasoning_prompt PyRepr.str PyFloat.format_1f
                 Scenario.product_data (VDict Scenario.label_analysis)
                 FSSAI_INR_BASELINE = Ok _) by (vm_compute; reflexivity).
  assert (Hm : re_search_braces Scenario.rating_reply
               = Some (PyStr.drop 8 Scenario.rating_reply))
    by (vm_compute; reflexivity).
  assert (Hv : Json.loads (PyStr.drop 8 Scenario.rating_reply) = Ok _)
    by (vm_compute; reflexivity).
  split; [exact Hp|]. split; [exact Hm|]. split; [exact Hv|].
  destruct (rating_reply_located Json.loads PyRepr.str PyFloat.format_1f
              (Scenario.answers Scenario.rating_reply)
              Scenario.analysed (VBool true) Scenario.product_data
              (VDict Scenario.label_analysis) Scenario.image_path
              _ Scenario.rating_reply Scenario.w0
              eq_refl eq_refl eq_refl eq_refl eq_refl Hp eq_refl)
    as (_ & _ & _ & Hok).
  exact (Hok _ _ Hm Hv eq_refl).
Defined.

(** C4, counterexample: the client cannot reach the vision model; the
    exception leaves the extraction and the chain, no failure value is
    returned. *)
Lemma service_error_escapes_extraction :
  extract_nutrition_info_gpt4o Json.loads Scenario.api_key
    (Scenario.fails Scenario.connection_error) Scenario.image_path
    Scenario.api_key Scenario.w0
  = (Raise Scenario.connection_error, World [VisionCall Scenario.image_path] [])
  /\ Scenario.chain (Scenario.fails Scenario.connection_error)
       (Scenario.answers Scenario.rating_reply) Scenario.image_path
       Scenario.w0
     = (Raise Scenario.connection_error,
        World [VisionCall Scenario.image_path] []).
Proof. split; vm_compute; reflexivity. Qed.

(** C4, witness: a reply without JSON gives the failure value with the raw
    text in the extraction, and the failure value of the stage, without
    it, in the chain; a connection error gives a 500 of the upload
    handler. *)
Lemma extraction_failures_witness :
  extract_nutrition_info_gpt4o Json.loads Scenario.api_key
    (Scenario.answers Scenario.vision_no_json) Scenario.image_path
    (Some "secret") Scenario.w0
  = (Ok (VDict [("success", VBool false);
                ("error", VStr
"Failed to parse JSON: Expecting value: line 1 column 1 (char 0)");
                ("raw_response", VStr Scenario.vision_no_json)]),
     World [VisionCall Scenario.image_path] [])
  /\ Scenario.chain (Scenario.answers Scenario.vision_no_json)
       (Scenario.answers Scenario.rating_reply) Scenario.image_path
       Scenario.w0
     = (Ok (VDict [("success", VBool false);
                   ("error", VStr "Nutrition extraction failed");
                   ("details", VStr
"Failed to parse JSON: Expecting value: line 1 column 1 (char 0)");
                   ("image_path", Scenario.image_path)]),
        World [VisionCall Scenario.image_path] [])
  /\ Scenario.upload (Scenario.fails Scenario.connection_error)
       (Scenario.answers Scenario.rating_reply) Scenario.request Scenario.w0
     = (Ok (Response (VDict [("error", VStr "Connection error.")]) 500),
        World [SaveFile "uploads/20240101_120000_label.PNG";
               VisionCall Scenario.image_path] []).
Proof.
  destruct (extraction_failures PyFloat.of_string Json.loads PyRepr.str
              PyFloat.format_1f Scenario.api_key
              (Scenario.answers Scenario.vision_no_json)
              (Scenario.answers Scenario.rating_reply)
              Scenario.secure_filename Scenario.save_file) as [Hparse _].
  destruct (Hparse "uploads/20240101_120000_label.PNG" "secret"
              Scenario.vision_no_json
              (Exn JSONDecodeError "Expecting value: line 1 column 1 (char 0)")
              Scenario.w0 eq_refl eq_refl eq_refl)
    as [Hfun [_ [Hchain _]]].
  split; [exact Hfun|]. split; [exact Hchain|].
  destruct (extraction_failures PyFloat.of_string Json.loads PyRepr.str
              PyFloat.format_1f (Some "secret")
              (Scenario.fails Scenario.connection_error)
              (Scenario.answers Scenario.rating_reply)
              Scenario.secure_filename Scenario.save_file)
    as (_ & _ & Hupload).
  refine (Hupload Scenario.request "label.PNG" "secret"
            Scenario.connection_error Scenario.w0 eq_refl _ eq_refl
            eq_refl eq_refl eq_refl).
  discriminate.
Defined.

(** C5, counterexample: a score of 150 with the grade E is in no band; the
    rating step returns it as the inr_result of a success value. *)
Lemma out_of_band_rating_passes :
  Json.loads Scenario.rating_out_of_band = Ok Scenario.out_of_band_value
  /\ rating_consistent Scenario.out_of_band_value = false
  /\ exists w',
       Scenario.rating_step (Scenario.answers Scenario.rating_out_of_band)
         Scenario.analysed Scenario.w0
       = (Ok (success_result Scenario.image_path Scenario.product_data
                (VDict Scenario.label_analysis) Scenario.out_of_band_value),
          w').
Proof.
  repeat split; try (vm_compute; reflexivity).
  eexists. vm_compute. reflexivity.
Qed.

(** C5, witness: the same reply. *)
Lemma rating_result_passed_unverified_witness :
  exists r w',
    Scenario.rating_step (Scenario.answers Scenario.rating_out_of_band)
      Scenario.analysed Scenario.w0 = (Ok r, w')
    /\ py_getitem r "success" = Ok (VBool true)
    /\ py_getitem r "inr_result" = Ok Scenario.out_of_band_value
    /\ r = success_result Scenario.image_path Scenario.product_data
             (VDict Scenario.label_analysis) Scenario.out_of_band_value.
Proof.
  assert (Hp : exists prompt,
             reasoning_prompt PyRepr.str PyFloat.format_1f
               Scenario.product_data (VDict Scenario.label_analysis)
               FSSAI_INR_BASELINE = Ok prompt)
    by (eexists; vm_compute; reflexivity).
  destruct Hp as [prompt Hp].
  apply (rating_result_passed_unverified Json.loads PyRepr.str
           PyFloat.format_1f (Scenario.answers Scenario.rating_out_of_band)
           Scenario.analysed (VBool true) Scenario.product_data
           (VDict Scenario.label_analysis) Scenario.image_path
           Scenario.out_of_band_value prompt Scenario.rating_out_of_band
           Scenario.rating_out_of_band Scenario.w0);
    try reflexivity; try exact Hp.
Defined.



(** C7, counterexample: the rating model leaves the score out; the upload
    succeeds and stores the product; the chat request that follows prints
    the question and the error, makes no call of the chat model and is
    answered with a 500. *)
Lemma chat_without_score_makes_no_call :
  exists resp w1 w2,
    Scenario.upload (Scenario.answers Scenario.label_reply)
      (Scenario.answers Scenario.rating_without_score) Scenario.request
      Scenario.w0 = (Ok resp, w1)
    /\ status resp = 200
    /\ truthy (stored_product w1) = true
    /\ Scenario.chat_handler Scenario.question w1
       = (Ok (chat_error (Exn KeyError "'inr_score'")), w2)
    /\ w2 = logged w1 [Print (input_line "Is it healthy?");
                       Print (error_line (Exn KeyError "'inr_score'"))]
    /\ count_events is_chat_call (trace w2) = 0%nat.
Proof.
  eexists. eexists. eexists. split; [vm_compute; reflexivity|].
  split; [reflexivity|]. split; [reflexivity|].
  split; [vm_compute; reflexivity|].
  split; vm_compute; reflexivity.
Qed.

(** C7, witness: the same question with nothing stored, and after an
    upload that stored a product with a score, on a standard output in
    UTF-8. *)
Lemma chat_modes_witness :
  (exists r evs,
     Scenario.chat_handler Scenario.question Scenario.w0
     = (r, logged Scenario.w0
             (Print (input_line "Is it healthy?")
              :: Retrieve (VStr "Is it healthy?") :: evs))
     /\ count_events is_retrieve (Retrieve (VStr "Is it healthy?") :: evs)
        = 1%nat
     /\ count_events is_chat_call (Retrieve (VStr "Is it healthy?") :: evs)
        = 0%nat
     /\ answered Stdout.utf8 r)
  /\ exists w1 prompt r evs,
       snd (Scenario.upload (Scenario.answers Scenario.label_reply)
              (Scenario.answers Scenario.rating_reply) Scenario.request
              Scenario.w0) = w1
       /\ product_context PyRepr.str PyFloat.format_1f (read_product w1)
            (VStr "Is it healthy?") = Ok prompt
       /\ Scenario.chat_handler Scenario.question w1
          = (r, logged w1 (Print (input_line "Is it healthy?")
                           :: ChatCall prompt :: evs))
       /\ count_events is_chat_call (ChatCall prompt :: evs) = 1%nat
       /\ count_events is_retrieve (ChatCall prompt :: evs) = 0%nat.
Proof.
  split.
  - exact (proj1 (proj2 (chat_modes PyRepr.str PyFloat.format_1f
                    (Scenario.answers "It is high in sugar.")
                    (fun _ => Ok ["FSSAI labelling regulation, clause 5"])
                    (fun _ _ => Ok "See the labelling regulation.")
                    Stdout.utf8
                    Scenario.question (VStr "Is it healthy?") Scenario.w0
                    eq_refl eq_refl) eq_refl) eq_refl).
  - eexists. eexists.
    assert (Hw : snd (Scenario.upload (Scenario.answers Scenario.label_reply)
                        (Scenario.answers Scenario.rating_reply)
                        Scenario.request Scenario.w0) = _)
      by (vm_compute; reflexivity).
    match type of Hw with
    | _ = ?w1 =>
        assert (Hp : product_context PyRepr.str PyFloat.format_1f
                       (read_product w1) (VStr "Is it healthy?") = Ok _)
          by (vm_compute; reflexivity);
        destruct (proj1 (proj2 (proj2 (chat_modes PyRepr.str
                    PyFloat.format_1f
                    (Scenario.answers "It is high in sugar.")
                    (fun _ => Ok ["FSSAI labelling regulation, clause 5"])
                    (fun _ _ => Ok "See the labelling regulation.")
                    Stdout.utf8
                    Scenario.question (VStr "Is it healthy?") w1
                    eq_refl eq_refl) eq_refl) eq_refl) _ Hp)
          as [[r [evs [Hrun [Hc [Hr _]]]]] _];
        exists r, evs; split; [exact Hw|]; split; [exact Hp|];
        split; [exact Hrun|]; split; [exact Hc | exact Hr]
    end.
Defined.

(** C7, on a standard output in ASCII: a question with a character beyond
    U+007F is not printed; the handler raises before its [try], and the
    retriever is not queried. *)
Example chat_unprintable_question_raises :
  chat PyRepr.str PyFloat.format_1f (Scenario.answers "It is high in sugar.")
    (fun _ => Ok ["FSSAI labelling regulation, clause 5"])
    (fun _ _ => Ok "See the labelling regulation.") Stdout.ascii
    (VDict [("message", VStr Sample.accented_question)]) Scenario.w0
  = (Raise (Exn UnicodeEncodeError
"'ascii' codec can't encode character '\xe9' in position 23: ordinal not in range(128)"),
     World [Print (input_line Sample.accented_question)] []).
Proof. vm_compute. reflexivity. Qed.
(** * Further properties of the code *)

(** Membership in a list that is written out. *)
Ltac in_list := simpl; repeat first [left; reflexivity | right].

(** ** Normalization: the shape of the analysis *)

Section MoreNormalization.

Variable float_of_str : string -> option float.

Lemma nutrient_entry_shape (pn : pyval) (bl : dict) (n : string) (e : pyval) :
  nutrient_entry float_of_str pn bl n = Ok e ->
  exists p b q, e = analysis_entry p b q.
Proof.
  unfold nutrient_entry. intros H.
  destruct (py_get pn n (VInt 0)) as [v|]; [|discriminate]. cbn [rbind] in H.
  destruct (coerce_value float_of_str v) as [c|]; [|discriminate].
  cbn [rbind] in H.
  destruct (percent_of_inr c _) as [q|]; [|discriminate]. cbn [rbind] in H.
  inversion H. eexists. eexists. eexists. reflexivity.
Qed.

Lemma fiber_entry_shape (x : pyval) (bl : dict) (e : pyval) :
  fiber_entry float_of_str x bl = Ok e ->
  exists p b q, e = analysis_entry p b q.
Proof.
  unfold fiber_entry. intros H.
  destruct (py_float float_of_str x) as [f|]; [|discriminate].
  cbn [rbind] in H.
  destruct (py_getitem (VDict bl) "fiber_g") as [b|]; [|discriminate].
  cbn [rbind] in H.
  destruct (float_truediv f b) as [q|]; [|discriminate]. cbn [rbind] in H.
  inversion H. eexists. eexists. eexists. reflexivity.
Qed.

(** X1.  Whatever the product mapping and the baseline, an analysis that
    [calculate_nutrient_analysis] returns has the five mandatory nutrients
    as its keys, in the order of the code, followed by fiber_g or by
    nothing; no other nutrient of the baseline (total fat, carbohydrates,
    added sugars) is analysed.  Every entry is a dict with the three keys
    per_100g, inr_baseline and percent_of_inr. *)
Theorem analysis_keys (product_nutrition : pyval) (baseline : dict)
  (v : pyval) :
  calculate_nutrient_analysis float_of_str product_nutrition baseline = Ok v ->
  exists a,
    v = VDict a
    /\ (map fst a = nutrients \/ map fst a = (nutrients ++ ["fiber_g"])%list)
    /\ Forall (fun kv => exists p b q, snd kv = analysis_entry p b q) a.
Proof.
  unfold calculate_nutrient_analysis, nutrients. cbn [for_nutrients].
  intros H.
  destruct (nutrient_entry float_of_str product_nutrition baseline
              "energy_kcal") as [e1|] eqn:E1; [|discriminate].
  cbn [rbind] in H.
  destruct (nutrient_entry float_of_str product_nutrition baseline
              "sugars_g") as [e2|] eqn:E2; [|discriminate].
  cbn [rbind] in H.
  destruct (nutrient_entry float_of_str product_nutrition baseline
              "saturated_fat_g") as [e3|] eqn:E3; [|discriminate].
  cbn [rbind] in H.
  destruct (nutrient_entry float_of_str product_nutrition baseline
              "sodium_mg") as [e4|] eqn:E4; [|discriminate].
  cbn [rbind] in H.
  destruct (nutrient_entry float_of_str product_nutrition baseline
              "protein_g") as [e5|] eqn:E5; [|discriminate].
  cbn [rbind] in H.
  apply nutrient_entry_shape in E1, E2, E3, E4, E5.
  assert (Hfive : Forall (fun kv : string * pyval =>
                            exists p b q, snd kv = analysis_entry p b q)
                    [("energy_kcal", e1); ("sugars_g", e2);
                     ("saturated_fat_g", e3); ("sodium_mg", e4);
                     ("protein_g", e5)])
    by (repeat constructor; assumption).
  simpl dict_set in H. unfold add_fiber in H.
  destruct (py_get product_nutrition "fiber_g" VNone) as [fiber|];
    [|discriminate].
  cbn [rbind] in H.
  destruct (negb (eq_str fiber "Not Available") && negb (is_none fiber)
            && negb (eq_str fiber "N/A")).
  - destruct (fiber_entry float_of_str fiber baseline) as [e6|x] eqn:E6;
      cbn [rbind rcatch] in H.
    + apply fiber_entry_shape in E6. simpl in H. inversion H.
      eexists. split; [reflexivity|]. split; [now right|].
      change (Forall (fun kv : string * pyval =>
                        exists p b q, snd kv = analysis_entry p b q)
                ([("energy_kcal", e1); ("sugars_g", e2);
                  ("saturated_fat_g", e3); ("sodium_mg", e4);
                  ("protein_g", e5)] ++ [("fiber_g", e6)])%list).
      apply Forall_app. split; [exact Hfive|]. now repeat constructor.
    + destruct (is_value_or_type_error x); [|discriminate].
      simpl in H. inversion H.
      eexists. split; [reflexivity|]. split; [now left | exact Hfive].
  - simpl in H. inversion H.
    eexists. split; [reflexivity|]. split; [now left | exact Hfive].
Qed.

Lemma nutrient_entry_reads_key (d1 d2 bl : dict) (n : string) :
  dict_get n d1 = dict_get n d2 ->
  nutrient_entry float_of_str (VDict d1) bl n
  = nutrient_entry float_of_str (VDict d2) bl n.
Proof. intros H. unfold nutrient_entry. simpl. now rewrite H. Qed.

(** X2.  The analysis depends on the product mapping through its six
    entries energy_kcal, sugars_g, saturated_fat_g, sodium_mg, protein_g and
    fiber_g only: two mappings that agree on them have the same analysis, or
    raise the same exception, whatever else they hold. *)
Theorem analysis_reads_six_entries (d1 d2 baseline : dict) :
  (forall k, In k (nutrients ++ ["fiber_g"])%list ->
             dict_get k d1 = dict_get k d2) ->
  calculate_nutrient_analysis float_of_str (VDict d1) baseline
  = calculate_nutrient_analysis float_of_str (VDict d2) baseline.
Proof.
  intros H. unfold calculate_nutrient_analysis, nutrients.
  cbn [for_nutrients].
  rewrite (nutrient_entry_reads_key d1 d2 baseline "energy_kcal")
    by (apply H; in_list).
  rewrite (nutrient_entry_reads_key d1 d2 baseline "sugars_g")
    by (apply H; in_list).
  rewrite (nutrient_entry_reads_key d1 d2 baseline "saturated_fat_g")
    by (apply H; in_list).
  rewrite (nutrient_entry_reads_key d1 d2 baseline "sodium_mg")
    by (apply H; in_list).
  rewrite (nutrient_entry_reads_key d1 d2 baseline "protein_g")
    by (apply H; in_list).
  unfold add_fiber. simpl py_get.
  rewrite (H "fiber_g") by in_list. reflexivity.
Qed.

(** *** The baseline as an argument *)

Lemma nutrient_entry_baseline (pn : pyval) (b1 b2 : dict) (n : string) :
  dict_get n b1 = dict_get n b2 ->
  nutrient_entry float_of_str pn b1 n = nutrient_entry float_of_str pn b2 n.
Proof. intros H. unfold nutrient_entry. now rewrite H. Qed.

(** A fiber value that is missing leaves the analysis as it is, whatever
    the baseline. *)
Lemma add_fiber_missing (d baseline a : dict) :
  fiber_missing float_of_str (dict_get "fiber_g" d) ->
  add_fiber float_of_str (VDict d) baseline a = Ok a.
Proof.
  intros Hm. unfold add_fiber. cbn [py_get rbind].
  remember (dict_get "fiber_g" d) as o eqn:Ho.
  destruct Hm as [ | | | | s Hs | l | dd]; try reflexivity.
  cbn [eq_str is_none].
  destruct (String.eqb s "Not Available"); [reflexivity|].
  destruct (String.eqb s "N/A"); [reflexivity|].
  cbn [negb andb]. unfold fiber_entry. cbn [py_float]. now rewrite Hs.
Qed.

(** A fiber value that is a number is converted, and then divided by what
    the baseline holds for fiber. *)
Lemma add_fiber_number (d baseline a : dict) (f : float) :
  fiber_number float_of_str (dict_get "fiber_g" d) f ->
  add_fiber float_of_str (VDict d) baseline a
  = rcatch (let? b := py_getitem (VDict baseline) "fiber_g" in
            let? b' := py_getitem (VDict baseline) "fiber_g" in
            let? q := float_truediv f b' in
            Ok (dict_set "fiber_g"
                  (VDict [("per_100g", VFloat f); ("inr_baseline", b);
                          ("percent_of_inr", VFloat (float_times_100 q))])
                  a))
      is_value_or_type_error (fun _ => Ok a).
Proof.
  intros Hn. unfold add_fiber. cbn [py_get rbind].
  remember (dict_get "fiber_g" d) as o eqn:Ho.
  destruct Hn as [g | z g Hz | b | s g Hna Hna' Hs]; cbn [eq_str is_none].
  - cbn [negb andb]. unfold fiber_entry. cbn [py_float rbind].
    destruct (py_getitem (VDict baseline) "fiber_g") as [x|e];
      cbn [rbind]; [|reflexivity].
    destruct (float_truediv g x); reflexivity.
  - cbn [negb andb]. unfold fiber_entry. cbn [py_float]. rewrite Hz.
    cbn [rbind].
    destruct (py_getitem (VDict baseline) "fiber_g") as [x|e];
      cbn [rbind]; [|reflexivity].
    destruct (float_truediv g x); reflexivity.
  - cbn [negb andb]. unfold fiber_entry. cbn [py_float rbind].
    destruct (py_getitem (VDict baseline) "fiber_g") as [x|e];
      cbn [rbind]; [|reflexivity].
    destruct (float_truediv (float_of_bool b) x); reflexivity.
  - apply String.eqb_neq in Hna, Hna'. rewrite Hna, Hna'.
    cbn [negb andb]. unfold fiber_entry. cbn [py_float]. rewrite Hs.
    cbn [rbind].
    destruct (py_getitem (VDict baseline) "fiber_g") as [x|e];
      cbn [rbind]; [|reflexivity].
    destruct (float_truediv g x); reflexivity.
Qed.

(** X3.  The percentage of fiber has no guard.  With a baseline that has
    the five mandatory entries of the FSSAI table, and a product whose
    fiber is a number, [calculate_nutrient_analysis] raises KeyError when
    the baseline has no fiber entry and ZeroDivisionError when that entry
    is 0: neither is among the exceptions the fiber block catches. *)
Theorem fiber_baseline_unguarded (d baseline : dict) (f : float) :
  all_fit d = true ->
  (forall k, In k nutrients ->
             dict_get k baseline = dict_get k FSSAI_INR_BASELINE) ->
  fiber_number float_of_str (dict_get "fiber_g" d) f ->
  (dict_get "fiber_g" baseline = None ->
   calculate_nutrient_analysis float_of_str (VDict d) baseline
   = Raise (Exn KeyError "'fiber_g'"))
  /\ (dict_get "fiber_g" baseline = Some (VInt 0) ->
      calculate_nutrient_analysis float_of_str (VDict d) baseline
      = Raise (Exn ZeroDivisionError "float division by zero")).
Proof.
  intros Hfit Hbase Hfib.
  assert (Hloop : exists an,
            for_nutrients float_of_str (VDict d) baseline nutrients []
            = Ok an).
  { destruct (analysis_of_fitting_mapping float_of_str d Hfit) as [a [Ha _]].
    revert Ha. unfold calculate_nutrient_analysis, nutrients.
    cbn [for_nutrients].
    rewrite <- !(nutrient_entry_baseline (VDict d) baseline
                   FSSAI_INR_BASELINE) by (apply Hbase; in_list).
    destruct (nutrient_entry float_of_str (VDict d) baseline "energy_kcal");
      [|discriminate]. cbn [rbind].
    destruct (nutrient_entry float_of_str (VDict d) baseline "sugars_g");
      [|discriminate]. cbn [rbind].
    destruct (nutrient_entry float_of_str (VDict d) baseline
                "saturated_fat_g"); [|discriminate]. cbn [rbind].
    destruct (nutrient_entry float_of_str (VDict d) baseline "sodium_mg");
      [|discriminate]. cbn [rbind].
    destruct (nutrient_entry float_of_str (VDict d) baseline "protein_g");
      [|discriminate]. cbn [rbind].
    intros _. eexists. reflexivity. }
  destruct Hloop as [an Hloop].
  unfold calculate_nutrient_analysis. rewrite Hloop. cbn [rbind].
  rewrite (add_fiber_number d baseline an f Hfib). cbn [py_getitem].
  split; intros Hb; rewrite Hb; reflexivity.
Qed.

Lemma nutrient_entry_guarded (d baseline : dict) (n : string) :
  fits_float (dict_get n d) = true ->
  match dict_get n baseline with
  | Some v => truthy v = false
  | None => True
  end ->
  exists c,
    coerces float_of_str (dict_get n d) c
    /\ nutrient_entry float_of_str (VDict d) baseline n
       = Ok (match dict_get n baseline with
             | Some v => analysis_entry (coerced_val c) v (VInt 0)
             | None => analysis_entry (coerced_val c) (VInt 1)
                         (percent_entry c 1%float)
             end).
Proof.
  intros Hfit Hb.
  destruct (coerce_value_spec float_of_str (dict_get n d) Hfit)
    as [c [Hc Hrel]].
  exists c. split; [exact Hrel|].
  unfold nutrient_entry. cbn [py_get rbind]. rewrite Hc. cbn [rbind].
  destruct (dict_get n baseline) as [v|].
  - destruct c as [|f]; cbn [percent_of_inr rbind]; [reflexivity|].
    rewrite Hb, andb_false_r. reflexivity.
  - rewrite (percent_of_inr_int c 1 1%float) by (reflexivity || lia).
    reflexivity.
Qed.

(** X4.  The percentage of a mandatory nutrient is guarded.  With a
    baseline in which each mandatory entry is absent or falsy (0, 0.0,
    None), a product whose six values fit a float and whose fiber is
    missing is analysed without an exception: a falsy baseline gives the
    percentage 0 instead of a division by zero, and an absent one counts
    as 1. *)
Theorem mandatory_baseline_guarded (d baseline : dict) :
  all_fit d = true ->
  fiber_missing float_of_str (dict_get "fiber_g" d) ->
  (forall k, In k nutrients ->
     match dict_get k baseline with
     | Some v => truthy v = false
     | None => True
     end) ->
  exists a,
    calculate_nutrient_analysis float_of_str (VDict d) baseline
    = Ok (VDict a)
    /\ forall k, In k nutrients ->
         exists c,
           coerces float_of_str (dict_get k d) c
           /\ dict_get k a
              = Some (match dict_get k baseline with
                      | Some v => analysis_entry (coerced_val c) v (VInt 0)
                      | None => analysis_entry (coerced_val c) (VInt 1)
                                  (percent_entry c 1%float)
                      end).
Proof.
  intros Hfit Hmiss Hbase. unfold all_fit in Hfit. simpl in Hfit.
  rewrite !andb_true_iff in Hfit.
  destruct Hfit as (F1 & F2 & F3 & F4 & F5 & F6 & _).
  destruct (nutrient_entry_guarded d baseline "energy_kcal" F1)
    as [c1 [R1 E1]]; [apply Hbase; in_list|].
  destruct (nutrient_entry_guarded d baseline "sugars_g" F2)
    as [c2 [R2 E2]]; [apply Hbase; in_list|].
  destruct (nutrient_entry_guarded d baseline "saturated_fat_g" F3)
    as [c3 [R3 E3]]; [apply Hbase; in_list|].
  destruct (nutrient_entry_guarded d baseline "sodium_mg" F4)
    as [c4 [R4 E4]]; [apply Hbase; in_list|].
  destruct (nutrient_entry_guarded d baseline "protein_g" F5)
    as [c5 [R5 E5]]; [apply Hbase; in_list|].
  unfold calculate_nutrient_analysis, nutrients. cbn [for_nutrients].
  rewrite E1. cbn [rbind]. rewrite E2. cbn [rbind]. rewrite E3. cbn [rbind].
  rewrite E4. cbn [rbind]. rewrite E5. cbn [rbind].
  rewrite (add_fiber_missing d baseline _ Hmiss). cbn [rbind].
  eexists. split; [reflexivity|].
  intros k Hk. simpl in Hk.
  destruct Hk as [<- | [<- | [<- | [<- | [<- | []]]]]].
  - exists c1. now split.
  - exists c2. now split.
  - exists c3. now split.
  - exists c4. now split.
  - exists c5. now split.
Qed.

End MoreNormalization.

(** ** The chain and the upload handler *)

Section MorePipeline.

Variable float_of_str : string -> option float.
Variable json_loads : string -> result pyval.
Variable py_str : pyval -> string.
Variable format_1f : float -> string.
Variable getenv_api_key : option string.
Variable vision_call : pyval -> result string.
Variable rating_call : string -> result string.
Variable chat_call : string -> result string.
Variable retriever : pyval -> result (list string).
Variable answer_call : list string -> pyval -> result string.
Variable secure_filename : string -> string.
Variable save_file : string -> result unit.
Variable stdout_write : text -> result unit.

Local Abbreviation run_chain key :=
  (create_nutrition_analysis_chain float_of_str json_loads py_str format_1f
     getenv_api_key vision_call rating_call key FSSAI_INR_BASELINE).
Local Abbreviation upload :=
  (upload_image float_of_str json_loads py_str format_1f getenv_api_key
     vision_call rating_call secure_filename save_file).
Local Abbreviation chat_handler :=
  (chat py_str format_1f chat_call retriever answer_call stdout_write).

Local Abbreviation step1 :=
  (extract_nutrition_step json_loads getenv_api_key vision_call).
Local Abbreviation step2 :=
  (calculate_analysis_step float_of_str FSSAI_INR_BASELINE).
Local Abbreviation step3 :=
  (calculate_inr_step json_loads py_str format_1f rating_call
     FSSAI_INR_BASELINE).

Lemma logged_inj (w : world) (a b : list event) :
  logged w a = logged w b -> a = b.
Proof.
  unfold logged. intros H. inversion H as [H1].
  now apply app_inv_head in H1.
Qed.

(** The extraction step raises before or after the call of the vision
    model, or returns after it: a failure value, or the product data. *)
Lemma step1_cases (key : option string) (x : pyval) (w : world) :
  (exists e, step1 key x w = (Raise e, w))
  \/ (exists res ip,
        match x with VStr _ => Ok x | _ => py_get x "image_path" VNone end
        = Ok ip
        /\ step1 key x w = (res, logged w [VisionCall ip])
        /\ forall a, res = Ok a ->
             is_failure a
             \/ exists pd, a = VDict [("success", VBool true);
                                      ("image_path", ip);
                                      ("product_data", pd)]).
Proof.
  unfold extract_nutrition_step, extract_nutrition_info_gpt4o,
    bind, lift, log, ret.
  destruct (match x with VStr _ => Ok x | _ => py_get x "image_path" VNone end)
    as [ip|e]; [|left; now exists e].
  destruct (match key with
            | Some _ => Ok tt
            | None => _
            end) as [u|e]; [|left; now exists e].
  right. fold (logged w [VisionCall ip]).
  destruct (vision_call ip) as [text|e];
    [|eexists; exists ip; split; [reflexivity|];
      split; [reflexivity | discriminate]].
  destruct (parse_extraction json_loads text) as [r|e];
    [|eexists; exists ip; split; [reflexivity|];
      split; [reflexivity | discriminate]].
  destruct (py_getitem r "success") as [s|e];
    [|eexists; exists ip; split; [reflexivity|];
      split; [reflexivity | discriminate]].
  destruct (negb (truthy s)).
  - destruct (py_get r "error" VNone);
      eexists; exists ip; (split; [reflexivity|]);
      (split; [reflexivity|]); [|discriminate].
    intros a' Ha. inversion Ha. left. exists (VBool false).
    split; reflexivity.
  - destruct (py_getitem r "data") as [pd|e];
      eexists; exists ip; (split; [reflexivity|]);
      (split; [reflexivity|]); [|discriminate].
    intros a' Ha. inversion Ha. right. now exists pd.
Qed.

(** The analysis step hands a failure value on, raises before the
    normalization, or runs it and returns with its analysis. *)
Lemma step2_cases (inputs : pyval) (w : world) :
  (is_failure inputs /\ step2 inputs w = (Ok inputs, w))
  \/ (exists e, step2 inputs w = (Raise e, w))
  \/ (exists res pd nut,
        py_getitem inputs "product_data" = Ok pd
        /\ py_getitem pd "nutritional_info_per_100g" = Ok nut
        /\ step2 inputs w = (res, logged w [Normalize nut])
        /\ forall b, res = Ok b ->
             exists ip an,
               calculate_nutrient_analysis float_of_str nut FSSAI_INR_BASELINE
               = Ok an
               /\ b = VDict [("success", VBool true); ("image_path", ip);
                             ("product_data", pd); ("analysis", an)]).
Proof.
  unfold calculate_analysis_step, bind, lift, log, ret.
  destruct (py_get inputs "success" VNone) as [s|e] eqn:Hs;
    [|right; left; now exists e].
  destruct (truthy s) eqn:Ht; cbn [negb].
  - right.
    destruct (py_getitem inputs "product_data") as [pd|e];
      [|left; now exists e].
    destruct (py_getitem pd "nutritional_info_per_100g") as [nut|e] eqn:Hn;
      [|left; now exists e].
    right. fold (logged w [Normalize nut]).
    destruct (calculate_nutrient_analysis float_of_str nut FSSAI_INR_BASELINE)
      as [an|e] eqn:Han;
      [|eexists; exists pd, nut; split; [reflexivity|]; split; [exact Hn|];
        split; [reflexivity|]; intros b' Hb; discriminate Hb].
    destruct (py_getitem inputs "image_path") as [ip|e];
      eexists; exists pd, nut; (split; [reflexivity|]);
      (split; [exact Hn|]); (split; [reflexivity|]); intros b' Hb;
      [|discriminate Hb].
    inversion Hb. exists ip, an. now split.
  - left. split; [|reflexivity]. now exists s.
Qed.

(** The rating step hands a failure value on, raises before the rating
    function, or enters it; the rating function raises while it builds its
    prompt, or calls the model, and the step returns the failure value of
    the rating or the result of the chain. *)
Lemma step3_cases (inputs : pyval) (w : world) :
  (is_failure inputs /\ step3 inputs w = (Ok inputs, w))
  \/ (exists e, step3 inputs w = (Raise e, w))
  \/ (exists e pd, step3 inputs w = (Raise e, logged w [InrScore pd]))
  \/ (exists res pd an prompt,
        py_getitem inputs "product_data" = Ok pd
        /\ py_getitem inputs "analysis" = Ok an
        /\ reasoning_prompt py_str format_1f pd an FSSAI_INR_BASELINE
           = Ok prompt
        /\ step3 inputs w = (res, logged w [InrScore pd; RatingCall prompt])
        /\ forall r, res = Ok r ->
             is_failure r
             \/ exists ip inr,
                  is_none inr = false
                  /\ r = success_result ip pd an inr).
Proof.
  unfold calculate_inr_step, calculate_inr_score, bind, lift, log, ret.
  destruct (py_get inputs "success" VNone) as [s|e] eqn:Hs;
    [|right; left; now exists e].
  destruct (truthy s) eqn:Ht; cbn [negb].
  - right.
    destruct (py_getitem inputs "product_data") as [pd|e];
      [|left; now exists e].
    destruct (py_getitem inputs "analysis") as [an|e];
      [|left; now exists e].
    right. cbn [trace session]. fold (logged w [InrScore pd]).
    destruct (reasoning_prompt py_str format_1f pd an FSSAI_INR_BASELINE)
      as [prompt|e] eqn:Hp; [|left; eexists; eexists; reflexivity].
    right. unfold logged. cbn [trace session]. rewrite <- app_assoc.
    cbn [app]. fold (logged w [InrScore pd; RatingCall prompt]).
    destruct (rating_call prompt) as [reply|e];
      [|eexists; exists pd, an, prompt; split; [reflexivity|];
        split; [reflexivity|]; split; [exact Hp|]; split; [reflexivity|];
        intros r' Hr; discriminate Hr].
    destruct (parse_inr_reply json_loads reply) as [v|e];
      [|eexists; exists pd, an, prompt; split; [reflexivity|];
        split; [reflexivity|]; split; [exact Hp|]; split; [reflexivity|];
        intros r' Hr; discriminate Hr].
    destruct (is_none v) eqn:Hv;
      destruct (py_getitem inputs "image_path") as [ip|e];
      eexists; exists pd, an, prompt; (split; [reflexivity|]);
      (split; [reflexivity|]); (split; [exact Hp|]); (split; [reflexivity|]);
      intros r' Hr; try discriminate Hr.
    + inversion Hr. left. exists (VBool false). split; reflexivity.
    + inversion Hr. right. now exists ip, v.
  - left. split; [|reflexivity]. now exists s.
Qed.

(** The calls of a run of the chain come in their order, each one once at
    most. *)
Lemma chain_trace (key : option string) (x : pyval) (w : world) :
  exists evs, snd (run_chain key x w) = logged w evs
              /\ chain_calls evs = true.
Proof.
  unfold create_nutrition_analysis_chain. unfold bind at 1.
  destruct (step1_cases key x w) as [[e H1] | [res [ip [_ [H1 _]]]]];
    rewrite H1.
  { exists []. split; [apply logged_nil | reflexivity]. }
  destruct res as [a|e];
    [|exists [VisionCall ip]; split; reflexivity].
  unfold bind.
  destruct (step2_cases a (logged w [VisionCall ip]))
    as [[Hf H2] | [[e H2] | [res [pd [nut [_ [_ [H2 _]]]]]]]]; rewrite H2.
  - rewrite (step3_passes_failure json_loads py_str format_1f rating_call
               a _ Hf).
    exists [VisionCall ip]. split; reflexivity.
  - exists [VisionCall ip]. split; reflexivity.
  - rewrite logged_logged. cbn [app].
    destruct res as [b|e];
      [|exists [VisionCall ip; Normalize nut]; split; reflexivity].
    destruct (step3_cases b (logged w [VisionCall ip; Normalize nut]))
      as [[Hf H3] | [[e H3] | [[e [pd' H3]]
          | [res [pd' [an [prompt [_ [_ [_ [H3 _]]]]]]]]]]];
      rewrite H3; try rewrite logged_logged; cbn [app snd];
      eexists; split; reflexivity.
Qed.

(** A value with a success entry that holds is no failure value. *)
Lemma success_not_failure (cr s : pyval) :
  py_getitem cr "success" = Ok s -> truthy s = true -> ~ is_failure cr.
Proof.
  intros Hs Ht [s' [Hs' Ht']]. destruct cr; try discriminate.
  simpl in Hs, Hs'. destruct (dict_get "success" d); [|discriminate].
  congruence.
Qed.

(** A run of the chain that returns a value that is no failure value made
    the four calls, and returns the product data of the extraction, the
    analysis of its nutrition mapping and the rating. *)
Lemma chain_success (key : option string) (x cr : pyval) (w w' : world) :
  run_chain key x w = (Ok cr, w') -> ~ is_failure cr ->
  exists ip pd nut an inr prompt,
    match x with VStr _ => Ok x | _ => py_get x "image_path" VNone end = Ok ip
    /\ cr = success_result ip pd an inr
    /\ py_getitem pd "nutritional_info_per_100g" = Ok nut
    /\ calculate_nutrient_analysis float_of_str nut FSSAI_INR_BASELINE = Ok an
    /\ reasoning_prompt py_str format_1f pd an FSSAI_INR_BASELINE = Ok prompt
    /\ is_none inr = false
    /\ w' = logged w [VisionCall ip; Normalize nut; InrScore pd;
                      RatingCall prompt].
Proof.
  intros Hrun Hnf.
  revert Hrun. unfold create_nutrition_analysis_chain. unfold bind at 1.
  destruct (step1_cases key x w) as [[e H1] | [res [ip [Hx [H1 Ha]]]]];
    rewrite H1; [discriminate|].
  destruct res as [a|e]; [|discriminate].
  unfold bind.
  destruct (step2_cases a (logged w [VisionCall ip]))
    as [[Hf H2] | [[e H2] | [res [pd [nut [Hpd [Hn [H2 Hb]]]]]]]]; rewrite H2.
  - rewrite (step3_passes_failure json_loads py_str format_1f rating_call
               a _ Hf).
    intros Hrun. inversion Hrun; subst. contradiction.
  - discriminate.
  - rewrite logged_logged. cbn [app].
    destruct res as [b|e]; [|discriminate].
    destruct (Hb b eq_refl) as [ip2 [an [Han Hbeq]]].
    destruct (Ha a eq_refl) as [Hfa | [pd0 Haeq]].
    { destruct Hfa as [s [Hs Ht]].
      revert H2. unfold calculate_analysis_step, bind, lift.
      rewrite Hs, Ht. cbn [negb]. unfold ret. intros H2.
      assert (Hw : logged w [VisionCall ip]
                   = logged (logged w [VisionCall ip]) [Normalize nut])
        by congruence.
      rewrite logged_logged in Hw. apply logged_inj in Hw. discriminate. }
    assert (Hip : ip2 = ip).
    { revert H2. subst a. unfold calculate_analysis_step, bind, lift, log, ret.
      cbn [py_get py_getitem dict_get String.eqb Ascii.eqb Bool.eqb truthy
           negb].
      cbn [py_getitem dict_get String.eqb Ascii.eqb Bool.eqb] in Hpd.
      inversion Hpd; subst pd0. rewrite Hn, Han. intros H2.
      inversion H2 as [[Hbb]]. subst b. now inversion Hbb. }
    subst ip2.
    destruct (step3_cases b (logged w [VisionCall ip; Normalize nut]))
      as [[Hf H3] | [[e H3] | [[e [pd' H3]]
          | [res [pd' [an' [prompt [Hpd' [Han' [Hp [H3 Hr]]]]]]]]]]];
      rewrite H3; intros Hrun.
    + inversion Hrun; subst. contradiction.
    + discriminate.
    + discriminate.
    + rewrite logged_logged in Hrun. cbn [app] in Hrun.
      inversion Hrun; subst res w'.
      destruct (Hr cr eq_refl) as [Hf | [ip3 [inr [Hnn Hcr]]]];
        [contradiction|].
      subst b.
      cbn [py_getitem dict_get String.eqb Ascii.eqb Bool.eqb] in Hpd', Han'.
      inversion Hpd'; inversion Han'; subst pd' an'.
      assert (Hip3 : ip3 = ip).
      { revert H3. unfold calculate_inr_step, calculate_inr_score,
          bind, lift, log, ret.
        cbn [py_get py_getitem dict_get String.eqb Ascii.eqb Bool.eqb truthy
             negb].
        rewrite Hp.
        destruct (rating_call prompt) as [reply|]; [|discriminate].
        destruct (parse_inr_reply json_loads reply) as [v|]; [|discriminate].
        destruct (is_none v); intros H3; inversion H3 as [[Hcr' Hw]];
          subst cr; [discriminate Hcr' | now inversion Hcr']. }
      subst ip3.
      now exists ip, pd, nut, an, inr, prompt.
Qed.

(** The extraction step on a path, once the vision model has answered. *)
Lemma step1_run (path key text : string) (w : world) :
  vision_call (VStr path) = Ok text ->
  step1 (Some key) (VStr path) w
  = (match json_loads (locate_json text) with
     | Ok pd => Ok (VDict [("success", VBool true);
                           ("image_path", VStr path);
                           ("product_data", pd)])
     | Raise e =>
         if is_json_decode_error e
         then Ok (VDict [("success", VBool false);
                         ("error", VStr "Nutrition extraction failed");
                         ("details",
                          VStr ("Failed to parse JSON: " ++ exn_str e));
                         ("image_path", VStr path)])
         else Raise e
     end, logged w [VisionCall (VStr path)]).
Proof.
  intros Hv. unfold extract_nutrition_step. unfold bind at 1.
  unfold lift at 1. unfold bind at 1.
  rewrite (extract_info_run json_loads getenv_api_key vision_call
             (VStr path) key text w Hv).
  unfold parse_extraction, rcatch.
  destruct (json_loads (locate_json text)) as [pd|e]; cbn [rbind].
  - reflexivity.
  - destruct (is_json_decode_error e); reflexivity.
Qed.

(** The fields of the rating prompt. *)
Lemma reasoning_prompt_run (pd n an : pyval)
  (ptype energy sugars satfat sodium protein fiber : pyval)
  (a1 a2 a3 a4 a5 : string) :
  py_get pd "product_type" (VStr "Solid") = Ok ptype ->
  py_getitem pd "nutritional_info_per_100g" = Ok n ->
  py_getitem n "energy_kcal" = Ok energy ->
  py_getitem n "sugars_g" = Ok sugars ->
  py_getitem n "saturated_fat_g" = Ok satfat ->
  py_getitem n "sodium_mg" = Ok sodium ->
  py_getitem n "protein_g" = Ok protein ->
  py_get n "fiber_g" (VStr "Not Available") = Ok fiber ->
  percent_text format_1f an "energy_kcal" = Ok a1 ->
  percent_text format_1f an "sugars_g" = Ok a2 ->
  percent_text format_1f an "saturated_fat_g" = Ok a3 ->
  percent_text format_1f an "sodium_mg" = Ok a4 ->
  percent_text format_1f an "protein_g" = Ok a5 ->
  reasoning_prompt py_str format_1f pd an FSSAI_INR_BASELINE
  = Ok (reasoning_prompt_text
          (py_str ptype) (py_str energy) (py_str sugars) (py_str satfat)
          (py_str sodium) (py_str protein) (py_str fiber)
          (py_str (VInt 2000)) (py_str (VInt 50)) (py_str (VInt 20))
          (py_str (VInt 2000)) (py_str (VInt 50)) (py_str (VInt 25))
          a1 a2 a3 a4 a5).
Proof.
  intros Hpt Hn He Hs Hsf Hso Hp Hf H1 H2 H3 H4 H5.
  unfold percent_text in H1, H2, H3, H4, H5.
  unfold reasoning_prompt. generalize reasoning_prompt_text. intros T.
  rewrite Hpt, Hn. cbn [rbind]. rewrite He, Hs, Hsf, Hso, Hp, Hf.
  cbn [rbind].
  change (py_getitem (VDict FSSAI_INR_BASELINE) "energy_kcal")
    with (Ok (VInt 2000)).
  change (py_getitem (VDict FSSAI_INR_BASELINE) "sugars_g")
    with (Ok (VInt 50)).
  change (py_getitem (VDict FSSAI_INR_BASELINE) "saturated_fat_g")
    with (Ok (VInt 20)).
  change (py_getitem (VDict FSSAI_INR_BASELINE) "sodium_mg")
    with (Ok (VInt 2000)).
  change (py_getitem (VDict FSSAI_INR_BASELINE) "protein_g")
    with (Ok (VInt 50)).
  change (py_getitem (VDict FSSAI_INR_BASELINE) "fiber_g")
    with (Ok (VInt 25)).
  cbn [rbind]. rewrite H1, H2, H3, H4, H5. reflexivity.
Qed.

Lemma format_percent_entry (c : coerced) (g : float) :
  exists t, py_format_1f format_1f (percent_entry c g) = Ok t.
Proof.
  assert (H0 : py_format_1f format_1f (VInt 0) = Ok (format_1f 0%float))
    by (vm_compute; reflexivity).
  destruct c as [|f]; simpl.
  - eexists. exact H0.
  - destruct (PrimFloat.eqb f 0%float).
    + eexists. exact H0.
    + eexists. reflexivity.
Qed.

(** The rating prompt is built for every product whose nutrition mapping
    holds the five mandatory values, from the analysis of that mapping. *)
Lemma prompt_of_analysis (pd : pyval) (d a : dict) :
  py_getitem pd "nutritional_info_per_100g" = Ok (VDict d) ->
  (forall k, In k nutrients -> dict_get k d <> None) ->
  (forall n, In n nutrients ->
     exists p b c g,
       dict_get n a = Some (analysis_entry p b (percent_entry c g))) ->
  exists prompt,
    reasoning_prompt py_str format_1f pd (VDict a) FSSAI_INR_BASELINE
    = Ok prompt.
Proof.
  intros Hn Hd Ha.
  assert (Hpt : exists pt, py_get pd "product_type" (VStr "Solid") = Ok pt).
  { destruct pd; try discriminate. eexists. reflexivity. }
  destruct Hpt as [pt Hpt].
  assert (Hval : forall k, In k nutrients ->
                   exists x, py_getitem (VDict d) k = Ok x).
  { intros k Hk. specialize (Hd k Hk). simpl.
    destruct (dict_get k d); [eexists; reflexivity | contradiction]. }
  assert (Hpct : forall k, In k nutrients ->
                   exists t, percent_text format_1f (VDict a) k = Ok t).
  { intros k Hk. destruct (Ha k Hk) as [p [b [c [g E]]]].
    unfold percent_text. cbn [py_getitem]. rewrite E. cbn [rbind].
    unfold analysis_entry. simpl py_getitem. cbn [rbind].
    apply format_percent_entry. }
  destruct (Hval "energy_kcal") as [v1 V1]; [in_list|].
  destruct (Hval "sugars_g") as [v2 V2]; [in_list|].
  destruct (Hval "saturated_fat_g") as [v3 V3]; [in_list|].
  destruct (Hval "sodium_mg") as [v4 V4]; [in_list|].
  destruct (Hval "protein_g") as [v5 V5]; [in_list|].
  destruct (Hpct "energy_kcal") as [t1 T1]; [in_list|].
  destruct (Hpct "sugars_g") as [t2 T2]; [in_list|].
  destruct (Hpct "saturated_fat_g") as [t3 T3]; [in_list|].
  destruct (Hpct "sodium_mg") as [t4 T4]; [in_list|].
  destruct (Hpct "protein_g") as [t5 T5]; [in_list|].
  eexists.
  apply (reasoning_prompt_run pd (VDict d) (VDict a) pt v1 v2 v3 v4 v5
           (match dict_get "fiber_g" d with
            | Some x => x
            | None => VStr "Not Available"
            end) t1 t2 t3 t4 t5); first [assumption | reflexivity].
Qed.

(** The chain on a path, from the reply of the vision model to the rating
    prompt. *)
Lemma chain_until_prompt (path key text : string) (pd nut an : pyval)
  (w : world) :
  vision_call (VStr path) = Ok text ->
  json_loads (locate_json text) = Ok pd ->
  py_getitem pd "nutritional_info_per_100g" = Ok nut ->
  calculate_nutrient_analysis float_of_str nut FSSAI_INR_BASELINE = Ok an ->
  run_chain (Some key) (VStr path) w
  = step3 (VDict [("success", VBool true); ("image_path", VStr path);
                  ("product_data", pd); ("analysis", an)])
      (logged w [VisionCall (VStr path); Normalize nut]).
Proof.
  intros Hv Hj Hn Han. unfold create_nutrition_analysis_chain.
  unfold bind at 1. rewrite (step1_run path key text w Hv), Hj.
  unfold bind at 1.
  rewrite (step2_run float_of_str
             (VDict [("success", VBool true); ("image_path", VStr path);
                     ("product_data", pd)])
             (VBool true) pd nut _ eq_refl eq_refl eq_refl Hn).
  rewrite Han. cbn [py_getitem dict_get String.eqb Ascii.eqb Bool.eqb].
  now rewrite logged_logged.
Qed.

Lemma chain_rated (path key text reply : string) (pd nut an : pyval)
  (prompt : string) (w : world) :
  vision_call (VStr path) = Ok text ->
  json_loads (locate_json text) = Ok pd ->
  py_getitem pd "nutritional_info_per_100g" = Ok nut ->
  calculate_nutrient_analysis float_of_str nut FSSAI_INR_BASELINE = Ok an ->
  reasoning_prompt py_str format_1f pd an FSSAI_INR_BASELINE = Ok prompt ->
  rating_call prompt = Ok reply ->
  run_chain (Some key) (VStr path) w
  = match parse_inr_reply json_loads reply with
    | Ok v => (Ok (if is_none v then inr_failure (VStr path)
                   else success_result (VStr path) pd an v),
               logged w [VisionCall (VStr path); Normalize nut; InrScore pd;
                         RatingCall prompt])
    | Raise e => (Raise e,
                  logged w [VisionCall (VStr path); Normalize nut;
                            InrScore pd; RatingCall prompt])
    end.
Proof.
  intros Hv Hj Hn Han Hp Hr.
  rewrite (chain_until_prompt path key text pd nut an w Hv Hj Hn Han).
  rewrite (step3_run json_loads py_str format_1f rating_call
             (VDict [("success", VBool true); ("image_path", VStr path);
                     ("product_data", pd); ("analysis", an)])
             (VBool true) pd an (VStr path) prompt reply _
             eq_refl eq_refl eq_refl eq_refl eq_refl Hp Hr).
  rewrite logged_logged. reflexivity.
Qed.

Lemma chain_prompt_raises (path key text : string) (pd nut an : pyval)
  (e : exn) (w : world) :
  vision_call (VStr path) = Ok text ->
  json_loads (locate_json text) = Ok pd ->
  py_getitem pd "nutritional_info_per_100g" = Ok nut ->
  calculate_nutrient_analysis float_of_str nut FSSAI_INR_BASELINE = Ok an ->
  reasoning_prompt py_str format_1f pd an FSSAI_INR_BASELINE = Raise e ->
  run_chain (Some key) (VStr path) w
  = (Raise e, logged w [VisionCall (VStr path); Normalize nut; InrScore pd]).
Proof.
  intros Hv Hj Hn Han Hp.
  rewrite (chain_until_prompt path key text pd nut an w Hv Hj Hn Han).
  unfold calculate_inr_step, calculate_inr_score, bind, lift, log, ret.
  cbn [py_get py_getitem dict_get String.eqb Ascii.eqb Bool.eqb truthy negb].
  rewrite Hp. unfold logged. cbn [trace session].
  rewrite <- app_assoc. reflexivity.
Qed.

(** The upload handler on a request it accepts, once the file is saved:
    the three ways the chain can end. *)
Lemma upload_chain_raises (request : upload_request) (name key : string)
  (e : exn) (w w2 : world) :
  let path := saved_path secure_filename request name in
  image request = Some name -> name <> EmptyString ->
  allowed_file name ALLOWED_EXTENSIONS = Ok true ->
  getenv_api_key = Some key -> save_file path = Ok tt ->
  run_chain (Some key) (VStr path) (logged w [SaveFile path]) = (Raise e, w2) ->
  upload request w
  = (Ok (Response (VDict [("error", VStr (exn_str e))]) 500), w2).
Proof.
  intros path Himg Hne Hok Hkey Hsave Hc.
  unfold upload_image. rewrite Himg.
  apply String.eqb_neq in Hne. rewrite Hne.
  unfold bind at 1. unfold lift at 1. rewrite Hok. cbn [negb]. cbv iota.
  unfold try_except, nutrition_analysis_chain.
  fold (saved_path secure_filename request name). fold path.
  unfold bind at 1. unfold log at 1. fold (logged w [SaveFile path]).
  unfold bind at 1. unfold lift at 1. rewrite Hsave.
  unfold bind at 1. rewrite Hkey in Hc |- *. rewrite Hc. reflexivity.
Qed.

Lemma upload_chain_fails (request : upload_request) (name key : string)
  (cr s er de : pyval) (w w2 : world) :
  let path := saved_path secure_filename request name in
  image request = Some name -> name <> EmptyString ->
  allowed_file name ALLOWED_EXTENSIONS = Ok true ->
  getenv_api_key = Some key -> save_file path = Ok tt ->
  run_chain (Some key) (VStr path) (logged w [SaveFile path]) = (Ok cr, w2) ->
  py_getitem cr "success" = Ok s -> truthy s = false ->
  py_get cr "error" (VStr "Analysis failed") = Ok er ->
  py_get cr "details" VNone = Ok de ->
  upload request w
  = (Ok (Response (VDict [("error", er); ("details", de)]) 500), w2).
Proof.
  intros path Himg Hne Hok Hkey Hsave Hc Hs Ht Her Hde.
  unfold upload_image. rewrite Himg.
  apply String.eqb_neq in Hne. rewrite Hne.
  unfold bind at 1. unfold lift at 1. rewrite Hok. cbn [negb]. cbv iota.
  unfold try_except, nutrition_analysis_chain.
  fold (saved_path secure_filename request name). fold path.
  unfold bind at 1. unfold log at 1. fold (logged w [SaveFile path]).
  unfold bind at 1. unfold lift at 1. rewrite Hsave.
  unfold bind at 1. rewrite Hkey in Hc |- *. rewrite Hc.
  unfold bind, lift, ret. rewrite Hs, Ht. cbn [negb].
  rewrite Her, Hde. reflexivity.
Qed.

Lemma upload_chain_succeeds (request : upload_request) (name key : string)
  (ip pd an inr : pyval) (w w2 : world) :
  let path := saved_path secure_filename request name in
  image request = Some name -> name <> EmptyString ->
  allowed_file name ALLOWED_EXTENSIONS = Ok true ->
  getenv_api_key = Some key -> save_file path = Ok tt ->
  run_chain (Some key) (VStr path) (logged w [SaveFile path])
  = (Ok (success_result ip pd an inr), w2) ->
  upload request w
  = (Ok (Response
           (VDict [("success", VBool true); ("product_data", pd);
                   ("analysis", an); ("inr_result", inr);
                   ("image_path",
                    VStr (now request ++ "_" ++ secure_filename name))])
           200),
     World (trace w2)
       (dict_set "current_product"
          (VDict [("product_data", pd); ("analysis", an);
                  ("inr_result", inr); ("image_path", VStr path)])
          (session w2))).
Proof.
  intros path Himg Hne Hok Hkey Hsave Hc.
  unfold upload_image. rewrite Himg.
  apply String.eqb_neq in Hne. rewrite Hne.
  unfold bind at 1. unfold lift at 1. rewrite Hok. cbn [negb]. cbv iota.
  unfold try_except, nutrition_analysis_chain.
  fold (saved_path secure_filename request name). fold path.
  unfold bind at 1. unfold log at 1. fold (logged w [SaveFile path]).
  unfold bind at 1. unfold lift at 1. rewrite Hsave.
  unfold bind at 1. rewrite Hkey in Hc |- *. rewrite Hc.
  reflexivity.
Qed.

(** X5.  One run of the chain calls the vision model, the normalization,
    the rating function and the rating model in this order, each one once
    at most, and stops at the first that fails: no later call is made
    without the earlier ones.  A run that returns a value whose success
    entry holds made all four calls, and that value holds the product data
    read from the label, the analysis of its nutrition mapping and a rating
    that is not null. *)
Theorem chain_calls_in_order (key : option string) (x : pyval) (w : world) :
  exists evs,
    snd (run_chain key x w) = logged w evs
    /\ chain_calls evs = true
    /\ (forall cr s,
          fst (run_chain key x w) = Ok cr ->
          py_getitem cr "success" = Ok s -> truthy s = true ->
          exists ip pd nut an inr prompt,
            evs = [VisionCall ip; Normalize nut; InrScore pd;
                   RatingCall prompt]
            /\ cr = success_result ip pd an inr
            /\ calculate_nutrient_analysis float_of_str nut
                 FSSAI_INR_BASELINE = Ok an
            /\ is_none inr = false).
Proof.
  destruct (chain_trace key x w) as [evs [Hevs Hcalls]].
  exists evs. split; [exact Hevs|]. split; [exact Hcalls|].
  intros cr s Hcr Hs Ht.
  destruct (run_chain key x w) as [res w'] eqn:Hrun. simpl in Hcr, Hevs.
  subst res.
  destruct (chain_success key x cr w w' Hrun (success_not_failure cr s Hs Ht))
    as [ip [pd [nut [an [inr [prompt [_ [Hcr [_ [Han [_ [Hnn Hw']]]]]]]]]]]].
  exists ip, pd, nut, an, inr, prompt. rewrite Hw' in Hevs.
  split; [symmetry; now apply (logged_inj w)|]. now repeat split.
Qed.

(** The three ways the upload handler ends: it refuses the request and
    nothing happens; it saves the file, runs the chain and answers 500; it
    saves the file, the chain makes its four calls and returns a result,
    and it stores the result and answers 200. *)
Lemma upload_outcome (request : upload_request) (w : world) :
  (acceptable request = false
   /\ exists message,
        upload request w
        = (Ok (Response (VDict [("error", VStr message)]) 400), w))
  \/ (exists name resp evs,
        acceptable request = true /\ image request = Some name
        /\ status resp = 500
        /\ upload request w
           = (Ok resp,
              logged w (SaveFile (saved_path secure_filename request name)
                        :: evs))
        /\ chain_calls evs = true)
  \/ (exists name pd nut an inr prompt,
        acceptable request = true /\ image request = Some name
        /\ py_getitem pd "nutritional_info_per_100g" = Ok nut
        /\ calculate_nutrient_analysis float_of_str nut FSSAI_INR_BASELINE
           = Ok an
        /\ reasoning_prompt py_str format_1f pd an FSSAI_INR_BASELINE
           = Ok prompt
        /\ is_none inr = false
        /\ upload request w
           = (Ok (Response
                    (VDict [("success", VBool true); ("product_data", pd);
                            ("analysis", an); ("inr_result", inr);
                            ("image_path",
                             VStr (now request ++ "_"
                                   ++ secure_filename name))])
                    200),
              World (trace w
                     ++ [SaveFile (saved_path secure_filename request name);
                         VisionCall
                           (VStr (saved_path secure_filename request name));
                         Normalize nut; InrScore pd; RatingCall prompt])
                (dict_set "current_product"
                   (VDict [("product_data", pd); ("analysis", an);
                           ("inr_result", inr);
                           ("image_path",
                            VStr (saved_path secure_filename request name))])
                   (session w)))).
Proof.
  remember (upload request w) as out eqn:Hout. revert Hout.
  unfold upload_image, acceptable.
  destruct (image request) as [name|] eqn:Himg;
    [|intros ->; left; split; [reflexivity | eexists; reflexivity]].
  destruct (String.eqb name EmptyString);
    [intros ->; left; split; [reflexivity | eexists; reflexivity]|].
  destruct (allowed_file_total name ALLOWED_EXTENSIONS) as [ok Hok].
  unfold bind at 1. unfold lift at 1. rewrite Hok.
  destruct ok; cbn [negb andb]; cbv beta iota;
    [|intros ->; left; split; [reflexivity | eexists; reflexivity]].
  fold (saved_path secure_filename request name).
  set (path := saved_path secure_filename request name).
  unfold try_except, bind, lift, log, ret, session_set. cbv beta iota.
  fold (logged w [SaveFile path]).
  assert (Hfail : forall (resp : response) (evs : list event),
            status resp = 500 -> chain_calls evs = true ->
            exists name0 resp0 evs0,
              true = true /\ Some name = Some name0 /\ status resp0 = 500
              /\ (Ok resp, logged w (SaveFile path :: evs))
                 = (Ok resp0,
                    logged w
                      (SaveFile (saved_path secure_filename request name0)
                       :: evs0))
              /\ chain_calls evs0 = true).
  { intros resp evs Hst Hcalls. exists name, resp, evs. now repeat split. }
  destruct (save_file path) as [u|e]; cbv beta iota;
    [|intros ->; right; left; now apply Hfail].
  destruct (chain_trace getenv_api_key (VStr path) (logged w [SaveFile path]))
    as [evs [Hevs Hcalls]].
  rewrite logged_logged in Hevs. cbn [app] in Hevs.
  destruct (nutrition_analysis_chain float_of_str json_loads py_str format_1f
              getenv_api_key vision_call rating_call (VStr path)
              (logged w [SaveFile path])) as [[cr|e0] w2] eqn:Hc;
    unfold nutrition_analysis_chain in Hc; rewrite Hc in Hevs;
    cbn [snd] in Hevs; subst w2; cbv beta iota;
    [|intros ->; right; left; now apply Hfail].
  destruct (py_getitem cr "success") as [s|e0] eqn:Hs; cbv beta iota;
    [|intros ->; right; left; now apply Hfail].
  destruct (truthy s) eqn:Ht; cbn [negb]; cbv beta iota.
  - destruct (chain_success getenv_api_key (VStr path) cr _ _ Hc
                (success_not_failure cr s Hs Ht))
      as [ip [pd [nut [an [inr [prompt
            [Hip [Hcr [Hn [Han [Hp [Hnn Hw']]]]]]]]]]]].
    inversion Hip; subst ip. subst cr.
    rewrite logged_logged in Hw'. cbn [app] in Hw'.
    apply logged_inj in Hw'. inversion Hw'; subst evs.
    cbn [py_getitem dict_get String.eqb Ascii.eqb Bool.eqb success_result].
    intros ->. right. right.
    exists name, pd, nut, an, inr, prompt. now repeat split.
  - destruct (py_get cr "error" (VStr "Analysis failed")) as [er|e0];
      cbv beta iota; [|intros ->; right; left; now apply Hfail].
    destruct (py_get cr "details" VNone) as [de|e0];
      cbv beta iota; intros ->; right; left; now apply Hfail.
Qed.

(** X6.  The upload handler answers 400 exactly to a request without an
    image part, without a file name, or with a name of another type, and
    then it saves nothing and calls no model: the world is as it was.  For
    every other request it saves the file first, under the upload folder's
    path of the time stamp and the secured name, then runs the chain once,
    and answers 200 or 500; a 200 comes only after the vision model and the
    rating model were both called. *)
Theorem upload_checks_then_saves (request : upload_request) (w : world) :
  exists resp w',
    upload request w = (Ok resp, w')
    /\ (acceptable request = false -> status resp = 400 /\ w' = w)
    /\ (acceptable request = true ->
        exists name evs,
          image request = Some name
          /\ (status resp = 200 \/ status resp = 500)
          /\ trace w'
             = (trace w
                ++ SaveFile (saved_path secure_filename request name) :: evs)%list
          /\ chain_calls evs = true
          /\ (status resp = 200 ->
              exists ip nut pd prompt,
                evs = [VisionCall ip; Normalize nut; InrScore pd;
                       RatingCall prompt])).
Proof.
  destruct (upload_outcome request w)
    as [[Hacc [message Hup]]
       | [[name [resp [evs [Hacc [Himg [Hst [Hup Hcalls]]]]]]]
         | [name [pd [nut [an [inr [prompt
              [Hacc [Himg [_ [_ [_ [_ Hup]]]]]]]]]]]]]];
    rewrite Hup; eexists; eexists; (split; [reflexivity|]).
  - split; [intros _; now split | congruence].
  - split; [congruence|]. intros _. exists name, evs.
    split; [exact Himg|]. split; [now right|]. split; [reflexivity|].
    split; [exact Hcalls|]. rewrite Hst. discriminate.
  - split; [congruence|]. intros _. exists name. eexists.
    split; [exact Himg|]. split; [now left|]. split; [reflexivity|].
    split; [reflexivity|]. intros _. eexists. eexists. eexists. eexists.
    reflexivity.
Qed.

(** X7.  The whole upload, when nothing fails.  For an accepted request
    whose file is saved, a reply of the vision model whose located text
    parses to a product with a nutrition mapping that holds the five
    mandatory values (none an int beyond a float), the normalization
    returns an analysis and the rating prompt is built; if the rating model
    then answers with a text whose located object parses to a value other
    than null, the handler answers 200 with the product, the analysis, the
    rating and the saved file's name, stores the same three with the saved
    path in the session, and has made each call once: save, vision,
    normalization, rating function, rating model. *)
Theorem upload_success (request : upload_request) (name key text : string)
  (pd : pyval) (d : dict) (w : world) :
  let path := saved_path secure_filename request name in
  image request = Some name -> name <> EmptyString ->
  allowed_file name ALLOWED_EXTENSIONS = Ok true ->
  getenv_api_key = Some key ->
  save_file path = Ok tt ->
  vision_call (VStr path) = Ok text ->
  json_loads (locate_json text) = Ok pd ->
  py_getitem pd "nutritional_info_per_100g" = Ok (VDict d) ->
  all_fit d = true ->
  (forall k, In k nutrients -> dict_get k d <> None) ->
  exists a prompt,
    calculate_nutrient_analysis float_of_str (VDict d) FSSAI_INR_BASELINE
    = Ok (VDict a)
    /\ reasoning_prompt py_str format_1f pd (VDict a) FSSAI_INR_BASELINE
       = Ok prompt
    /\ forall reply m inr,
         rating_call prompt = Ok reply ->
         re_search_braces reply = Some m -> json_loads m = Ok inr ->
         is_none inr = false ->
         upload request w
         = (Ok (Response
                  (VDict [("success", VBool true); ("product_data", pd);
                          ("analysis", VDict a); ("inr_result", inr);
                          ("image_path",
                           VStr (now request ++ "_" ++ secure_filename name))])
                  200),
            World (trace w ++ [SaveFile path; VisionCall (VStr path);
                               Normalize (VDict d); InrScore pd;
                               RatingCall prompt])
              (dict_set "current_product"
                 (VDict [("product_data", pd); ("analysis", VDict a);
                         ("inr_result", inr); ("image_path", VStr path)])
                 (session w))).
Proof.
  intros path Himg Hne Hok Hkey Hsave Hv Hj Hn Hfit Hfive.
  destruct (analysis_of_fitting_mapping float_of_str d Hfit) as [a [Ha Hent]].
  destruct (prompt_of_analysis pd d a Hn Hfive) as [prompt Hp].
  { intros n Hin. destruct (Hent n Hin) as [c [b [g [_ [_ [_ E]]]]]].
    now exists (coerced_val c), (VInt b), c, g. }
  exists a, prompt. split; [exact Ha|]. split; [exact Hp|].
  intros reply m inr Hr Hm Hinr Hnn.
  pose proof (chain_rated path key text reply pd (VDict d) (VDict a) prompt
                (logged w [SaveFile path]) Hv Hj Hn Ha Hp Hr) as Hc.
  unfold parse_inr_reply in Hc. rewrite Hm, Hinr, Hnn in Hc.
  rewrite (upload_chain_succeeds request name key _ _ _ _ w _
             Himg Hne Hok Hkey Hsave Hc).
  rewrite logged_logged. reflexivity.
Qed.

(** X8.  What the upload handler answers when the chain ends without a
    rating, for an accepted request whose file is saved and a vision model
    that answers.  A reply whose located text is no JSON gives 500 with the
    error of the extraction step and the parser's message as details, and
    no normalization or rating is run.  A rating reply without a brace pair
    gives 500 with the error of the rating step and null details.  A rating
    reply whose located text is no JSON raises in the chain; the handler
    answers 500 with the text of the exception alone. *)
Theorem upload_reports_failures (request : upload_request)
  (name key text : string) (w : world) :
  let path := saved_path secure_filename request name in
  image request = Some name -> name <> EmptyString ->
  allowed_file name ALLOWED_EXTENSIONS = Ok true ->
  getenv_api_key = Some key ->
  save_file path = Ok tt ->
  vision_call (VStr path) = Ok text ->
  (forall e,
     json_loads (locate_json text) = Raise e ->
     is_json_decode_error e = true ->
     upload request w
     = (Ok (Response
              (VDict [("error", VStr "Nutrition extraction failed");
                      ("details",
                       VStr ("Failed to parse JSON: " ++ exn_str e))])
              500),
        logged w [SaveFile path; VisionCall (VStr path)]))
  /\ (forall pd nut an prompt reply,
        json_loads (locate_json text) = Ok pd ->
        py_getitem pd "nutritional_info_per_100g" = Ok nut ->
        calculate_nutrient_analysis float_of_str nut FSSAI_INR_BASELINE
        = Ok an ->
        reasoning_prompt py_str format_1f pd an FSSAI_INR_BASELINE
        = Ok prompt ->
        rating_call prompt = Ok reply ->
        (re_search_braces reply = None ->
         upload request w
         = (Ok (Response
                  (VDict [("error", VStr "INR score calculation failed");
                          ("details", VNone)])
                  500),
            logged w [SaveFile path; VisionCall (VStr path); Normalize nut;
                      InrScore pd; RatingCall prompt]))
        /\ (forall m e,
              re_search_braces reply = Some m -> json_loads m = Raise e ->
              upload request w
              = (Ok (Response (VDict [("error", VStr (exn_str e))]) 500),
                 logged w [SaveFile path; VisionCall (VStr path);
                           Normalize nut; InrScore pd; RatingCall prompt]))).
Proof.
  intros path Himg Hne Hok Hkey Hsave Hv. split.
  - intros e Hj He.
    assert (Hc : run_chain (Some key) (VStr path) (logged w [SaveFile path])
                 = (Ok (VDict [("success", VBool false);
                               ("error", VStr "Nutrition extraction failed");
                               ("details",
                                VStr ("Failed to parse JSON: " ++ exn_str e));
                               ("image_path", VStr path)]),
                    logged (logged w [SaveFile path])
                      [VisionCall (VStr path)])).
    { unfold create_nutrition_analysis_chain. unfold bind at 1.
      rewrite (step1_run path key text _ Hv), Hj, He.
      unfold bind at 1.
      rewrite (step2_passes_failure float_of_str)
        by (exists (VBool false); split; reflexivity).
      apply (step3_passes_failure json_loads py_str format_1f rating_call).
      exists (VBool false). split; reflexivity. }
    rewrite (upload_chain_fails request name key _ (VBool false)
               (VStr "Nutrition extraction failed")
               (VStr ("Failed to parse JSON: " ++ exn_str e)) w _
               Himg Hne Hok Hkey Hsave Hc eq_refl eq_refl eq_refl eq_refl).
    now rewrite logged_logged.
  - intros pd nut an prompt reply Hj Hn Han Hp Hr.
    pose proof (chain_rated path key text reply pd nut an prompt
                  (logged w [SaveFile path]) Hv Hj Hn Han Hp Hr) as Hc.
    unfold parse_inr_reply in Hc. split.
    + intros Hnone. rewrite Hnone in Hc. cbn [is_none] in Hc.
      rewrite (upload_chain_fails request name key _ (VBool false)
                 (VStr "INR score calculation failed") VNone w _
                 Himg Hne Hok Hkey Hsave Hc eq_refl eq_refl eq_refl eq_refl).
      now rewrite logged_logged.
    + intros m e Hm He. rewrite Hm, He in Hc.
      rewrite (upload_chain_raises request name key e w _
                 Himg Hne Hok Hkey Hsave Hc).
      now rewrite logged_logged.
Qed.

(** X9.  The rating function needs every mandatory value.  When the
    nutrition mapping of the product lacks one of the five mandatory keys,
    [calculate_inr_score] raises KeyError for a key that is missing, while
    it builds its prompt, and the rating model is not called: the
    normalization reads an absent value as 0, the rating does not.  In the
    upload handler such a label, once extracted and normalized, is answered
    with 500 and the quoted name of the key. *)
Theorem rating_needs_every_value (pd an : pyval) (d : dict) (k : string) :
  py_getitem pd "nutritional_info_per_100g" = Ok (VDict d) ->
  In k nutrients -> dict_get k d = None ->
  exists k',
    In k' nutrients /\ dict_get k' d = None
    /\ (forall baseline w,
          calculate_inr_score json_loads py_str format_1f rating_call
            pd an baseline w
          = (Raise (Exn KeyError (key_repr k')), logged w [InrScore pd]))
    /\ (forall request name key text w,
          let path := saved_path secure_filename request name in
          image request = Some name -> name <> EmptyString ->
          allowed_file name ALLOWED_EXTENSIONS = Ok true ->
          getenv_api_key = Some key ->
          save_file path = Ok tt ->
          vision_call (VStr path) = Ok text ->
          json_loads (locate_json text) = Ok pd ->
          all_fit d = true ->
          upload request w
          = (Ok (Response (VDict [("error", VStr (key_repr k'))]) 500),
             logged w [SaveFile path; VisionCall (VStr path);
                       Normalize (VDict d); InrScore pd])).
Proof.
  intros Hn Hk Hnone.
  assert (Hfirst : exists k',
            In k' nutrients /\ dict_get k' d = None
            /\ forall an' baseline,
                 reasoning_prompt py_str format_1f pd an' baseline
                 = Raise (Exn KeyError (key_repr k'))).
  { assert (Hpt : exists pt,
              py_get pd "product_type" (VStr "Solid") = Ok pt).
    { destruct pd; try discriminate. eexists. reflexivity. }
    destruct Hpt as [pt Hpt].
    unfold reasoning_prompt. generalize reasoning_prompt_text. intros T.
    rewrite Hpt, Hn. cbn [rbind py_getitem].
    destruct (dict_get "energy_kcal" d) eqn:E1;
      [|exists "energy_kcal"; split; [in_list|]; split; [assumption|];
       intros; reflexivity].
    destruct (dict_get "sugars_g" d) eqn:E2;
      [|exists "sugars_g"; split; [in_list|]; split; [assumption|];
       intros; reflexivity].
    destruct (dict_get "saturated_fat_g" d) eqn:E3;
      [|exists "saturated_fat_g"; split; [in_list|]; split; [assumption|];
       intros; reflexivity].
    destruct (dict_get "sodium_mg" d) eqn:E4;
      [|exists "sodium_mg"; split; [in_list|]; split; [assumption|];
       intros; reflexivity].
    destruct (dict_get "protein_g" d) eqn:E5;
      [|exists "protein_g"; split; [in_list|]; split; [assumption|];
       intros; reflexivity].
    simpl in Hk.
    destruct Hk as [<- | [<- | [<- | [<- | [<- | []]]]]]; congruence. }
  destruct Hfirst as [k' [Hin [Hmiss Hp]]].
  exists k'. split; [exact Hin|]. split; [exact Hmiss|]. split.
  - intros baseline w.
    unfold calculate_inr_score, bind, lift, log. now rewrite Hp.
  - intros request name key text w path Himg Hne Hok Hkey Hsave Hv Hj Hfit.
    destruct (analysis_of_fitting_mapping float_of_str d Hfit)
      as [a [Ha _]].
    pose proof (chain_prompt_raises path key text pd (VDict d) (VDict a)
                  _ (logged w [SaveFile path]) Hv Hj Hn Ha
                  (Hp (VDict a) FSSAI_INR_BASELINE)) as Hc.
    rewrite (upload_chain_raises request name key _ w _
               Himg Hne Hok Hkey Hsave Hc).
    now rewrite logged_logged.
Qed.

(** ** The chat handler *)

(** One way through the handler, after the first line was printed: the
    calls are those before the printed lines, and a 200 needs the text of
    a model.  What is left is to say which model was called. *)
Ltac chat_leaf Hp Ha Hresp Hall :=
  unfold calls_of; cbn [filter is_print negb];
  match goal with
  | |- context [filter _ ?evs] =>
      fold (calls_of evs); rewrite (calls_of_prints evs Hp)
  end;
  split; [reflexivity|]; split; [exact Ha|]; split; [discriminate|];
  split;
  [ let resp := fresh "resp" in
    let H := fresh "H" in
    let Hst := fresh "Hst" in
    let Hok := fresh "Hok" in
    let H2 := fresh "H2" in
    let text := fresh "text" in
    let Htail := fresh "Htail" in
    intros resp H; destruct (Hresp resp H) as [Hst Hok];
    split; [exact Hst|]; intros H2;
    destruct (Hok H2) as [text [Htail ->]];
    first [discriminate Htail | exists text; split; [reflexivity|]]
  | let Hw := fresh "Hw" in intros Hw; eexists; now apply Hall ].

(** X10.  The chat handler on the JSON value of the request.  On a dict
    without a message, or with a falsy one, it answers 400 and does
    nothing else.  On a dict with a message it first prints the message:
    when that [print] raises, the handler raises and makes no call.
    Otherwise it calls the chat model once, or the retriever once and
    then, once at most, the answer generation; it answers 200 or 500
    unless one of its later prints raises, and then it raises what that
    [print] raised; a 200 answer carries the text that the model it called
    returned.  On a standard output that takes every line the handler always
    answers.  It leaves the session as it is.  On a value that is no dict
    (null, a list, a number, a str) the handler raises AttributeError,
    which its [try] does not cover. *)
Theorem chat_answers_unless_print_raises (data : pyval) (w : world) :
  match data with
  | VDict d =>
      let msg := message_of d in
      let line := input_line (py_str msg) in
      (truthy msg = false ->
       chat_handler data w
       = (Ok (Response (VDict [("success", VBool false);
                               ("error", VStr "No message provided")]) 400),
          w))
      /\ (truthy msg = true ->
          exists r evs,
            chat_handler data w = (r, logged w (Print line :: evs))
            /\ chat_calls (calls_of evs) = true
            /\ answered stdout_write r
            /\ (forall e, stdout_write line = Raise e ->
                          r = Raise e /\ evs = [])
            /\ (forall resp,
                  r = Ok resp ->
                  (status resp = 200 \/ status resp = 500)
                  /\ (status resp = 200 ->
                      exists text,
                        resp = chat_ok text
                        /\ ((exists prompt,
                               calls_of evs = [ChatCall prompt]
                               /\ chat_call prompt = Ok text)
                            \/ (calls_of evs = [Retrieve msg; AnswerCall msg]
                                /\ exists docs,
                                     retriever msg = Ok docs
                                     /\ answer_call docs msg = Ok text))))
            /\ ((forall l, stdout_write l = Ok tt) -> exists resp, r = Ok resp))
  | _ =>
      exists e,
        chat_handler data w = (Raise e, w) /\ exn_cls e = AttributeError
  end.
Proof.
  destruct data as [| b | z | f | s | l | d];
    try (eexists; split; reflexivity).
  cbv zeta. split.
  - intros Ht. unfold chat, bind, lift, ret. cbn [py_get].
    fold (message_of d). now rewrite Ht.
  - intros Ht.
    rewrite (chat_run py_str format_1f chat_call retriever answer_call
               stdout_write (VDict d) (message_of d) w eq_refl Ht).
    cbv zeta. set (line := input_line (py_str (message_of d))).
    destruct (stdout_write line) as [u|e] eqn:Hline.
    + destruct (truthy (stored_product w)).
      * destruct (product_context py_str format_1f (read_product w)
                    (message_of d)) as [prompt|e].
        -- destruct (chat_ends stdout_write (chat_call prompt)
                       (logged w [Print line; ChatCall prompt]))
             as [r [evs [Hr [Hp [Ha [Hresp Hall]]]]]].
           exists r, (ChatCall prompt :: evs). rewrite Hr, logged_logged.
           split; [reflexivity|]. chat_leaf Hp Ha Hresp Hall.
           left. exists prompt. split; [reflexivity | assumption].
        -- destruct (chat_ends stdout_write (Raise e) (logged w [Print line]))
             as [r [evs [Hr [Hp [Ha [Hresp Hall]]]]]].
           exists r, evs. rewrite Hr, logged_logged.
           split; [reflexivity|]. chat_leaf Hp Ha Hresp Hall.
      * destruct (retriever (message_of d)) as [docs|e].
        -- destruct (chat_ends stdout_write (answer_call docs (message_of d))
                       (logged w [Print line; Retrieve (message_of d);
                                  AnswerCall (message_of d)]))
             as [r [evs [Hr [Hp [Ha [Hresp Hall]]]]]].
           exists r, (Retrieve (message_of d) :: AnswerCall (message_of d)
                      :: evs).
           rewrite Hr, logged_logged.
           split; [reflexivity|]. chat_leaf Hp Ha Hresp Hall.
           right. split; [reflexivity|]. exists docs.
           split; [reflexivity | assumption].
        -- destruct (chat_ends stdout_write (Raise e)
                       (logged w [Print line; Retrieve (message_of d)]))
             as [r [evs [Hr [Hp [Ha [Hresp Hall]]]]]].
           exists r, (Retrieve (message_of d) :: evs).
           rewrite Hr, logged_logged.
           split; [reflexivity|]. chat_leaf Hp Ha Hresp Hall.
    + exists (Raise e), []. split; [reflexivity|]. split; [reflexivity|].
      split; [right; now exists line, e|].
      split; [intros e' H; inversion H; now split|].
      split; [discriminate|].
      intros Hw. rewrite Hw in Hline. discriminate Hline.
Qed.

(** A rating prompt that was built read the five mandatory values from
    the nutrition mapping of the product, which is a dict. *)
Lemma prompt_needs_values (pd an : pyval) (baseline : dict) (prompt : string) :
  reasoning_prompt py_str format_1f pd an baseline = Ok prompt ->
  exists d nut,
    pd = VDict d
    /\ py_getitem pd "nutritional_info_per_100g" = Ok nut
    /\ forall k, In k nutrients -> exists x, py_getitem nut k = Ok x.
Proof.
  unfold reasoning_prompt. generalize reasoning_prompt_text. intros T H.
  destruct (py_get pd "product_type" (VStr "Solid")) as [pt|] eqn:Hpt;
    [|discriminate].
  cbn [rbind] in H.
  destruct (py_getitem pd "nutritional_info_per_100g") as [nut|] eqn:Hn;
    [|discriminate].
  cbn [rbind] in H.
  destruct (py_getitem nut "energy_kcal") as [v1|] eqn:E1; [|discriminate].
  cbn [rbind] in H.
  destruct (py_getitem nut "sugars_g") as [v2|] eqn:E2; [|discriminate].
  cbn [rbind] in H.
  destruct (py_getitem nut "saturated_fat_g") as [v3|] eqn:E3;
    [|discriminate].
  cbn [rbind] in H.
  destruct (py_getitem nut "sodium_mg") as [v4|] eqn:E4; [|discriminate].
  cbn [rbind] in H.
  destruct (py_getitem nut "protein_g") as [v5|] eqn:E5; [|discriminate].
  destruct pd as [| | | | | | d]; try discriminate Hpt.
  exists d, nut. split; [reflexivity|]. split; [reflexivity|].
  intros k Hk. simpl in Hk.
  destruct Hk as [<- | [<- | [<- | [<- | [<- | []]]]]]; eexists; eassumption.
Qed.

(** The chat prompt over a product whose product data is a dict with the
    five mandatory values, given the fields of its rating. *)
Lemma product_context_run (cp pd inr nut msg : pyval) (d : dict)
  (score grade : pyval) (score_text wt ct : string) :
  py_getitem cp "product_data" = Ok pd ->
  py_getitem cp "inr_result" = Ok inr ->
  pd = VDict d ->
  py_getitem pd "nutritional_info_per_100g" = Ok nut ->
  (forall k, In k nutrients -> exists x, py_getitem nut k = Ok x) ->
  py_getitem inr "inr_score" = Ok score ->
  py_format_1f format_1f score = Ok score_text ->
  py_getitem inr "grade" = Ok grade ->
  joined inr "health_warnings" = Ok wt ->
  joined inr "positive_claims" = Ok ct ->
  exists prompt, product_context py_str format_1f cp msg = Ok prompt.
Proof.
  intros Hcpd Hcinr Hpd Hn Hval Hs Hst Hg Hw Hc.
  destruct (Hval "energy_kcal") as [v1 V1]; [in_list|].
  destruct (Hval "sugars_g") as [v2 V2]; [in_list|].
  destruct (Hval "saturated_fat_g") as [v3 V3]; [in_list|].
  destruct (Hval "sodium_mg") as [v4 V4]; [in_list|].
  destruct (Hval "protein_g") as [v5 V5]; [in_list|].
  unfold joined in Hw, Hc.
  unfold product_context. generalize product_context_text. intros T.
  rewrite Hcpd, Hcinr. cbn [rbind].
  rewrite Hn. cbn [rbind]. rewrite V1, V2, V3, V4, V5, Hs, Hg.
  cbn [rbind]. rewrite Hst, Hw, Hc. subst pd. cbn [py_get rbind].
  eexists. reflexivity.
Qed.

(** X11.  What a successful upload stores, the chat reads.  After an upload
    answered with 200 the session holds the product, its analysis, its
    rating and the path of the image; the chat request that follows reads
    them from the cookie of the session, each dict with its keys sorted.
    Such a request, with a message that is printed, is answered from the
    stored product and never by retrieval.  The product fields of the
    chat prompt are always there, because the rating prompt had read them;
    the chat prompt is built, and the chat model called exactly once,
    whenever the rating that is read has an inr_score that is a number, a
    grade, and warnings and claims that join. *)
Theorem chat_after_upload (request : upload_request) (resp : response)
  (w w1 : world) :
  upload request w = (Ok resp, w1) -> status resp = 200 ->
  exists pd an inr path,
    stored_product w1
    = VDict [("product_data", pd); ("analysis", an); ("inr_result", inr);
             ("image_path", VStr path)]
    /\ read_product w1
       = VDict [("analysis", cookie_value an); ("image_path", VStr path);
                ("inr_result", cookie_value inr);
                ("product_data", cookie_value pd)]
    /\ forall d,
         truthy (message_of d) = true ->
         let line := input_line (py_str (message_of d)) in
         stdout_write line = Ok tt ->
         (exists r evs,
            chat_handler (VDict d) w1 = (r, logged w1 (Print line :: evs))
            /\ count_events is_retrieve evs = 0%nat
            /\ answered stdout_write r)
         /\ (forall score score_text grade wt ct,
               py_getitem (cookie_value inr) "inr_score" = Ok score ->
               py_format_1f format_1f score = Ok score_text ->
               py_getitem (cookie_value inr) "grade" = Ok grade ->
               joined (cookie_value inr) "health_warnings" = Ok wt ->
               joined (cookie_value inr) "positive_claims" = Ok ct ->
               exists prompt r evs,
                 product_context py_str format_1f (read_product w1)
                   (message_of d) = Ok prompt
                 /\ chat_handler (VDict d) w1
                    = (r, logged w1 (Print line :: ChatCall prompt :: evs))
                 /\ forallb is_print evs = true
                 /\ answered stdout_write r
                 /\ ((forall l, stdout_write l = Ok tt) ->
                     r = Ok (match chat_call prompt with
                             | Ok text => chat_ok text
                             | Raise e => chat_error e
                             end))).
Proof.
  intros Hup H200.
  destruct (upload_outcome request w)
    as [[Hacc [message Hup']]
       | [[name [resp' [evs [Hacc [Himg [Hst [Hup' Hcalls]]]]]]]
         | [name [pd [nut [an [inr [prompt
              [Hacc [Himg [Hn [Han [Hp [Hnn Hup']]]]]]]]]]]]]];
    rewrite Hup' in Hup; inversion Hup; subst resp; try discriminate H200;
    [simpl in H200; congruence|].
  set (path := saved_path secure_filename request name) in *.
  match goal with H : _ = w1 |- _ => rename H into Hw1 end.
  rewrite Hw1.
  exists pd, an, inr, path.
  assert (Hstored : stored_product w1
                    = VDict [("product_data", pd); ("analysis", an);
                             ("inr_result", inr); ("image_path", VStr path)]).
  { rewrite <- Hw1. unfold stored_product. cbn [session].
    now rewrite dict_get_set_same. }
  assert (Hread : read_product w1
                  = VDict [("analysis", cookie_value an);
                           ("image_path", VStr path);
                           ("inr_result", cookie_value inr);
                           ("product_data", cookie_value pd)]).
  { unfold read_product. rewrite Hstored. reflexivity. }
  split; [exact Hstored|]. split; [exact Hread|].
  intros d Ht line Hline.
  pose proof (chat_run py_str format_1f chat_call retriever answer_call
                stdout_write (VDict d) (message_of d) w1 eq_refl Ht) as Hrun.
  cbv zeta in Hrun. fold line in Hrun. rewrite Hline, Hstored in Hrun.
  cbn [truthy] in Hrun. split.
  - rewrite Hrun.
    destruct (product_context py_str format_1f (read_product w1)
                (message_of d)) as [prompt'|e].
    + destruct (chat_ends stdout_write (chat_call prompt')
                  (logged w1 [Print line; ChatCall prompt']))
        as [r [evs [Hr [Hpr [Ha _]]]]].
      exists r, (ChatCall prompt' :: evs). rewrite Hr, logged_logged.
      split; [reflexivity|]. count_calls Hpr. now split.
    + destruct (chat_ends stdout_write (Raise e) (logged w1 [Print line]))
        as [r [evs [Hr [Hpr [Ha _]]]]].
      exists r, evs. rewrite Hr, logged_logged.
      split; [reflexivity|]. split; [|exact Ha].
      apply count_prints; [now intros [] | exact Hpr].
  - intros score score_text grade wt ct Hs Hst Hg Hw Hc.
    destruct (prompt_needs_values pd an FSSAI_INR_BASELINE prompt Hp)
      as [dd [nut' [Hpd [Hn' Hval]]]].
    assert (Hpc : exists prompt',
               product_context py_str format_1f (read_product w1)
                 (message_of d) = Ok prompt').
    { apply (product_context_run (read_product w1) (cookie_value pd)
               (cookie_value inr) (cookie_value nut') (message_of d)
               (cookie_entries dd) score grade score_text wt ct);
        try assumption.
      - now rewrite Hread.
      - now rewrite Hread.
      - subst pd. apply cookie_value_dict.
      - rewrite py_getitem_cookie. now rewrite Hn'.
      - intros k Hk. destruct (Hval k Hk) as [x Hx].
        exists (cookie_value x). rewrite py_getitem_cookie. now rewrite Hx. }
    destruct Hpc as [prompt' Hpc]. exists prompt'.
    rewrite Hrun, Hpc.
    destruct (chat_ends stdout_write (chat_call prompt')
                (logged w1 [Print line; ChatCall prompt']))
      as [r [evs [Hr [Hpr [Ha [_ Hall]]]]]].
    exists r, evs. rewrite Hr, logged_logged.
    split; [reflexivity|]. split; [reflexivity|]. split; [exact Hpr|].
    split; [exact Ha | exact Hall].
Qed.

(** *** The session *)

Lemma dict_get_absent (k : string) (d : dict) :
  ~ In k (map fst d) -> dict_get k d = None.
Proof.
  induction d as [|[k1 v1] r IH]; simpl; intros Hk; [reflexivity|].
  destruct (String.eqb_spec k k1) as [->|Hne].
  - exfalso. apply Hk. now left.
  - apply IH. intros Hin. apply Hk. now right.
Qed.

Lemma dict_get_remove_same (k : string) (d : dict) :
  NoDup (map fst d) -> dict_get k (dict_remove k d) = None.
Proof.
  induction d as [|[k' v'] r IH]; simpl; intros Hnd; [reflexivity|].
  inversion Hnd as [|x l Hnotin Hnd']; subst.
  destruct (String.eqb_spec k k') as [->|Hne].
  - now apply dict_get_absent.
  - simpl. destruct (String.eqb_spec k k'); [contradiction|]. now apply IH.
Qed.

Lemma dict_get_remove_other (k k' : string) (d : dict) :
  k <> k' -> dict_get k (dict_remove k' d) = dict_get k d.
Proof.
  intros Hne. induction d as [|[k1 v1] r IH]; simpl; [reflexivity|].
  destruct (String.eqb_spec k' k1) as [->|Hk]; simpl.
  - destruct (String.eqb_spec k k1); [contradiction | reflexivity].
  - destruct (String.eqb_spec k k1); [reflexivity | exact IH].
Qed.

Lemma dict_remove_absent (k : string) (d : dict) :
  dict_get k d = None -> dict_remove k d = d.
Proof.
  induction d as [|[k1 v1] r IH]; simpl; [reflexivity|].
  destruct (String.eqb k k1); [discriminate|].
  intros H. now rewrite IH.
Qed.

(** X12.  Clearing the session forgets the product and nothing else.  On a
    session whose keys are distinct, as those of a dict are,
    [clear_session] answers 200, makes no call, leaves every other entry
    of the session, and leaves no current product; clearing again changes
    nothing; and the next chat request with a message that is printed
    goes to retrieval: it queries the retriever once, right after the
    line it prints, and never calls the chat model. *)
Theorem clear_session_forgets (w : world) :
  NoDup (map fst (session w)) ->
  exists w1,
    clear_session w = (Ok (Response (VDict [("success", VBool true)]) 200), w1)
    /\ trace w1 = trace w
    /\ stored_product w1 = VNone
    /\ (forall k, k <> "current_product" ->
                  dict_get k (session w1) = dict_get k (session w))
    /\ clear_session w1
       = (Ok (Response (VDict [("success", VBool true)]) 200), w1)
    /\ forall d,
         truthy (message_of d) = true ->
         let line := input_line (py_str (message_of d)) in
         stdout_write line = Ok tt ->
         exists r evs,
           chat_handler (VDict d) w1
           = (r, logged w1 (Print line :: Retrieve (message_of d) :: evs))
           /\ count_events is_retrieve evs = 0%nat
           /\ count_events is_chat_call evs = 0%nat
           /\ answered stdout_write r.
Proof.
  intros Hnd. eexists. split; [reflexivity|].
  cbn [trace session]. split; [reflexivity|].
  assert (Hnone : dict_get "current_product"
                    (dict_remove "current_product" (session w)) = None)
    by now apply dict_get_remove_same.
  assert (Hstored : stored_product
                      {| trace := trace w;
                         session := dict_remove "current_product" (session w) |}
                    = VNone).
  { unfold stored_product. cbn [session]. now rewrite Hnone. }
  split; [exact Hstored|].
  split; [intros k Hk; now apply dict_get_remove_other|].
  split.
  - unfold clear_session, bind, session_pop, ret. cbn [trace session].
    now rewrite (dict_remove_absent _ _ Hnone).
  - intros d Ht Hline.
    set (line := input_line (py_str (message_of d))) in *.
    rewrite (chat_run py_str format_1f chat_call retriever answer_call
               stdout_write (VDict d) (message_of d) _ eq_refl Ht).
    cbv zeta. fold line. rewrite Hline, Hstored. cbn [truthy].
    destruct (retriever (message_of d)) as [docs|e].
    + destruct (chat_ends stdout_write (answer_call docs (message_of d))
                  (logged {| trace := trace w;
                             session := dict_remove "current_product"
                                          (session w) |}
                     [Print line; Retrieve (message_of d);
                      AnswerCall (message_of d)]))
        as [r [evs [Hr [Hp [Ha _]]]]].
      exists r, (AnswerCall (message_of d) :: evs).
      rewrite Hr, logged_logged. split; [reflexivity|].
      count_calls Hp. now repeat split.
    + destruct (chat_ends stdout_write (Raise e)
                  (logged {| trace := trace w;
                             session := dict_remove "current_product"
                                          (session w) |}
                     [Print line; Retrieve (message_of d)]))
        as [r [evs [Hr [Hp [Ha _]]]]].
      exists r, evs. rewrite Hr, logged_logged. split; [reflexivity|].
      split; [apply count_prints; [now intros [] | exact Hp]|].
      split; [apply count_prints; [now intros [] | exact Hp] | exact Ha].
Qed.
(** ** What the extraction takes *)

(** X14.  What the chain takes.  Invoked with a dict that holds the path
    under image_path, the chain does what it does when invoked with the
    path itself.  Of a dict it reads the entry image_path and nothing
    else, and an entry that is missing is read as None: two dicts with the
    same entry, or one without the entry and one that holds None, make the
    same run.  A value that is neither a str nor a dict (a list, a number,
    None) makes the extraction step raise AttributeError before anything
    is done. *)
Theorem chain_takes_path_or_dict (key : option string) (w : world) :
  (forall d p,
     dict_get "image_path" d = Some (VStr p) ->
     run_chain key (VDict d) w = run_chain key (VStr p) w)
  /\ (forall d d',
        py_get (VDict d) "image_path" VNone
        = py_get (VDict d') "image_path" VNone ->
        run_chain key (VDict d) w = run_chain key (VDict d') w)
  /\ (forall x,
        match x with VStr _ | VDict _ => False | _ => True end ->
        exists e,
          run_chain key x w = (Raise e, w) /\ exn_cls e = AttributeError).
Proof.
  split; [|split].
  - intros d p Hd. unfold create_nutrition_analysis_chain,
      extract_nutrition_step. unfold bind at 1 2. unfold bind at 2 3.
      unfold lift at 1. unfold lift at 3. cbn [py_get]. rewrite Hd.
    reflexivity.
  - intros d d' Hd. unfold create_nutrition_analysis_chain,
      extract_nutrition_step. unfold bind at 1 2. unfold bind at 2 3.
      unfold lift at 1. unfold lift at 3. now rewrite Hd.
  - intros x Hx.
    destruct x; try contradiction; eexists; split; reflexivity.
Qed.
End MorePipeline.

(** ** The text handed to the JSON parser *)

Lemma starts_with_app (p s : string) : PyStr.starts_with p (p ++ s) = true.
Proof.
  induction p as [|c p IH]; simpl; [reflexivity|].
  now rewrite Ascii.eqb_refl.
Qed.

Lemma first_index_none_cons (c d : ascii) (r : string) :
  PyStr.first_index c (String d r) = None ->
  Ascii.eqb d c = false /\ PyStr.first_index c r = None.
Proof.
  simpl. destruct (Ascii.eqb d c); [discriminate|].
  destruct (PyStr.first_index c r); [discriminate | now split].
Qed.

Lemma index_of_cons (sub : string) (d : ascii) (r : string) :
  PyStr.index_of sub (String d r)
  = if PyStr.starts_with sub (String d r) then Some 0%nat
    else option_map S (PyStr.index_of sub r).
Proof. reflexivity. Qed.

(** A text that starts with [c] is found right after a prefix without
    [c]. *)
Lemma index_of_after (c : ascii) (sub pre rest : string) :
  PyStr.first_index c pre = None ->
  PyStr.index_of (String c sub) (pre ++ String c sub ++ rest)
  = Some (String.length pre).
Proof.
  induction pre as [|d pre IH]; intros Hpre.
  - change (EmptyString ++ String c sub ++ rest)
      with (String c (sub ++ rest)).
    rewrite index_of_cons. cbn [PyStr.starts_with].
    now rewrite Ascii.eqb_refl, starts_with_app.
  - apply first_index_none_cons in Hpre as [Hd Hpre].
    change (String d pre ++ String c sub ++ rest)
      with (String d (pre ++ String c sub ++ rest)).
    rewrite index_of_cons. cbn [PyStr.starts_with].
    rewrite Ascii.eqb_sym, Hd. cbn [andb]. now rewrite (IH Hpre).
Qed.

(** and nowhere in a text without [c]. *)
Lemma index_of_absent (c : ascii) (sub s : string) :
  PyStr.first_index c s = None -> PyStr.index_of (String c sub) s = None.
Proof.
  induction s as [|d s IH]; intros Hs; [reflexivity|].
  apply first_index_none_cons in Hs as [Hd Hs].
  rewrite index_of_cons. cbn [PyStr.starts_with].
  rewrite Ascii.eqb_sym, Hd. cbn [andb]. now rewrite (IH Hs).
Qed.

Lemma drop_length_app (a b : string) :
  PyStr.drop (String.length a) (a ++ b) = b.
Proof. induction a as [|c a IH]; [now destruct b | exact IH]. Qed.

Lemma take_length_app (a b : string) :
  PyStr.take (String.length a) (a ++ b) = a.
Proof.
  induction a as [|c a IH]; [now destruct b|].
  simpl. now rewrite IH.
Qed.

Lemma length_append (a b : string) :
  String.length (a ++ b) = (String.length a + String.length b)%nat.
Proof. induction a as [|c a IH]; simpl; [reflexivity | now rewrite IH]. Qed.

(** [text.find(fence)] and [text.find("```", start)] around a fenced
    body. *)
Lemma find_fence (fence_text pre rest : string) :
  PyStr.first_index "`" pre = None ->
  PyStr.find (String "`" fence_text) (pre ++ String "`" fence_text ++ rest) 0
  = Z.of_nat (String.length pre).
Proof.
  intros Hpre. unfold PyStr.find.
  destruct (Z.of_nat _ <? 0) eqn:E; [apply Z.ltb_lt in E; lia|].
  change (Z.to_nat 0) with 0%nat. cbn [PyStr.drop].
  now rewrite (index_of_after "`" fence_text pre rest Hpre).
Qed.

Lemma find_after (sub pre opening s : string) (start : Z) :
  start = Z.of_nat (String.length pre + String.length opening) ->
  PyStr.find sub (pre ++ opening ++ s) start
  = match PyStr.index_of sub s with
    | Some i => start + Z.of_nat i
    | None => -1
    end.
Proof.
  intros ->. unfold PyStr.find.
  destruct (Z.of_nat (String.length (pre ++ opening ++ s)) <? _) eqn:E.
  { apply Z.ltb_lt in E. rewrite !length_append in E. lia. }
  rewrite Nat2Z.id, <- append_assoc.
  rewrite <- length_append.
  now rewrite drop_length_app.
Qed.

Lemma slice_between (pre opening s : string) (n : nat) :
  (n <= String.length s)%nat ->
  PyStr.slice (pre ++ opening ++ s)
    (Z.of_nat (String.length pre + String.length opening))
    (Z.of_nat (String.length pre + String.length opening) + Z.of_nat n)
  = PyStr.take n s.
Proof.
  intros Hn. unfold PyStr.slice.
  set (a := Z.of_nat (String.length pre + String.length opening)).
  set (len := Z.of_nat (String.length (pre ++ opening ++ s))).
  assert (Hlen : len = a + Z.of_nat (String.length s)).
  { unfold len, a. rewrite !length_append. lia. }
  assert (Ha : 0 <= a) by (unfold a; lia).
  destruct (a <? 0) eqn:E1; [apply Z.ltb_lt in E1; lia|].
  destruct (a + Z.of_nat n <? 0) eqn:E2; [apply Z.ltb_lt in E2; lia|].
  rewrite (Z.min_l a len) by lia.
  rewrite (Z.min_l (a + Z.of_nat n) len) by lia.
  destruct (a + Z.of_nat n <=? a) eqn:E3.
  - apply Z.leb_le in E3. assert (n = 0%nat) by lia. subst n.
    now destruct s.
  - replace (a + Z.of_nat n - a) with (Z.of_nat n) by lia.
    unfold a. rewrite !Nat2Z.id, <- append_assoc, <- length_append.
    now rewrite drop_length_app.
Qed.

Lemma slice_to_last (pre opening s : string) :
  opening <> EmptyString ->
  PyStr.slice (pre ++ opening ++ s)
    (Z.of_nat (String.length pre + String.length opening)) (-1)
  = PyStr.take (String.length s - 1) s.
Proof.
  intros Hop. unfold PyStr.slice.
  set (a := Z.of_nat (String.length pre + String.length opening)).
  set (len := Z.of_nat (String.length (pre ++ opening ++ s))).
  assert (Hlen : len = a + Z.of_nat (String.length s)).
  { unfold len, a. rewrite !length_append. lia. }
  assert (Ha : 0 < a).
  { unfold a. destruct opening; [contradiction | simpl; lia]. }
  destruct (a <? 0) eqn:E1; [apply Z.ltb_lt in E1; lia|].
  change (-1 <? 0) with true. cbv iota.
  rewrite (Z.min_l a len) by lia.
  rewrite (Z.max_r 0 (-1 + len)) by lia.
  destruct (-1 + len <=? a) eqn:E3.
  - apply Z.leb_le in E3.
    assert (Hs : (String.length s - 1 = 0)%nat) by lia.
    rewrite Hs. now destruct s.
  - apply Z.leb_gt in E3.
    replace (Z.to_nat (-1 + len - a)) with (String.length s - 1)%nat by lia.
    unfold a. rewrite !Nat2Z.id, <- append_assoc, <- length_append.
    now rewrite drop_length_app.
Qed.

Lemma locate_after_fence (pre opening s : string) (n : nat) :
  PyStr.first_index "`" pre = None ->
  (n <= String.length s)%nat ->
  PyStr.find "```" (pre ++ String "`" opening ++ s)
    (Z.of_nat (String.length pre)
     + Z.of_nat (String.length (String "`" opening)))
  = Z.of_nat (String.length pre)
    + Z.of_nat (String.length (String "`" opening)) + Z.of_nat n ->
  PyStr.strip
    (PyStr.slice (pre ++ String "`" opening ++ s)
       (PyStr.find (String "`" opening) (pre ++ String "`" opening ++ s) 0
        + Z.of_nat (String.length (String "`" opening)))
       (PyStr.find "```" (pre ++ String "`" opening ++ s)
          (PyStr.find (String "`" opening) (pre ++ String "`" opening ++ s) 0
           + Z.of_nat (String.length (String "`" opening)))))
  = PyStr.strip (PyStr.take n s).
Proof.
  intros Hpre Hn Hend.
  rewrite (find_fence opening pre s Hpre), Hend.
  rewrite <- Nat2Z.inj_add.
  now rewrite (slice_between pre (String "`" opening) s n Hn).
Qed.

(** X15.  A reply of the vision model with one fenced block: text without
    a backtick, the opening fence, a body without a backtick, the closing
    fence, and anything after it.  The text handed to the JSON parser is
    the body without the white space around it, for a fence marked json,
    and for a plain fence when no json fence follows. *)
Theorem locate_json_fenced (pre body post : string) :
  PyStr.first_index "`" pre = None ->
  PyStr.first_index "`" body = None ->
  locate_json (pre ++ "```json" ++ body ++ "```" ++ post) = PyStr.strip body
  /\ (PyStr.contains "```json" (pre ++ "```" ++ body ++ "```" ++ post) = false ->
      locate_json (pre ++ "```" ++ body ++ "```" ++ post) = PyStr.strip body).
Proof.
  intros Hpre Hbody.
  assert (Hclose : forall opening,
            PyStr.find "```" (pre ++ String "`" opening ++ body ++ "```" ++ post)
              (Z.of_nat (String.length pre)
               + Z.of_nat (String.length (String "`" opening)))
            = Z.of_nat (String.length pre)
              + Z.of_nat (String.length (String "`" opening))
              + Z.of_nat (String.length body)).
  { intros opening.
    rewrite (find_after "```" pre (String "`" opening) _ _)
      by (now rewrite Nat2Z.inj_add).
    now rewrite (index_of_after "`" "``" body post Hbody). }
  assert (Hlen : (String.length body
                  <= String.length (body ++ "```" ++ post))%nat)
    by (rewrite length_append; lia).
  split.
  - unfold locate_json, fence_json, fence, PyStr.contains.
    rewrite (index_of_after "`" "``json" pre _ Hpre).
    change 7 with (Z.of_nat (String.length "```json")).
    rewrite (locate_after_fence pre "``json" _ (String.length body)
               Hpre Hlen (Hclose "``json")).
    now rewrite take_length_app.
  - intros Hnj. unfold locate_json. unfold fence_json at 1. rewrite Hnj.
    unfold fence, PyStr.contains.
    rewrite (index_of_after "`" "``" pre _ Hpre).
    change 3 with (Z.of_nat (String.length "```")).
    rewrite (locate_after_fence pre "``" _ (String.length body)
               Hpre Hlen (Hclose "``")).
    now rewrite take_length_app.
Qed.

(** X16.  The edge cases of the same search.  A reply without any fence
    is handed to the parser whole, white space included.  A reply whose
    fence is never closed loses its last character: the search for the
    closing fence answers -1, and the slice up to -1 stops before the last
    character, so that a JSON object that ends the reply is handed on
    without its closing brace. *)
Theorem locate_json_unfenced (pre body : string) :
  PyStr.first_index "`" pre = None ->
  PyStr.first_index "`" body = None ->
  locate_json (pre ++ body) = pre ++ body
  /\ locate_json (pre ++ "```json" ++ body)
     = PyStr.strip (PyStr.take (String.length body - 1) body)
  /\ (PyStr.contains "```json" (pre ++ "```" ++ body) = false ->
      locate_json (pre ++ "```" ++ body)
      = PyStr.strip (PyStr.take (String.length body - 1) body)).
Proof.
  intros Hpre Hbody.
  assert (Hopen : forall opening,
            PyStr.find "```" (pre ++ String "`" opening ++ body)
              (Z.of_nat (String.length pre)
               + Z.of_nat (String.length (String "`" opening)))
            = -1).
  { intros opening.
    rewrite (find_after "```" pre (String "`" opening) _ _)
      by (now rewrite Nat2Z.inj_add).
    now rewrite (index_of_absent "`" "``" body Hbody). }
  assert (Hcut : forall opening,
            PyStr.strip
              (PyStr.slice (pre ++ String "`" opening ++ body)
                 (PyStr.find (String "`" opening)
                    (pre ++ String "`" opening ++ body) 0
                  + Z.of_nat (String.length (String "`" opening)))
                 (PyStr.find "```" (pre ++ String "`" opening ++ body)
                    (PyStr.find (String "`" opening)
                       (pre ++ String "`" opening ++ body) 0
                     + Z.of_nat (String.length (String "`" opening)))))
            = PyStr.strip (PyStr.take (String.length body - 1) body)).
  { intros opening.
    rewrite (find_fence opening pre body Hpre), (Hopen opening).
    rewrite <- Nat2Z.inj_add.
    now rewrite (slice_to_last pre (String "`" opening) body)
      by discriminate. }
  split; [|split].
  - assert (Hnone : PyStr.first_index "`" (pre ++ body) = None).
    { clear Hopen Hcut. induction pre as [|c pre IH]; [exact Hbody|].
      apply first_index_none_cons in Hpre as [Hc Hpre].
      change (String c pre ++ body) with (String c (pre ++ body)).
      cbn [PyStr.first_index]. rewrite Hc. now rewrite (IH Hpre). }
    unfold locate_json, fence_json, fence, PyStr.contains.
    now rewrite !(index_of_absent "`" _ _ Hnone).
  - unfold locate_json, fence_json, fence, PyStr.contains.
    rewrite (index_of_after "`" "``json" pre _ Hpre).
    change 7 with (Z.of_nat (String.length "```json")).
    exact (Hcut "``json").
  - intros Hnj. unfold locate_json. unfold fence_json at 1. rewrite Hnj.
    unfold fence, PyStr.contains.
    rewrite (index_of_after "`" "``" pre _ Hpre).
    change 3 with (Z.of_nat (String.length "```")).
    exact (Hcut "``").
Qed.

(** ** The rating result *)

Ltac split_in H :=
  match type of H with
  | context [match ?x with _ => _ end] =>
      lazymatch x with
      | context [match _ with _ => _ end] => fail
      | _ => destruct x eqn:?
      end
  end.

(** What the loop of an object returns is a dict. *)
Lemma object_loop_dict (fuel : nat) :
  forall s pos acc v rest p,
    Json.object_loop fuel s pos acc = inl (v, rest, p) ->
    exists d, v = VDict d.
Proof.
  induction fuel as [|fuel IH]; intros s pos acc v rest p H;
    [discriminate|].
  cbn [Json.object_loop] in H.
  repeat (split_in H; try discriminate H).
  all: first [ inversion H; eexists; reflexivity
             | eapply IH; eassumption ].
Qed.

(** [json.loads] of a text that opens with a brace returns a dict, when it
    returns. *)
Lemma loads_brace_dict (s : string) (v : pyval) :
  Json.loads (String "{" s) = Ok v -> exists d, v = VDict d.
Proof.
  unfold Json.loads. cbn [Json.skip_ws Json.is_ws]. intros H.
  change (Json.is_ws "{") with false in H. cbv iota in H.
  destruct (Json.scan_once (S (2 * String.length (String "{" s)))
              (String "{" s) 0) as [[[x rest] p]|f] eqn:Hscan.
  - assert (Hx : exists d, x = VDict d).
    { revert Hscan. cbn [Json.scan_once]. 
      change (Ascii.eqb "{" (ascii_of_nat 34)) with false.
      change (Ascii.eqb "{" "{") with true. cbv iota.
      destruct (Json.skip_ws s 1) as [r1 p1].
      intros Hscan.
      repeat (split_in Hscan; try discriminate Hscan).
      all: first [ inversion Hscan; eexists; reflexivity
                 | eapply object_loop_dict; eassumption ]. }
    destruct (Json.skip_ws rest p) as [[|c r] p']; [|discriminate].
    inversion H; subst. exact Hx.
  - destruct f; discriminate.
Qed.

Section RatingResult.

Variable json_loads : string -> result pyval.
Variable py_str : pyval -> string.
Variable format_1f : float -> string.
Variable rating_call : string -> result string.

(** X17.  The text located in the reply of the rating model opens with a
    brace, and [json.loads] reads a text that opens with a brace as an
    object or fails.  So the rating function returns None or a dict, never
    a list, a number or a str; what the chain passes on as inr_result,
    unverified as it is, is a dict. *)
Theorem rating_result_is_object (pd an : pyval) (baseline : dict) (v : pyval)
  (w w' : world) :
  (forall s x, json_loads (String "{" s) = Ok x -> exists d, x = VDict d) ->
  calculate_inr_score json_loads py_str format_1f rating_call pd an baseline w
  = (Ok v, w') ->
  v = VNone \/ exists d, v = VDict d.
Proof.
  intros Hjson. unfold calculate_inr_score, bind, lift, log.
  destruct (reasoning_prompt py_str format_1f pd an baseline) as [prompt|];
    [|discriminate].
  destruct (rating_call prompt) as [reply|]; [|discriminate].
  unfold parse_inr_reply.
  destruct (re_search_braces reply) as [m|] eqn:Hm.
  - destruct (re_search_braces_some reply m Hm)
      as [pre [body [post [_ [Hbody _]]]]].
    subst m. intros H. inversion H as [[Hv Hw]]. right.
    exact (Hjson (body ++ "}") v Hv).
  - intros H. inversion H. now left.
Qed.

End RatingResult.

(** ** The tools of helper.py *)

(** *** filter_to_minimal_docs *)

Lemma fold_append_map {A B : Type} (f : A -> B) (l : list A) (acc : list B) :
  fold_left (fun acc x => (acc ++ [f x])%list) l acc = (acc ++ map f l)%list.
Proof.
  revert acc. induction l as [|x l IH]; intros acc; simpl.
  - now rewrite app_nil_r.
  - rewrite IH, <- app_assoc. reflexivity.
Qed.

(** X18.  The document filter keeps the documents, their order and their
    text; it leaves each one a metadata dict with the single key source,
    which holds the source of the document or None when the document had
    none; every other metadata entry is dropped.  Filtering twice is
    filtering once. *)
Theorem minimal_docs_keep_text_and_source (docs : list Document) :
  map page_content (filter_to_minimal_docs docs) = map page_content docs
  /\ map metadata (filter_to_minimal_docs docs)
     = map (fun doc =>
              [("source", match dict_get "source" (metadata doc) with
                          | Some src => src
                          | None => VNone
                          end)]) docs
  /\ filter_to_minimal_docs (filter_to_minimal_docs docs)
     = filter_to_minimal_docs docs.
Proof.
  unfold filter_to_minimal_docs. rewrite !fold_append_map. cbn [app].
  rewrite !map_map. cbn [page_content metadata]. split; [|split].
  - reflexivity.
  - reflexivity.
  - apply map_ext. intros doc. reflexivity.
Qed.

Section MoreTools.

Variable json_loads : string -> result pyval.
Variable py_str : pyval -> string.
Variable getenv_api_key : option string.
Variable vision_call : pyval -> result string.
Variable stdout_write : text -> result unit.

Local Abbreviation extract_info :=
  (extract_nutrition_info_gpt4o json_loads getenv_api_key vision_call).
Local Abbreviation analyze :=
  (analyze_food_product json_loads py_str getenv_api_key vision_call
     stdout_write).
Local Abbreviation try_body :=
  (analyze_try json_loads py_str getenv_api_key vision_call stdout_write).
Local Abbreviation display := (display_nutrition_summary py_str stdout_write).
Local Abbreviation say := (print stdout_write).

(** *** print *)

Lemma say_run (line : text) (w : world) :
  say line w = (stdout_write line, logged w [Print line]).
Proof. reflexivity. Qed.

(** *** analyze_food_product *)

(** How the extraction ends: without a key; with the exception of the
    call; with the product data; with the failure value of the parser;
    with another exception of the parser. *)
Lemma extract_cases (image_path : pyval) (api_key : option string)
  (w : world) :
  (api_key = None
   /\ exists e, extract_info image_path api_key w = (Raise e, w))
  \/ (exists e,
        vision_call image_path = Raise e
        /\ extract_info image_path api_key w
           = (Raise e, logged w [VisionCall image_path]))
  \/ (exists text data,
        vision_call image_path = Ok text
        /\ json_loads (locate_json text) = Ok data
        /\ extract_info image_path api_key w
           = (Ok (VDict [("success", VBool true); ("data", data);
                         ("raw_response", VStr text)]),
              logged w [VisionCall image_path]))
  \/ (exists text e,
        vision_call image_path = Ok text
        /\ json_loads (locate_json text) = Raise e
        /\ extract_info image_path api_key w
           = (Ok (VDict [("success", VBool false);
                         ("error",
                          VStr ("Failed to parse JSON: " ++ exn_str e));
                         ("raw_response", VStr text)]),
              logged w [VisionCall image_path]))
  \/ (exists text e,
        vision_call image_path = Ok text
        /\ json_loads (locate_json text) = Raise e
        /\ extract_info image_path api_key w
           = (Raise e, logged w [VisionCall image_path])).
Proof.
  unfold extract_nutrition_info_gpt4o, bind, lift, log.
  destruct api_key as [k|].
  - right. cbn [trace session]. fold (logged w [VisionCall image_path]).
    destruct (vision_call image_path) as [text|e]; [|left; now exists e].
    right. unfold parse_extraction, rcatch.
    destruct (json_loads (locate_json text)) as [data|e] eqn:Hj;
      cbn [rbind].
    + left. now exists text, data.
    + right. destruct (is_json_decode_error e).
      * left. now exists text, e.
      * right. now exists text, e.
  - destruct (match getenv_api_key with
              | Some k => _
              | None => _
              end) as [u|e]; [|left; split; [reflexivity | now exists e]].
    right. cbn [trace session]. fold (logged w [VisionCall image_path]).
    destruct (vision_call image_path) as [text|e]; [|left; now exists e].
    right. unfold parse_extraction, rcatch.
    destruct (json_loads (locate_json text)) as [data|e] eqn:Hj;
      cbn [rbind].
    + left. now exists text, data.
    + right. destruct (is_json_decode_error e).
      * left. now exists text, e.
      * right. now exists text, e.
Qed.

(** One way through the [try] block, once its run is computed. *)
Ltac try_leaf :=
  eexists; eexists;
  split; [rewrite ?logged_logged; cbn [app]; reflexivity|];
  split; [first [left; reflexivity | right; reflexivity]|];
  split;
  [ let v := fresh "v" in
    let Hv := fresh "Hv" in
    intros v Hv;
    first [ discriminate Hv
          | inversion Hv; subst;
            first [ left; reflexivity
                  | right; eexists; split; eassumption ] ]
  | split;
    [ let Hall := fresh "Hall" in
      intros Hall;
      first
        [ match goal with
          | H : stdout_write _ = Raise _ |- _ =>
              rewrite Hall in H; discriminate H
          end
        | split;
          [ let v := fresh "v" in
            let Hv := fresh "Hv" in
            intros v Hv; first [discriminate Hv | reflexivity]
          | let k := fresh "k" in
            let text := fresh "text" in
            let data := fresh "data" in
            intros k text data ? ? ?; congruence ] ]
    | let k := fresh "k" in
      let e := fresh "e" in
      intros k e ? ?;
      first [ congruence | split; [congruence | reflexivity] ] ] ].

(** What the [try] block does: it enters the request to the vision model
    once at most, and prints its lines; what it returns is None or the
    product data that the reply parses to. *)
Lemma analyze_try_cases (image_path : pyval) (api_key : option string)
  (w : world) :
  exists r evs,
    try_body image_path api_key w = (r, logged w evs)
    /\ (calls_of evs = [] \/ calls_of evs = [VisionCall image_path])
    /\ (forall v,
          r = Ok v ->
          v = VNone
          \/ exists text,
               vision_call image_path = Ok text
               /\ json_loads (locate_json text) = Ok v)
    /\ ((forall l, stdout_write l = Ok tt) ->
        (forall v, r = Ok v -> existsb is_print evs = true)
        /\ (forall k text data,
              api_key = Some k ->
              vision_call image_path = Ok text ->
              json_loads (locate_json text) = Ok data ->
              r = Ok data))
    /\ (forall k e,
          api_key = Some k ->
          vision_call image_path = Raise e ->
          r = Raise e /\ evs = [VisionCall image_path]).
Proof.
  unfold analyze_try. unfold bind at 1.
  destruct (extract_cases image_path api_key w)
    as [[Hk [e Hx]] | [[e [Hv Hx]] | [[text [data [Hv [Hj Hx]]]]
       | [[text [e [Hv [Hj Hx]]]] | [text [e [Hv [Hj Hx]]]]]]]];
    rewrite Hx.
  - exists (Raise e), []. split; [f_equal; apply logged_nil|].
    split; [now left|]. split; [discriminate|]. split.
    + intros _. split; [discriminate | congruence].
    + congruence.
  - try_leaf.
  - unfold bind at 1, lift at 1.
    cbn [py_getitem dict_get String.eqb Ascii.eqb Bool.eqb truthy].
    unfold bind at 1. rewrite say_run.
    destruct (stdout_write _) as [u|e1] eqn:H1; unfold lift;
      cbn [py_getitem dict_get String.eqb Ascii.eqb Bool.eqb];
      try_leaf.
  - unfold bind at 1, lift at 1.
    cbn [py_getitem dict_get String.eqb Ascii.eqb Bool.eqb truthy].
    unfold bind at 1, lift at 1.
    cbn [py_getitem dict_get String.eqb Ascii.eqb Bool.eqb].
    unfold bind at 1. rewrite say_run.
    destruct (stdout_write _) as [u|e1] eqn:H1; [|try_leaf].
    unfold bind at 1, print_str at 1. rewrite say_run.
    destruct (stdout_write (code_points "Raw response:")) as [u2|e2] eqn:H2;
      [|try_leaf].
    unfold bind at 1, lift at 1.
    cbn [py_getitem dict_get String.eqb Ascii.eqb Bool.eqb].
    unfold bind at 1, print_str at 1. rewrite say_run.
    destruct (stdout_write (code_points (py_str (VStr text))))
      as [u3|e3] eqn:H3; unfold ret; try_leaf.
  - try_leaf.
Qed.

(** The run of the tool around its [try] block. *)
Lemma analyze_run (image_path : pyval) (api_key : option string)
  (w : world) :
  analyze image_path api_key w
  = let first := code_points ("Analyzing food product image: "
                               ++ py_str image_path) in
    match stdout_write first with
    | Raise e => (Raise e, logged w [Print first])
    | Ok _ =>
        match try_body image_path api_key (logged w [Print first]) with
        | (Ok v, w') => (Ok v, w')
        | (Raise e, w') =>
            (match stdout_write (error_analyzing e) with
             | Ok _ => Ok VNone
             | Raise e' => Raise e'
             end,
             logged w' [Print (error_analyzing e)])
        end
    end.
Proof.
  unfold analyze_food_product, print_str. unfold bind at 1.
  rewrite say_run. cbv zeta.
  destruct (stdout_write _) as [u|e]; [|reflexivity].
  unfold try_except.
  destruct (analyze_try json_loads py_str getenv_api_key vision_call
              stdout_write image_path api_key _) as [[v|e] w'];
    [reflexivity|].
  unfold bind. rewrite say_run.
  now destruct (stdout_write (error_analyzing e)).
Qed.

Lemma calls_of_app_print (evs : list event) (line : text) :
  calls_of (evs ++ [Print line]) = calls_of evs.
Proof. unfold calls_of. rewrite filter_app. cbn. apply app_nil_r. Qed.

(** X19.  [analyze_food_product] raises only what [print] raises.  It
    first prints the line that names the image: when that [print] raises,
    the tool raises and does nothing else.  Otherwise it enters the
    request to the vision model (lines 83-124 of the extraction) once at
    most, and every exception of its [try] block (no key, an exception of
    those lines, a line that cannot be printed) reaches its handler, which
    prints the error and returns None: the tool raises only when this last
    [print] raises.  What it returns is the product data the reply parses
    to, or None.  On a standard output that
    takes every line it never raises, prints at least two lines, returns
    the product data whenever it has a key and the reply parses, and after
    an exception of lines 83-124 it has printed the text of that exception
    and returns None. *)
Theorem analyze_raises_only_what_print_raises (image_path : pyval)
  (api_key : option string) (w : world) :
  let first := code_points ("Analyzing food product image: "
                             ++ py_str image_path) in
  exists r evs,
    analyze image_path api_key w = (r, logged w (Print first :: evs))
    /\ (calls_of evs = [] \/ calls_of evs = [VisionCall image_path])
    /\ (forall e, stdout_write first = Raise e -> r = Raise e /\ evs = [])
    /\ (forall e,
          r = Raise e ->
          exists line,
            stdout_write line = Raise e
            /\ (line = first \/ exists e', line = error_analyzing e'))
    /\ (forall v,
          r = Ok v ->
          v = VNone
          \/ exists text,
               vision_call image_path = Ok text
               /\ json_loads (locate_json text) = Ok v)
    /\ ((forall l, stdout_write l = Ok tt) ->
        (exists v, r = Ok v)
        /\ existsb is_print evs = true
        /\ (forall k text data,
              api_key = Some k ->
              vision_call image_path = Ok text ->
              json_loads (locate_json text) = Ok data ->
              r = Ok data)
        /\ (forall k e,
              api_key = Some k ->
              vision_call image_path = Raise e ->
              r = Ok VNone
              /\ evs = [VisionCall image_path;
                        Print (error_analyzing e)])).
Proof.
  intros first. rewrite analyze_run. cbv zeta. fold first.
  destruct (stdout_write first) as [u|e] eqn:Hfirst.
  - destruct (analyze_try_cases image_path api_key (logged w [Print first]))
      as [rb [evs [Hb [Hcalls [Hval [Hall Hraise]]]]]].
    rewrite Hb. destruct rb as [v|e].
    + exists (Ok v), evs. rewrite logged_logged.
      split; [reflexivity|]. split; [exact Hcalls|].
      split; [discriminate|]. split; [discriminate|].
      split; [exact Hval|].
      intros Hw. destruct (Hall Hw) as [Hprint Hdata].
      split; [now exists v|]. split; [now apply (Hprint v)|].
      split; [exact Hdata|].
      intros k e Hk Hv. destruct (Hraise k e Hk Hv) as [H _].
      discriminate H.
    + exists (match stdout_write (error_analyzing e) with
              | Ok _ => Ok VNone
              | Raise e' => Raise e'
              end), (evs ++ [Print (error_analyzing e)])%list.
      rewrite !logged_logged.
      split; [reflexivity|].
      rewrite calls_of_app_print. split; [exact Hcalls|].
      split; [discriminate|].
      split.
      { intros e' H.
        destruct (stdout_write (error_analyzing e)) as [u'|e''] eqn:Hh;
          [discriminate H|].
        inversion H; subst e''. exists (error_analyzing e).
        split; [exact Hh|]. right. now exists e. }
      split.
      { intros v H.
        destruct (stdout_write (error_analyzing e)); [|discriminate H].
        inversion H. now left. }
      intros Hw. rewrite Hw.
      split; [now exists VNone|].
      split.
      { rewrite existsb_app. cbn. apply orb_true_r. }
      destruct (Hall Hw) as [_ Hdata].
      split.
      * intros k text data Hk Hv Hj.
        pose proof (Hdata k text data Hk Hv Hj) as H. discriminate H.
      * intros k e' Hk Hv. destruct (Hraise k e' Hk Hv) as [H ->].
        inversion H. now split.
  - exists (Raise e), []. split; [reflexivity|].
    split; [now left|].
    split; [intros e' H; inversion H; now split|].
    split; [intros e' H; inversion H; subst e'; exists first;
            split; [exact Hfirst | now left]|].
    split; [discriminate|].
    intros Hw. rewrite Hw in Hfirst. discriminate Hfirst.
Qed.

(** X13.  The tool without a key.  Called without a key while the key of
    the environment is unset or empty, [analyze_food_product] prints the
    line that names the image, does not enter the request to the vision
    model, prints the message of the ValueError that the extraction
    raised, and returns None, on a standard output that takes these two
    lines. *)
Theorem analyze_without_key (image_path : pyval) (w : world) :
  let first := code_points ("Analyzing food product image: "
                             ++ py_str image_path) in
  let e := Exn ValueError
"API key not provided and NETAICONNECT_API_KEY environment variable not set"
  in
  getenv_api_key = None \/ getenv_api_key = Some EmptyString ->
  stdout_write first = Ok tt ->
  stdout_write (error_analyzing e) = Ok tt ->
  analyze image_path None w
  = (Ok VNone, logged w [Print first; Print (error_analyzing e)]).
Proof.
  intros first e Hkey Hfirst Herr. rewrite analyze_run. cbv zeta.
  fold first. rewrite Hfirst.
  assert (Hx : try_body image_path None (logged w [Print first])
               = (Raise e, logged w [Print first])).
  { unfold analyze_try, extract_nutrition_info_gpt4o.
    unfold bind at 1 2. unfold lift at 1.
    destruct Hkey as [-> | ->]; reflexivity. }
  rewrite Hx. fold e. rewrite Herr. now rewrite logged_logged.
Qed.

(** *** display_nutrition_summary *)

Lemma logged_no_print (w : world) : w = logged w (map Print []).
Proof. apply logged_nil. Qed.

Lemma prints_ret {A} (a : A) (post : result A -> Prop) :
  post (Ok a) -> prints (ret a) post.
Proof.
  intros H w. exists (Ok a), []. split; [|exact H].
  unfold ret. f_equal. apply logged_no_print.
Qed.

Lemma prints_lift {A} (r : result A) (post : result A -> Prop) :
  post r -> prints (lift r) post.
Proof.
  intros H w. exists r, []. split; [|exact H].
  unfold lift. f_equal. apply logged_no_print.
Qed.

(** A line is printed, or [print] raises. *)
Lemma prints_print (line : text) (post : result unit -> Prop) :
  (forall e, stdout_write line = Raise e -> post (Raise e)) ->
  post (Ok tt) -> prints (say line) post.
Proof.
  intros Hraise Hok w. exists (stdout_write line), [line].
  split; [reflexivity|].
  destruct (stdout_write line) as [[]|e]; [exact Hok | now apply Hraise].
Qed.

Lemma prints_bind {A B} (m : M A) (k : A -> M B) (post : result B -> Prop) :
  prints m (fun r => match r with
                     | Ok a => prints (k a) post
                     | Raise e => post (Raise e)
                     end) ->
  prints (bind m k) post.
Proof.
  intros H w. destruct (H w) as [r [out [Hm Hr]]]. unfold bind. rewrite Hm.
  destruct r as [a|e].
  - destruct (Hr (logged w (map Print out))) as [r' [out' [Hk Hpost]]].
    exists r', (out ++ out')%list. rewrite Hk, logged_logged, map_app.
    now split.
  - exists (Raise e), out. now split.
Qed.

(** What follows a step is print-closed when the end is. *)
Lemma print_closed_bind {A B} (k : A -> M B) (post : result B -> Prop) :
  print_closed stdout_write post ->
  print_closed stdout_write
    (fun r : result A => match r with
                         | Ok a => prints (k a) post
                         | Raise e => post (Raise e)
                         end).
Proof. intros H line e He. exact (H line e He). Qed.

Lemma prints_line {B} (post : result B -> Prop) (line : string) (k : M B) :
  print_closed stdout_write post ->
  prints k post -> prints (print_str stdout_write line ;;; k) post.
Proof.
  intros Hc Hk. apply prints_bind. unfold print_str. apply prints_print.
  - intros e He. exact (Hc _ e He).
  - exact Hk.
Qed.

Lemma prints_last (post : result unit -> Prop) (line : string) :
  print_closed stdout_write post ->
  post (Ok tt) -> prints (print_str stdout_write line) post.
Proof.
  intros Hc Hok. unfold print_str. apply prints_print; [|exact Hok].
  intros e He. exact (Hc _ e He).
Qed.

Lemma prints_get {B} (post : result B -> Prop) (d : dict) (k : string)
  (default : pyval) (line : string -> string) (next : M B) :
  print_closed stdout_write post ->
  prints next post ->
  prints (print_get py_str stdout_write (VDict d) k default line ;;; next)
    post.
Proof.
  intros Hc Hnext. apply prints_bind. unfold print_get. apply prints_bind.
  apply prints_lift. cbn [py_get]. unfold print_str. apply prints_print.
  - intros e He. exact (Hc _ e He).
  - exact Hnext.
Qed.

Lemma prints_get_raises {B} (post : result B -> Prop) (v : pyval)
  (k : string) (default : pyval) (line : string -> string) (next : M B) :
  match v with VDict _ => False | _ => True end ->
  (forall e, exn_cls e = AttributeError -> post (Raise e)) ->
  prints (print_get py_str stdout_write v k default line ;;; next) post.
Proof.
  intros Hv H. apply prints_bind. unfold print_get. apply prints_bind.
  apply prints_lift. destruct v; try contradiction; now apply H.
Qed.

Lemma prints_items (post : result unit -> Prop) (items : dict) :
  print_closed stdout_write post ->
  post (Ok tt) -> prints (print_items py_str stdout_write items) post.
Proof.
  intros Hc H. induction items as [|[k v] items IH]; cbn [print_items].
  - now apply prints_ret.
  - now apply prints_line.
Qed.

Lemma prints_known {B} (post : result B -> Prop) (k : string) (nd : dict)
  (next : bool -> M B) :
  (forall b, prints (next b) post) ->
  prints (bind (lift (present_and_known k (VDict nd))) next) post.
Proof.
  intros H. apply prints_bind. apply prints_lift. unfold present_and_known.
  cbn [py_in py_getitem rbind].
  destruct (dict_get k nd); cbn [rbind]; apply H.
Qed.

Lemma prints_optional {B} (post : result B -> Prop) (b : bool) (d : dict)
  (k : string) (default : pyval) (line : string -> string) (next : M B) :
  print_closed stdout_write post ->
  prints next post ->
  prints ((if b
           then print_get py_str stdout_write (VDict d) k default line
           else ret tt) ;;; next) post.
Proof.
  intros Hc H. destruct b.
  - now apply prints_get.
  - apply prints_bind. now apply prints_ret.
Qed.

(** The steps of the summary that print a line whatever the dict holds. *)
Ltac print_steps Hc :=
  repeat first
    [ apply prints_get; [exact Hc|]
    | apply prints_line; [exact Hc|]
    | apply prints_known; intros ?
    | apply prints_optional; [exact Hc|] ];
  cbv beta iota.

(** The block of the nutrition values on a dict fails on other nutrients
    that are truthy and no dict, and on nothing else but a [print]. *)
Lemma prints_nutrition (post : result unit -> Prop) (nd : dict)
  (next : M unit) :
  print_closed stdout_write post ->
  match dict_get "other_nutrients" nd with
  | Some (VDict _) | None => prints next post
  | Some other =>
      if truthy other
      then forall e, exn_cls e = AttributeError -> post (Raise e)
      else prints next post
  end ->
  prints (display_nutrition py_str stdout_write (VDict nd) ;;; next) post.
Proof.
  intros Hc H. apply prints_bind.
  pose proof (print_closed_bind (fun _ : unit => next) post Hc) as Hc'.
  unfold display_nutrition. print_steps Hc'.
  apply prints_bind. apply prints_lift. cbn [py_get].
  destruct (dict_get "other_nutrients" nd) as [other|].
  - destruct other as [| vb | z | f | s | l | od];
      try (destruct (truthy _) eqn:Ht;
           [|now apply prints_ret];
           apply prints_line; [exact Hc'|];
           apply prints_bind; apply prints_lift; now apply H).
    destruct (truthy (VDict od)); [|now apply prints_ret].
    apply prints_line; [exact Hc'|].
    apply prints_bind. apply prints_lift. cbn [py_items].
    now apply prints_items.
  - cbn [truthy]. now apply prints_ret.
Qed.

Lemma prints_nutrition_raises (post : result unit -> Prop) (v : pyval)
  (next : M unit) :
  print_closed stdout_write post ->
  match v with VDict _ => False | _ => True end ->
  (forall e, exn_cls e = AttributeError -> post (Raise e)) ->
  prints (display_nutrition py_str stdout_write v ;;; next) post.
Proof.
  intros Hc Hv H. apply prints_bind.
  pose proof (print_closed_bind (fun _ : unit => next) post Hc) as Hc'.
  unfold display_nutrition.
  do 4 (apply prints_line; [exact Hc'|]).
  now apply prints_get_raises.
Qed.

(** X20.  [display_nutrition_summary] only prints: it logs calls of
    [print] and nothing else.  On a falsy value it prints the one line
    that says there is no data.  On a truthy value it starts with the
    three lines of the head.  It ends in one of three ways: it returns,
    which it does only on a value that is falsy or a dict whose nutrition
    mapping is absent, falsy or a dict with other nutrients that are
    absent, falsy or a dict; it raises AttributeError, which it does only
    on the other values (such as a product whose nutrition mapping is the
    str with which the extraction prompt has the model mark what it cannot
    read); or it raises what one of its prints raised.  On a standard
    output that takes every line the shape of the value decides alone. *)
Theorem display_prints_or_raises (nutrition_data : pyval) (w : world) :
  exists r out,
    display nutrition_data w = (r, logged w (map Print out))
    /\ (summary_shape nutrition_data = true ->
        r = Ok tt \/ raised_by_print stdout_write r)
    /\ (summary_shape nutrition_data = false ->
        (exists e, r = Raise e /\ exn_cls e = AttributeError)
        \/ raised_by_print stdout_write r)
    /\ (truthy nutrition_data = false ->
        out = [code_points "No data to display"])
    /\ (truthy nutrition_data = true ->
        exists rest,
          out = code_points (PyStr.nl ++ str_times "=" 60) :: rest
          /\ ((forall l, stdout_write l = Ok tt) ->
              exists rest',
                rest = code_points "FOOD PRODUCT NUTRITIONAL INFORMATION"
                       :: code_points (str_times "=" 60) :: rest'))
    /\ ((forall l, stdout_write l = Ok tt) ->
        (summary_shape nutrition_data = true -> r = Ok tt)
        /\ (summary_shape nutrition_data = false ->
            exists e, r = Raise e /\ exn_cls e = AttributeError)).
Proof.
  set (post := fun r : result unit =>
         (summary_shape nutrition_data = true ->
          r = Ok tt \/ raised_by_print stdout_write r)
         /\ (summary_shape nutrition_data = false ->
             (exists e, r = Raise e /\ exn_cls e = AttributeError)
             \/ raised_by_print stdout_write r)).
  assert (Hc : print_closed stdout_write post).
  { intros line e He. split; intros _; right; now exists line, e. }
  assert (Hok : summary_shape nutrition_data = true -> post (Ok tt)).
  { intros Hs. split; [now left|]. congruence. }
  assert (Hraise : summary_shape nutrition_data = false ->
                   forall e, exn_cls e = AttributeError -> post (Raise e)).
  { intros Hs e He. split; [congruence|]. intros _. left. now exists e. }
  assert (Hall : forall r,
            post r -> (forall l, stdout_write l = Ok tt) ->
            (summary_shape nutrition_data = true -> r = Ok tt)
            /\ (summary_shape nutrition_data = false ->
                exists e, r = Raise e /\ exn_cls e = AttributeError)).
  { intros r [H1 H2] Hw.
    assert (Hno : ~ raised_by_print stdout_write r).
    { intros [line [e [He _]]]. rewrite Hw in He. discriminate He. }
    split; intros Hs; [destruct (H1 Hs) | destruct (H2 Hs)];
      first [assumption | contradiction]. }
  assert (Hmain : exists r out,
            display nutrition_data w = (r, logged w (map Print out))
            /\ post r
            /\ (truthy nutrition_data = false ->
                out = [code_points "No data to display"])
            /\ (truthy nutrition_data = true ->
                exists rest,
                  out = code_points (PyStr.nl ++ str_times "=" 60) :: rest
                  /\ ((forall l, stdout_write l = Ok tt) ->
                      exists rest',
                        rest = code_points
                                 "FOOD PRODUCT NUTRITIONAL INFORMATION"
                               :: code_points (str_times "=" 60) :: rest'))).
  { unfold display_nutrition_summary.
    destruct (truthy nutrition_data) eqn:Ht; cbn [negb].
    - assert (Hrest : prints
                (print_get py_str stdout_write nutrition_data "product_name"
                   (VStr "N/A") (fun x => PyStr.nl ++ "Product: " ++ x) ;;;
                 print_get py_str stdout_write nutrition_data "brand"
                   (VStr "N/A") (fun x => "Brand: " ++ x) ;;;
                 print_get py_str stdout_write nutrition_data "product_type"
                   (VStr "N/A") (fun x => "Type: " ++ x) ;;;
                 print_get py_str stdout_write nutrition_data "package_size"
                   (VStr "N/A") (fun x => "Package Size: " ++ x) ;;;
                 print_get py_str stdout_write nutrition_data "serving_size"
                   (VStr "N/A") (fun x => "Serving Size: " ++ x) ;;;
                 nutrition <- lift (py_get nutrition_data
                                      "nutritional_info_per_100g"
                                      (VDict [])) ;;
                 (if truthy nutrition
                  then display_nutrition py_str stdout_write nutrition
                  else ret tt) ;;;
                 print_str stdout_write (PyStr.nl ++ str_times "=" 60))
                post).
      { destruct nutrition_data as [| b | z | f | s | l | d];
          try (apply prints_get_raises; [exact I|];
               apply Hraise; unfold summary_shape; rewrite Ht; reflexivity).
        print_steps Hc. apply prints_bind. apply prints_lift. cbn [py_get].
        revert Hok Hraise. unfold summary_shape. rewrite Ht. cbn [negb].
        destruct (dict_get "nutritional_info_per_100g" d) as [nutrition|];
          intros Hok Hraise.
        - destruct (truthy nutrition) eqn:Hn.
          + destruct nutrition as [| vb | z | f | s | l | nd];
              cbv beta iota in Hok, Hraise;
              try (apply prints_nutrition_raises;
                   [exact Hc | exact I | intros e He; now apply Hraise]).
            destruct nd as [|kv nd]; [discriminate Hn|].
            apply prints_nutrition; [exact Hc|].
            destruct (dict_get "other_nutrients" (kv :: nd)) as [other|];
              [|apply prints_last; [exact Hc | now apply Hok]].
            destruct (truthy other) eqn:Ho;
              destruct other as [| vb | z | f | s | l | od];
              cbv beta iota in Hok, Hraise |- *;
              first [ intros e He; now apply Hraise
                    | apply prints_last; [exact Hc | now apply Hok] ].
          + apply prints_bind. apply prints_ret.
            apply prints_last; [exact Hc|]. apply Hok.
            destruct nutrition as [| vb | z | f | s | l | nd];
              cbv beta iota; try reflexivity.
            destruct nd; [reflexivity | discriminate Hn].
        - cbn [truthy]. apply prints_bind.
          apply prints_ret. apply prints_last; [exact Hc|].
          now apply Hok. }
      set (h1 := code_points (PyStr.nl ++ str_times "=" 60)).
      set (h2 := code_points "FOOD PRODUCT NUTRITIONAL INFORMATION").
      set (h3 := code_points (str_times "=" 60)).
      unfold bind at 1. unfold print_str at 1. fold h1. rewrite say_run.
      destruct (stdout_write h1) as [u1|e1] eqn:E1.
      + unfold bind at 1. unfold print_str at 1. fold h2. rewrite say_run.
        destruct (stdout_write h2) as [u2|e2] eqn:E2.
        * unfold bind at 1. unfold print_str at 1. fold h3. rewrite say_run.
          destruct (stdout_write h3) as [u3|e3] eqn:E3.
          -- destruct (Hrest (logged (logged (logged w [Print h1])
                                        [Print h2]) [Print h3]))
               as [r [out [Hrun Hpost]]].
             rewrite Hrun. exists r, (h1 :: h2 :: h3 :: out).
             rewrite !logged_logged.
             split; [reflexivity|]. split; [exact Hpost|].
             split; [discriminate|].
             intros _. exists (h2 :: h3 :: out).
             split; [reflexivity|]. intros _. now exists out.
          -- exists (Raise e3), [h1; h2; h3]. rewrite !logged_logged.
             split; [reflexivity|]. split; [exact (Hc h3 e3 E3)|].
             split; [discriminate|].
             intros _. exists [h2; h3]. split; [reflexivity|].
             intros Hw. rewrite Hw in E3. discriminate E3.
        * exists (Raise e2), [h1; h2]. rewrite !logged_logged.
          split; [reflexivity|]. split; [exact (Hc h2 e2 E2)|].
          split; [discriminate|].
          intros _. exists [h2]. split; [reflexivity|].
          intros Hw. rewrite Hw in E2. discriminate E2.
      + exists (Raise e1), [h1].
        split; [reflexivity|]. split; [exact (Hc h1 e1 E1)|].
        split; [discriminate|].
        intros _. exists []. split; [reflexivity|].
        intros Hw. rewrite Hw in E1. discriminate E1.
    - unfold print_str. rewrite say_run.
      exists (stdout_write (code_points "No data to display")),
        [code_points "No data to display"].
      split; [reflexivity|]. split.
      + destruct (stdout_write (code_points "No data to display"))
          as [[]|e] eqn:E.
        * apply Hok. unfold summary_shape. now rewrite Ht.
        * exact (Hc _ e E).
      + split; [reflexivity | discriminate]. }
  destruct Hmain as [r [out [Hrun [[H1 H2] [Hfalse Htrue]]]]].
  exists r, out. split; [exact Hrun|]. split; [exact H1|].
  split; [exact H2|]. split; [exact Hfalse|]. split; [exact Htrue|].
  intros Hw. apply Hall; [now split | exact Hw].
Qed.

End MoreTools.
(** ** Closed instances of the further properties *)

(** X1, witness: the label of section 8, with its fiber. *)
Lemma analysis_keys_witness :
  exists a,
    VDict Scenario.label_analysis = VDict a
    /\ (map fst a = nutrients \/ map fst a = (nutrients ++ ["fiber_g"])%list)
    /\ Forall (fun kv => exists p b q, snd kv = analysis_entry p b q) a.
Proof.
  apply (analysis_keys PyFloat.of_string (VDict Scenario.label)
           FSSAI_INR_BASELINE).
  vm_compute. reflexivity.
Defined.

(** X2, witness: two more entries change nothing. *)
Lemma analysis_reads_six_entries_witness :
  calculate_nutrient_analysis PyFloat.of_string (VDict Sample.label_with_more)
    FSSAI_INR_BASELINE
  = calculate_nutrient_analysis PyFloat.of_string (VDict Scenario.label)
      FSSAI_INR_BASELINE.
Proof.
  apply analysis_reads_six_entries. intros k Hk. simpl in Hk.
  destruct Hk as [<- | [<- | [<- | [<- | [<- | [<- | []]]]]]]; reflexivity.
Defined.

(** X3, witness: the label with 2 g of fiber, against a table without
    fiber and against one with a fiber entry of 0. *)
Lemma fiber_baseline_unguarded_witness :
  calculate_nutrient_analysis PyFloat.of_string (VDict Scenario.label)
    Sample.baseline_without_fiber
  = Raise (Exn KeyError "'fiber_g'")
  /\ calculate_nutrient_analysis PyFloat.of_string (VDict Scenario.label)
       Sample.baseline_zero_fiber
     = Raise (Exn ZeroDivisionError "float division by zero").
Proof.
  assert (Hfib : fiber_number PyFloat.of_string
                   (dict_get "fiber_g" Scenario.label) 2%float)
    by (apply fiber_int; vm_compute; reflexivity).
  split.
  - apply (fiber_baseline_unguarded PyFloat.of_string Scenario.label
             Sample.baseline_without_fiber 2%float eq_refl);
      [|exact Hfib | reflexivity].
    intros k Hk. simpl in Hk.
    destruct Hk as [<- | [<- | [<- | [<- | [<- | []]]]]]; reflexivity.
  - apply (fiber_baseline_unguarded PyFloat.of_string Scenario.label
             Sample.baseline_zero_fiber 2%float eq_refl);
      [|exact Hfib | reflexivity].
    intros k Hk. simpl in Hk.
    destruct Hk as [<- | [<- | [<- | [<- | [<- | []]]]]]; reflexivity.
Defined.

(** X4, witness: a table of zeros, without sodium. *)
Lemma mandatory_baseline_guarded_witness :
  exists a,
    calculate_nutrient_analysis PyFloat.of_string
      (VDict Sample.label_without_fiber) Sample.baseline_of_zeros
    = Ok (VDict a)
    /\ forall k, In k nutrients ->
         exists c,
           coerces PyFloat.of_string
             (dict_get k Sample.label_without_fiber) c
           /\ dict_get k a
              = Some (match dict_get k Sample.baseline_of_zeros with
                      | Some v => analysis_entry (coerced_val c) v (VInt 0)
                      | None => analysis_entry (coerced_val c) (VInt 1)
                                  (percent_entry c 1%float)
                      end).
Proof.
  apply (mandatory_baseline_guarded PyFloat.of_string
           Sample.label_without_fiber Sample.baseline_of_zeros eq_refl).
  - apply fiber_absent.
  - intros k Hk. simpl in Hk.
    destruct Hk as [<- | [<- | [<- | [<- | [<- | []]]]]];
      vm_compute; reflexivity || exact I.
Defined.

(** X4, on the same input: energy against 0 gives the percentage 0, sodium
    against no entry is divided by 1. *)
Example zero_and_absent_baseline :
  calculate_nutrient_analysis PyFloat.of_string
    (VDict Sample.label_without_fiber) Sample.baseline_of_zeros
  = Ok (VDict
          [("energy_kcal", analysis_entry (VFloat 450) (VInt 0) (VInt 0));
           ("sugars_g", analysis_entry (VFloat 25) (VFloat 0) (VInt 0));
           ("saturated_fat_g", analysis_entry (VFloat 8) (VInt 0) (VInt 0));
           ("sodium_mg",
            analysis_entry (VFloat 200) (VInt 1) (VFloat 20000));
           ("protein_g", analysis_entry (VFloat 6) VNone (VInt 0))]).
Proof. vm_compute. reflexivity. Qed.

(** X7, witness: the upload of label.PNG, the vision model answering with
    the fenced product, the rating model with a rating. *)
Lemma upload_success_witness :
  exists a prompt inr,
    calculate_nutrient_analysis PyFloat.of_string (VDict Scenario.label)
      FSSAI_INR_BASELINE = Ok (VDict a)
    /\ reasoning_prompt PyRepr.str PyFloat.format_1f Scenario.product_data
         (VDict a) FSSAI_INR_BASELINE = Ok prompt
    /\ Json.loads (PyStr.drop 8 Scenario.rating_reply) = Ok inr
    /\ Scenario.upload (Scenario.answers Scenario.label_reply)
         (Scenario.answers Scenario.rating_reply) Scenario.request Scenario.w0
       = (Ok (Response
                (VDict [("success", VBool true);
                        ("product_data", Scenario.product_data);
                        ("analysis", VDict a); ("inr_result", inr);
                        ("image_path", VStr "20240101_120000_label.PNG")])
                200),
          World [SaveFile Sample.path; VisionCall (VStr Sample.path);
                 Normalize (VDict Scenario.label);
                 InrScore Scenario.product_data; RatingCall prompt]
            [("current_product",
              VDict [("product_data", Scenario.product_data);
                     ("analysis", VDict a); ("inr_result", inr);
                     ("image_path", VStr Sample.path)])]).
Proof.
  assert (Hne : "label.PNG" <> EmptyString) by discriminate.
  assert (Hj : Json.loads (locate_json Scenario.label_reply)
               = Ok Scenario.product_data) by (vm_compute; reflexivity).
  assert (Hfive : forall k, In k nutrients ->
                    dict_get k Scenario.label <> None).
  { intros k Hk. simpl in Hk.
    destruct Hk as [<- | [<- | [<- | [<- | [<- | []]]]]]; discriminate. }
  destruct (upload_success PyFloat.of_string Json.loads PyRepr.str
              PyFloat.format_1f (Some "secret")
              (Scenario.answers Scenario.label_reply)
              (Scenario.answers Scenario.rating_reply)
              Scenario.secure_filename Scenario.save_file
              Scenario.request "label.PNG" "secret" Scenario.label_reply
              Scenario.product_data Scenario.label Scenario.w0
              eq_refl Hne eq_refl eq_refl eq_refl eq_refl Hj eq_refl eq_refl
              Hfive) as [a [prompt [Ha [Hp Hup]]]].
  assert (Hm : re_search_braces Scenario.rating_reply
               = Some (PyStr.drop 8 Scenario.rating_reply))
    by (vm_compute; reflexivity).
  assert (Hinr : Json.loads (PyStr.drop 8 Scenario.rating_reply) = Ok _)
    by (vm_compute; reflexivity).
  exists a, prompt. eexists.
  split; [exact Ha|]. split; [exact Hp|]. split; [exact Hinr|].
  exact (Hup Scenario.rating_reply _ _ eq_refl Hm Hinr eq_refl).
Defined.

(** X8, witness: a vision model that cannot read the label; then a vision
    model that can and a rating model that answers without an object. *)
Lemma upload_reports_failures_witness :
  Scenario.upload (Scenario.answers Scenario.vision_no_json)
    (Scenario.answers Scenario.rating_reply) Scenario.request Scenario.w0
  = (Ok (Response
           (VDict [("error", VStr "Nutrition extraction failed");
                   ("details", VStr
"Failed to parse JSON: Expecting value: line 1 column 1 (char 0)")])
           500),
     World [SaveFile Sample.path; VisionCall (VStr Sample.path)] [])
  /\ exists prompt,
       Scenario.upload (Scenario.answers Scenario.label_reply)
         (Scenario.answers Scenario.rating_no_object) Scenario.request
         Scenario.w0
       = (Ok (Response
                (VDict [("error", VStr "INR score calculation failed");
                        ("details", VNone)])
                500),
          World [SaveFile Sample.path; VisionCall (VStr Sample.path);
                 Normalize (VDict Scenario.label);
                 InrScore Scenario.product_data; RatingCall prompt] []).
Proof.
  assert (Hne : "label.PNG" <> EmptyString) by discriminate.
  split.
  - destruct (upload_reports_failures PyFloat.of_string Json.loads PyRepr.str
                PyFloat.format_1f (Some "secret")
                (Scenario.answers Scenario.vision_no_json)
                (Scenario.answers Scenario.rating_reply)
                Scenario.secure_filename Scenario.save_file
                Scenario.request "label.PNG" "secret" Scenario.vision_no_json
                Scenario.w0 eq_refl Hne eq_refl eq_refl eq_refl eq_refl)
      as [Hparse _].
    apply (Hparse (Exn JSONDecodeError
                     "Expecting value: line 1 column 1 (char 0)"));
      vm_compute; reflexivity.
  - destruct (upload_reports_failures PyFloat.of_string Json.loads PyRepr.str
                PyFloat.format_1f (Some "secret")
                (Scenario.answers Scenario.label_reply)
                (Scenario.answers Scenario.rating_no_object)
                Scenario.secure_filename Scenario.save_file
                Scenario.request "label.PNG" "secret" Scenario.label_reply
                Scenario.w0 eq_refl Hne eq_refl eq_refl eq_refl eq_refl)
      as [_ Hrating].
    eexists.
    assert (Hj : Json.loads (locate_json Scenario.label_reply)
                 = Ok Scenario.product_data) by (vm_compute; reflexivity).
    assert (Ha : calculate_nutrient_analysis PyFloat.of_string
                   (VDict Scenario.label) FSSAI_INR_BASELINE
                 = Ok (VDict Scenario.label_analysis))
      by (vm_compute; reflexivity).
    assert (Hp : reasoning_prompt PyRepr.str PyFloat.format_1f
                   Scenario.product_data (VDict Scenario.label_analysis)
                   FSSAI_INR_BASELINE = Ok _) by (vm_compute; reflexivity).
    destruct (Hrating Scenario.product_data (VDict Scenario.label)
                (VDict Scenario.label_analysis) _ Scenario.rating_no_object
                Hj eq_refl Ha Hp eq_refl) as [Hnone _].
    exact (Hnone eq_refl).
Defined.

(** X9, witness: a label that shows no protein. *)
Lemma rating_needs_every_value_witness :
  Json.loads (locate_json Sample.reply_without_protein) = Ok Sample.cola
  /\ exists k',
       In k' nutrients /\ dict_get k' Sample.cola_nutrition = None
       /\ Scenario.upload (Scenario.answers Sample.reply_without_protein)
            (Scenario.answers Scenario.rating_reply) Scenario.request
            Scenario.w0
          = (Ok (Response (VDict [("error", VStr (key_repr k'))]) 500),
             World [SaveFile Sample.path; VisionCall (VStr Sample.path);
                    Normalize (VDict Sample.cola_nutrition);
                    InrScore Sample.cola] []).
Proof.
  assert (Hj : Json.loads (locate_json Sample.reply_without_protein)
               = Ok Sample.cola) by (vm_compute; reflexivity).
  split; [exact Hj|].
  assert (Hin : In "protein_g" nutrients) by (simpl; tauto).
  assert (Hne : "label.PNG" <> EmptyString) by discriminate.
  destruct (rating_needs_every_value PyFloat.of_string Json.loads PyRepr.str
              PyFloat.format_1f (Some "secret")
              (Scenario.answers Sample.reply_without_protein)
              (Scenario.answers Scenario.rating_reply)
              Scenario.secure_filename Scenario.save_file
              Sample.cola VNone Sample.cola_nutrition "protein_g"
              eq_refl Hin eq_refl) as [k' [Hk' [Hmiss [_ Hup]]]].
  exists k'. split; [exact Hk'|]. split; [exact Hmiss|].
  exact (Hup Scenario.request "label.PNG" "secret"
           Sample.reply_without_protein Scenario.w0
           eq_refl Hne eq_refl eq_refl eq_refl eq_refl Hj eq_refl).
Defined.

(** X9, on the same input: the key that is named is protein_g. *)
Example upload_without_protein :
  Scenario.upload (Scenario.answers Sample.reply_without_protein)
    (Scenario.answers Scenario.rating_reply) Scenario.request Scenario.w0
  = (Ok (Response (VDict [("error", VStr "'protein_g'")]) 500),
     World [SaveFile Sample.path; VisionCall (VStr Sample.path);
            Normalize (VDict Sample.cola_nutrition); InrScore Sample.cola]
       []).
Proof. vm_compute. reflexivity. Qed.

(** X11, witness: the upload of the label of section 8, then any chat
    request with a message, on a standard output in UTF-8. *)
Lemma chat_after_upload_witness :
  exists resp w1,
    Scenario.upload (Scenario.answers Scenario.label_reply)
      (Scenario.answers Scenario.rating_reply) Scenario.request Scenario.w0
    = (Ok resp, w1)
    /\ status resp = 200
    /\ exists pd an inr path,
         read_product w1
         = VDict [("analysis", cookie_value an); ("image_path", VStr path);
                  ("inr_result", cookie_value inr);
                  ("product_data", cookie_value pd)]
         /\ exists r evs,
              Scenario.chat_handler Scenario.question w1
              = (r, logged w1 (Print (input_line "Is it healthy?") :: evs))
              /\ count_events is_retrieve evs = 0%nat
              /\ answered Stdout.utf8 r.
Proof.
  eassert (Hup : Scenario.upload (Scenario.answers Scenario.label_reply)
                   (Scenario.answers Scenario.rating_reply) Scenario.request
                   Scenario.w0 = (Ok _, _)) by (vm_compute; reflexivity).
  eexists. eexists. split; [exact Hup|]. split; [reflexivity|].
  destruct (chat_after_upload PyFloat.of_string Json.loads PyRepr.str
              PyFloat.format_1f (Some "secret")
              (Scenario.answers Scenario.label_reply)
              (Scenario.answers Scenario.rating_reply)
              (Scenario.answers "It is high in sugar.")
              (fun _ => Ok ["FSSAI labelling regulation, clause 5"])
              (fun _ _ => Ok "See the labelling regulation.")
              Scenario.secure_filename Scenario.save_file Stdout.utf8
              Scenario.request _ Scenario.w0 _ Hup eq_refl)
    as [pd [an [inr [path [_ [Hread Hchat]]]]]].
  exists pd, an, inr, path. split; [exact Hread|].
  exact (proj1 (Hchat [("message", VStr "Is it healthy?")] eq_refl eq_refl)).
Defined.

(** X11, on the same input: the chat model is asked, the retriever is
    not, and the lines of the question and of the answer are printed. *)
Example chat_after_upload_asks_the_model :
  exists resp w1 prompt,
    Scenario.upload (Scenario.answers Scenario.label_reply)
      (Scenario.answers Scenario.rating_reply) Scenario.request Scenario.w0
    = (Ok resp, w1)
    /\ Scenario.chat_handler Scenario.question w1
       = (Ok (chat_ok "It is high in sugar."),
          logged w1 [Print (input_line "Is it healthy?"); ChatCall prompt;
                     Print (response_line "It is high in sugar.")]).
Proof.
  eexists. eexists. eexists. split.
  - vm_compute. reflexivity.
  - vm_compute. reflexivity.
Qed.

(** X11, on the label of section 8: the chat reads the nutrition mapping
    with its keys sorted, not in the order of the label. *)
Example session_sorts_keys :
  cookie_value (VDict Scenario.label)
  = VDict [("energy_kcal", VInt 450);
           ("fiber_g", VInt 2);
           ("protein_g", VInt 6);
           ("saturated_fat_g", VInt 8);
           ("sodium_mg", VInt 200);
           ("sugars_g", VInt 25)].
Proof. reflexivity. Qed.

(** X12, witness: a session with a product and a theme. *)
Lemma clear_session_forgets_witness :
  exists w1,
    clear_session Sample.session_with_product
    = (Ok (Response (VDict [("success", VBool true)]) 200), w1)
    /\ stored_product w1 = VNone
    /\ dict_get "theme" (session w1) = Some (VStr "dark")
    /\ exists r evs,
         Scenario.chat_handler Scenario.question w1
         = (r, logged w1 (Print (input_line "Is it healthy?")
                          :: Retrieve (VStr "Is it healthy?") :: evs))
         /\ count_events is_retrieve evs = 0%nat
         /\ count_events is_chat_call evs = 0%nat
         /\ answered Stdout.utf8 r.
Proof.
  assert (Hnd : NoDup (map fst (session Sample.session_with_product))).
  { simpl. constructor.
    - intros [H | []]. discriminate H.
    - constructor; [intros [] | constructor]. }
  destruct (clear_session_forgets PyRepr.str PyFloat.format_1f
              (Scenario.answers "It is high in sugar.")
              (fun _ => Ok ["FSSAI labelling regulation, clause 5"])
              (fun _ _ => Ok "See the labelling regulation.")
              Stdout.utf8 Sample.session_with_product Hnd)
    as [w1 [Hclear [_ [Hnone [Hrest [_ Hchat]]]]]].
  exists w1. split; [exact Hclear|]. split; [exact Hnone|].
  split.
  - rewrite (Hrest "theme") by discriminate. reflexivity.
  - exact (Hchat [("message", VStr "Is it healthy?")] eq_refl eq_refl).
Defined.

(** X15, witness: a reply with a sentence before the block and one after
    it. *)
Lemma locate_json_fenced_witness :
  locate_json (Sample.before_fence ++ "```json" ++ Sample.fenced_body
               ++ "```" ++ Sample.after_fence) = "{}"
  /\ locate_json (Sample.before_fence ++ "```" ++ Sample.fenced_body
                  ++ "```" ++ Sample.after_fence) = "{}".
Proof.
  destruct (locate_json_fenced Sample.before_fence Sample.fenced_body
              Sample.after_fence eq_refl eq_refl) as [Hjson Hplain].
  split; [exact Hjson | exact (Hplain eq_refl)].
Defined.

(** X16, witness: a list after a fence that is never closed loses its
    bracket; without a fence it is handed on whole. *)
Lemma locate_json_unfenced_witness :
  locate_json ("Result: " ++ "[1, 2]") = "Result: [1, 2]"
  /\ locate_json ("Result: " ++ "```json" ++ "[1, 2]") = "[1, 2"
  /\ locate_json ("Result: " ++ "```" ++ "[1, 2]") = "[1, 2".
Proof.
  destruct (locate_json_unfenced "Result: " "[1, 2]" eq_refl eq_refl)
    as [Hwhole [Hjson Hplain]].
  split; [exact Hwhole|]. split; [exact Hjson | exact (Hplain eq_refl)].
Defined.

(** X17, witness: the reference parser reads a text that opens with a brace
    as an object or fails, and the rating of the
    label of section 8 is an object. *)
Lemma rating_result_is_object_witness :
  exists v w',
    calculate_inr_score Json.loads PyRepr.str PyFloat.format_1f
      (Scenario.answers Scenario.rating_reply) Scenario.product_data
      (VDict Scenario.label_analysis) FSSAI_INR_BASELINE Scenario.w0
    = (Ok v, w')
    /\ (v = VNone \/ exists d, v = VDict d).
Proof.
  eassert (Hrun : calculate_inr_score Json.loads PyRepr.str PyFloat.format_1f
                    (Scenario.answers Scenario.rating_reply)
                    Scenario.product_data (VDict Scenario.label_analysis)
                    FSSAI_INR_BASELINE Scenario.w0 = (Ok _, _))
    by (vm_compute; reflexivity).
  eexists. eexists. split; [exact Hrun|].
  exact (rating_result_is_object Json.loads PyRepr.str PyFloat.format_1f
           (Scenario.answers Scenario.rating_reply) Scenario.product_data
           (VDict Scenario.label_analysis) FSSAI_INR_BASELINE _ Scenario.w0 _
           loads_brace_dict Hrun).
Defined.

(** X18, on two documents of the index script. *)
Example minimal_documents :
  filter_to_minimal_docs Sample.documents
  = [MkDocument [("source", VStr "data/fssai.pdf")]
       "Every package shall carry a label.";
     MkDocument [("source", VNone)] "The label shall be legible."].
Proof. reflexivity. Qed.

(** X13, witness: no key anywhere, a standard output in UTF-8. *)
Lemma analyze_without_key_witness :
  analyze_food_product Json.loads PyRepr.str None
    (Scenario.answers Scenario.label_reply) Stdout.utf8
    Scenario.image_path None Scenario.w0
  = (Ok VNone,
     World [Print (code_points
"Analyzing food product image: uploads/20240101_120000_label.PNG");
            Print (error_analyzing (Exn ValueError
"API key not provided and NETAICONNECT_API_KEY environment variable not set"))]
       []).
Proof.
  apply (analyze_without_key Json.loads PyRepr.str None
           (Scenario.answers Scenario.label_reply) Stdout.utf8
           Scenario.image_path Scenario.w0).
  - now left.
  - reflexivity.
  - reflexivity.
Defined.

(** X19, on a service that cannot be reached: two lines, and None. *)
Example analyze_connection_error :
  analyze_food_product Json.loads PyRepr.str (Some "secret")
    (Scenario.fails Scenario.connection_error) Stdout.utf8
    Scenario.image_path None Scenario.w0
  = (Ok VNone,
     World [Print (code_points
"Analyzing food product image: uploads/20240101_120000_label.PNG");
            VisionCall Scenario.image_path;
            Print (error_analyzing Scenario.connection_error)] []).
Proof. vm_compute. reflexivity. Qed.

(** X19, on the reply for the label of section 8: two lines, and the
    product. *)
Example analyze_label :
  analyze_food_product Json.loads PyRepr.str (Some "secret")
    (Scenario.answers Scenario.label_reply) Stdout.utf8
    Scenario.image_path None Scenario.w0
  = (Ok Scenario.product_data,
     World [Print (code_points
"Analyzing food product image: uploads/20240101_120000_label.PNG");
            VisionCall Scenario.image_path;
            Print ([10; check_mark]
                   ++ code_points
                        " Successfully extracted nutritional information!")%list]
       []).
Proof. vm_compute. reflexivity. Qed.

(** X19, on the same reply and a standard output in ASCII: the line of the
    success cannot be printed, the handler of the [try] takes the
    exception and cannot print its own line: the tool raises, although the
    product was read. *)
Example analyze_label_on_ascii :
  analyze_food_product Json.loads PyRepr.str (Some "secret")
    (Scenario.answers Scenario.label_reply) Stdout.ascii
    Scenario.image_path None Scenario.w0
  = (Raise (Exn UnicodeEncodeError
"'ascii' codec can't encode character '\u2717' in position 1: ordinal not in range(128)"),
     World [Print (code_points
"Analyzing food product image: uploads/20240101_120000_label.PNG");
            VisionCall Scenario.image_path;
            Print ([10; check_mark]
                   ++ code_points
                        " Successfully extracted nutritional information!")%list;
            Print (error_analyzing (Exn UnicodeEncodeError
"'ascii' codec can't encode character '\u2713' in position 1: ordinal not in range(128)"))]
       []).
Proof. vm_compute. reflexivity. Qed.

(** X20, on a product whose nutrition table is marked as not available:
    the head, the product and the title of the table are printed, then the
    first read of the table raises. *)
Example display_without_table :
  exists printed,
    display_nutrition_summary PyRepr.str Stdout.utf8
      Sample.product_without_table Scenario.w0
    = (Raise (Exn AttributeError "'str' object has no attribute 'get'"),
       World printed [])
    /\ length printed = 12%nat
    /\ last printed (Print []) = Print (code_points (PyStr.nl ++ "Energy:")).
Proof.
  eexists. split; [vm_compute; reflexivity|].
  split; reflexivity.
Qed.
